(** * Guest checkout orchestrator (blocks/commerce-checkout/commerce-checkout.js)

    A shallow embedding of the checkout block: the Session Store helpers
    over [localStorage], the cart fetch, the four Payment Gateway Adapter
    calls, the form validator, and the orchestrator entry points
    [loadCart], [handlePlaceOrder], [handlePayPalReturn] and [decorate],
    followed by the properties of the specification stated on that
    embedding.

    Conventions of the model.
    - A JavaScript string is a [string]; one character stands for one UTF-16
      code unit below 256.  Text that needs a larger code unit is outside
      the model (a JSON escape for one does not parse).
    - A number is an exact decimal [m * 10 ^ e], printed in plain decimal
      notation.  No claim computes with numbers; only their truthiness and
      their printed form are used.  A literal so small that JavaScript
      reads it as 0 is outside the model.
    - An object is the list of its properties in the order they were
      written (JavaScript moves integer-like names to the front; no
      statement depends on that order).
    - [async] functions run to completion one after the other (the block
      awaits every call), so they are functions of the page state in a
      state-and-exception monad, [M].
    - [localStorage] either works or throws on every access
      ([storage_denied]); the helpers of the block catch what it throws.
    - [fetch] is answered by a [server] that sees the calls made so far;
      every call is logged in [calls] with the object sent.
    - Converting a value to text throws for an object that has a property
      of its own called [toString] (decoded JSON never holds a function
      there), and for a list that holds such an object.
    - The markup written to the page is kept as data (which view, and the
      text interpolated into it), together with what can make writing it
      throw.  Labels taken from the placeholders file are strings and are
      not represented, and neither is the timer that removes a notification
      after five seconds.
    - [getProductLink] and [rootLink] come from scripts/commerce.js, which
      is not among the sources: the first is taken to build an address from
      the text of its two arguments, the second not to throw.
    - Whether the browser accepts a string assigned to
      [window.location.href] is its URL parser's answer, [parses].
    - A control takes a string assigned to its value as HTML says: a text
      input drops line breaks, the email input also white space at both
      ends, the select reads empty unless the string is the value of one
      of its options.
    - The selector [[name="key"]] is followed for a [key] without double
      quote, backslash, line break and null character, where it is well
      formed and names the control called [key]; for any other key it is
      taken to be ill-formed, and the statements that depend on it leave
      such keys out. *)

From Stdlib Require Import ZArith String Ascii List Bool.
From stdpp Require Import base option list gmap strings pretty.

Local Open Scope Z_scope.
Set Warnings "-register-all".

(** ** JavaScript strings *)

Module Js.

Definition quote : ascii := "034"%char.
Definition backslash : ascii := "092"%char.

Definition code (c : ascii) : N := N_of_ascii c.

(** [WhiteSpace] and [LineTerminator] code units below 256: what
    [String.prototype.trim] strips and what the regular expression class
    [\s] matches. *)
Definition is_white_space (c : ascii) : bool :=
  match code c with
  | 9 | 10 | 11 | 12 | 13 | 32 | 160 => true
  | _ => false
  end%N.

Fixpoint trimStart (s : string) : string :=
  match s with
  | String c r => if is_white_space c then trimStart r else s
  | EmptyString => EmptyString
  end.

Fixpoint trimEnd (s : string) : string :=
  match s with
  | String c r =>
      match trimEnd r with
      | EmptyString => if is_white_space c then EmptyString else String c EmptyString
      | r' => String c r'
      end
  | EmptyString => EmptyString
  end.

Definition trim (s : string) : string := trimEnd (trimStart s).

(** ** Values *)

Inductive value : Type :=
| VUndefined
| VNull
| VBool (b : bool)
| VNum (m e : Z)
| VStr (s : string)
| VArr (elems : list value)
| VObj (props : list (string * value)).

(** ToBoolean. *)
Definition truthy (v : value) : bool :=
  match v with
  | VUndefined | VNull => false
  | VBool b => b
  | VNum m _ => negb (m =? 0)
  | VStr s => negb (String.eqb s "")
  | VArr _ | VObj _ => true
  end.

(** [a || b] *)
Definition or_else (a b : value) : value := if truthy a then a else b.

(** [v === undefined] *)
Definition is_undefined (v : value) : bool :=
  match v with VUndefined => true | _ => false end.

Definition nullish (v : value) : bool :=
  match v with VUndefined | VNull => true | _ => false end.

Fixpoint assoc (k : string) (props : list (string * value)) : value :=
  match props with
  | [] => VUndefined
  | (k', v) :: rest => if String.eqb k k' then v else assoc k rest
  end.

(** [obj[k] = v]: an existing property keeps its place, a new one goes last. *)
Fixpoint set_prop (k : string) (v : value) (props : list (string * value))
  : list (string * value) :=
  match props with
  | [] => [(k, v)]
  | (k', v') :: rest =>
      if String.eqb k k' then (k, v) :: rest else (k', v') :: set_prop k v rest
  end.

(** [v?.k].  Every property name the block reads is absent from the
    built-in prototypes, so only own properties of objects answer. *)
Definition get_opt (v : value) (k : string) : value :=
  match v with
  | VObj props => assoc k props
  | _ => VUndefined
  end.

(** Printing a decimal [m * 10 ^ e]. *)
Fixpoint strip_zeros (fuel : nat) (m e : Z) : Z * Z :=
  match fuel with
  | O => (m, e)
  | S fuel' =>
      if (e <? 0) && (m mod 10 =? 0) then strip_zeros fuel' (m / 10) (e + 1)
      else (m, e)
  end.

Fixpoint zeros (n : nat) : string :=
  match n with
  | O => EmptyString
  | S n' => String "0"%char (zeros n')
  end.

Definition pad_left (width : nat) (s : string) : string :=
  zeros (width - String.length s) +:+ s.

Definition Number_toString (m e : Z) : string :=
  if m =? 0 then "0"
  else
    let '(m', e') := strip_zeros (Z.to_nat (- e)) m e in
    if 0 <=? e' then pretty (m' * 10 ^ e')
    else
      let d := 10 ^ (- e') in
      (if m' <? 0 then "-" else "")
        +:+ pretty (Z.abs m' / d) +:+ "."
        +:+ pad_left (Z.to_nat (- e')) (pretty (Z.abs m' mod d)).

(** ** Exceptions *)

(** A thrown [Error], [TypeError] or [SyntaxError]: its [name] and its
    [message]. *)
Record exn : Type := Exn { name : string; message : string }.

Definition Error (msg : string) : exn := Exn "Error" msg.
Definition TypeError (msg : string) : exn := Exn "TypeError" msg.
Definition SyntaxError (msg : string) : exn := Exn "SyntaxError" msg.

(** [Error.prototype.toString]. *)
Definition exn_toString (e : exn) : string :=
  if String.eqb (message e) "" then name e
  else if String.eqb (name e) "" then message e
  else name e +:+ ": " +:+ message e.

(** What an expression gives: a value, or the exception it throws. *)
Inductive result (A : Type) : Type :=
| Return (a : A)
| Throw (e : exn).
Arguments Return {A} a.
Arguments Throw {A} e.

Definition and_then {A B} (r : result A) (k : A -> result B) : result B :=
  match r with
  | Return a => k a
  | Throw e => Throw e
  end.

Notation "'let?' x ':=' r 'in' k" := (and_then r (fun x => k))
  (at level 10, x name, r at level 100, k at level 200).

(** ** ToString *)

Definition cannot_convert : exn :=
  TypeError "Cannot convert object to primitive value".

(** The object has a property of its own called [k]. *)
Definition has_own (k : string) (props : list (string * value)) : bool :=
  existsb (fun kv => String.eqb k kv.1) props.

(** ToString.  An object goes through [toString] and then [valueOf]: a
    property of its own called [toString] is never a function in decoded
    JSON, and [Object.prototype.valueOf] answers the object itself, so the
    conversion throws; without such a property [Object.prototype.toString]
    answers.  A list joins the text of its elements. *)
Fixpoint ToString (v : value) : result string :=
  match v with
  | VUndefined => Return "undefined"
  | VNull => Return "null"
  | VBool true => Return "true"
  | VBool false => Return "false"
  | VNum m e => Return (Number_toString m e)
  | VStr s => Return s
  | VArr elems =>
      (fix join (l : list value) : result string :=
         match l with
         | [] => Return ""
         | x :: rest =>
             match (if nullish x then Return "" else ToString x) with
             | Throw e => Throw e
             | Return s =>
                 match rest with
                 | [] => Return s
                 | _ =>
                     match join rest with
                     | Return t => Return (s +:+ "," +:+ t)
                     | Throw e => Throw e
                     end
                 end
             end
         end) elems
  | VObj props =>
      if has_own "toString" props then Throw cannot_convert
      else Return "[object Object]"
  end.

(** Converting [v] to text does not throw.  Converting it to a number
    throws in the same cases: [toString] and [valueOf] are tried in the
    other order. *)
Definition converts (v : value) : bool :=
  match ToString v with
  | Return _ => true
  | Throw _ => false
  end.

End Js.

(** ** JSON text *)

Module Json.
Import Js.

Inductive token : Type :=
| TLBrace | TRBrace | TLBracket | TRBracket | TColon | TComma
| TString (s : string)
| TNumber (m e : Z)
| TTrue | TFalse | TNull.

(** The lexer reads one character at a time; the mode says which token is
    in progress. *)
Inductive lex_mode : Type :=
| LDefault
| LString (acc : string)
| LEscape (acc : string)
| LUnicode (acc : string) (todo : nat) (cp : N)
| LNumber (text : string)
| LWord (text : string).

Definition snoc (s : string) (c : ascii) : string := s +:+ String c EmptyString.

Definition is_json_ws (c : ascii) : bool :=
  match code c with
  | 9 | 10 | 13 | 32 => true
  | _ => false
  end%N.

Definition is_digit (c : ascii) : bool := ((48 <=? code c) && (code c <=? 57))%N.

Definition is_lower (c : ascii) : bool := ((97 <=? code c) && (code c <=? 122))%N.

Definition is_number_char (c : ascii) : bool :=
  is_digit c ||
  match c with
  | "-" | "+" | "." | "e" | "E" => true
  | _ => false
  end%char.

Definition hex_value (c : ascii) : option N :=
  let n := code c in
  if ((48 <=? n) && (n <=? 57))%N then Some (n - 48)%N
  else if ((97 <=? n) && (n <=? 102))%N then Some (n - 87)%N
  else if ((65 <=? n) && (n <=? 70))%N then Some (n - 55)%N
  else None.

Definition punct (c : ascii) : option token :=
  match c with
  | "{" => Some TLBrace
  | "}" => Some TRBrace
  | "[" => Some TLBracket
  | "]" => Some TRBracket
  | ":" => Some TColon
  | "," => Some TComma
  | _ => None
  end%char.

Definition word_token (text : string) : option token :=
  if String.eqb text "true" then Some TTrue
  else if String.eqb text "false" then Some TFalse
  else if String.eqb text "null" then Some TNull
  else None.

(** The longest run of digits at the front of [s], and what follows. *)
Fixpoint span_digits (s : string) : string * string :=
  match s with
  | String c r =>
      if is_digit c then let '(d, r') := span_digits r in (String c d, r')
      else (EmptyString, s)
  | EmptyString => (EmptyString, EmptyString)
  end.

Fixpoint digits_value (acc : Z) (s : string) : Z :=
  match s with
  | String c r => digits_value (10 * acc + (Z.of_N (code c) - 48)) r
  | EmptyString => acc
  end.

(** The JSON number grammar: an optional minus sign; an integer part that
    is a single zero or starts with a nonzero digit; an optional fraction
    (a dot and at least one digit); an optional exponent (e or E, an
    optional sign, at least one digit). *)
Definition number_token (text : string) : option token :=
  let '(neg, t1) :=
    match text with
    | String "-"%char r => (true, r)
    | _ => (false, text)
    end in
  let '(ip, t2) := span_digits t1 in
  match ip with
  | EmptyString => None
  | String "0"%char (String _ _) => None
  | _ =>
      '(fp, t3) ←
        match t2 with
        | String "."%char r =>
            let '(f, r') := span_digits r in
            match f with EmptyString => None | _ => Some (f, r') end
        | _ => Some (EmptyString, t2)
        end;
      '(ex, t4) ←
        match t3 with
        | String ("e" | "E")%char r =>
            let '(eneg, r1) :=
              match r with
              | String "-"%char r' => (true, r')
              | String "+"%char r' => (false, r')
              | _ => (false, r)
              end in
            let '(d, r2) := span_digits r1 in
            match d with
            | EmptyString => None
            | _ => Some (if eneg : bool then - digits_value 0 d else digits_value 0 d, r2)
            end
        | _ => Some (0, t3)
        end;
      match t4 with
      | EmptyString =>
          let m := digits_value 0 (ip +:+ fp) in
          Some (TNumber (if neg : bool then - m else m)
                        (ex - Z.of_nat (String.length fp)))
      | _ => None
      end
  end.

(** A character met while no token is in progress. *)
Definition lex_start (c : ascii) : option (list token * lex_mode) :=
  if is_json_ws c then Some ([], LDefault)
  else
    match punct c with
    | Some t => Some ([t], LDefault)
    | None =>
        if Ascii.eqb c quote then Some ([], LString EmptyString)
        else if is_digit c || Ascii.eqb c "-" then Some ([], LNumber (String c EmptyString))
        else if is_lower c then Some ([], LWord (String c EmptyString))
        else None
    end.

Definition lex_step (m : lex_mode) (c : ascii) : option (list token * lex_mode) :=
  match m with
  | LDefault => lex_start c
  | LString acc =>
      if Ascii.eqb c quote then Some ([TString acc], LDefault)
      else if Ascii.eqb c backslash then Some ([], LEscape acc)
      else if (code c <? 32)%N then None
      else Some ([], LString (snoc acc c))
  | LEscape acc =>
      if Ascii.eqb c quote || Ascii.eqb c backslash || Ascii.eqb c "/"
      then Some ([], LString (snoc acc c))
      else
        match c with
        | "b" => Some ([], LString (snoc acc "008"))
        | "f" => Some ([], LString (snoc acc "012"))
        | "n" => Some ([], LString (snoc acc "010"))
        | "r" => Some ([], LString (snoc acc "013"))
        | "t" => Some ([], LString (snoc acc "009"))
        | "u" => Some ([], LUnicode acc 4 0)
        | _ => None
        end%char
  | LUnicode acc todo cp =>
      h ← hex_value c;
      let cp' := (cp * 16 + h)%N in
      match todo with
      | O => None
      | S O =>
          if (cp' <? 256)%N then Some ([], LString (snoc acc (ascii_of_N cp')))
          else None
      | S todo' => Some ([], LUnicode acc todo' cp')
      end
  | LNumber text =>
      if is_number_char c then Some ([], LNumber (snoc text c))
      else
        t ← number_token text;
        '(ts, m') ← lex_start c;
        Some (t :: ts, m')
  | LWord text =>
      if is_lower c then Some ([], LWord (snoc text c))
      else
        t ← word_token text;
        '(ts, m') ← lex_start c;
        Some (t :: ts, m')
  end.

Definition lex_finish (m : lex_mode) : option (list token) :=
  match m with
  | LDefault => Some []
  | LNumber text => t ← number_token text; Some [t]
  | LWord text => t ← word_token text; Some [t]
  | LString _ | LEscape _ | LUnicode _ _ _ => None
  end.

(** [out] holds the tokens read so far, the newest first. *)
Fixpoint lex (m : lex_mode) (out : list token) (s : string) : option (list token) :=
  match s with
  | String c r =>
      match lex_step m c with
      | Some (ts, m') => lex m' (rev_append ts out) r
      | None => None
      end
  | EmptyString =>
      match lex_finish m with
      | Some ts => Some (rev (rev_append ts out))
      | None => None
      end
  end.

(** The parser is a pushdown automaton over the tokens: [frame]s are the
    containers still open, [expect] says what may come next. *)
Inductive frame : Type :=
| FArr (acc : list value)
| FObj (acc : list (string * value))
| FMember (acc : list (string * value)) (key : string).

Inductive expect : Type :=
| EValue
| EValueOrClose
| EKeyOrClose
| EKey
| EColon (key : string)
| ESeparator
| EEnd (v : value).

Definition close_value (v : value) (stack : list frame)
  : option (list frame * expect) :=
  match stack with
  | [] => Some ([], EEnd v)
  | FArr acc :: st => Some (FArr (acc ++ [v]) :: st, ESeparator)
  | FMember acc k :: st => Some (FObj (set_prop k v acc) :: st, ESeparator)
  | FObj _ :: _ => None
  end.

Definition open_value (t : token) (stack : list frame)
  : option (list frame * expect) :=
  match t with
  | TString s => close_value (VStr s) stack
  | TNumber m e => close_value (VNum m e) stack
  | TTrue => close_value (VBool true) stack
  | TFalse => close_value (VBool false) stack
  | TNull => close_value VNull stack
  | TLBracket => Some (FArr [] :: stack, EValueOrClose)
  | TLBrace => Some (FObj [] :: stack, EKeyOrClose)
  | TRBrace | TRBracket | TColon | TComma => None
  end.

Definition close_array (stack : list frame) : option (list frame * expect) :=
  match stack with
  | FArr acc :: st => close_value (VArr acc) st
  | _ => None
  end.

Definition close_object (stack : list frame) : option (list frame * expect) :=
  match stack with
  | FObj acc :: st => close_value (VObj acc) st
  | _ => None
  end.

Definition parse_step (st : list frame * expect) (t : token)
  : option (list frame * expect) :=
  let '(stack, e) := st in
  match e, t with
  | EValueOrClose, TRBracket => close_array stack
  | (EValue | EValueOrClose), _ => open_value t stack
  | EKeyOrClose, TRBrace => close_object stack
  | (EKeyOrClose | EKey), TString k => Some (stack, EColon k)
  | EColon k, TColon =>
      match stack with
      | FObj acc :: st' => Some (FMember acc k :: st', EValue)
      | _ => None
      end
  | ESeparator, TComma =>
      match stack with
      | FArr _ :: _ => Some (stack, EValue)
      | FObj _ :: _ => Some (stack, EKey)
      | _ => None
      end
  | ESeparator, TRBracket => close_array stack
  | ESeparator, TRBrace => close_object stack
  | _, _ => None
  end.

Fixpoint parse_tokens (st : list frame * expect) (ts : list token) : option value :=
  match ts with
  | t :: rest => st' ← parse_step st t; parse_tokens st' rest
  | [] =>
      match st with
      | ([], EEnd v) => Some v
      | _ => None
      end
  end.

(** [JSON.parse]: [None] stands for the [SyntaxError] it throws.  A
    property written twice keeps its first place and its last value. *)
Definition parse (text : string) : option value :=
  ts ← lex LDefault [] text; parse_tokens ([], EValue) ts.

(** [JSON.stringify] *)

Definition hex_digit (n : N) : ascii :=
  if (n <? 10)%N then ascii_of_N (48 + n) else ascii_of_N (87 + n).

Definition escape_char (c : ascii) : string :=
  if Ascii.eqb c quote then String backslash (String quote EmptyString)
  else if Ascii.eqb c backslash then String backslash (String backslash EmptyString)
  else
    match code c with
    | 8 => String backslash "b"
    | 9 => String backslash "t"
    | 10 => String backslash "n"
    | 12 => String backslash "f"
    | 13 => String backslash "r"
    | n =>
        if (n <? 32)%N
        then String backslash "u00"
               +:+ String (hex_digit (n / 16)) (String (hex_digit (n mod 16)) EmptyString)
        else String c EmptyString
    end%N.

Fixpoint escape (s : string) : string :=
  match s with
  | String c r => escape_char c +:+ escape r
  | EmptyString => EmptyString
  end.

(** QuoteJSONString *)
Definition quote_string (s : string) : string :=
  String quote (escape s +:+ String quote EmptyString).

Fixpoint join (sep : string) (parts : list string) : string :=
  match parts with
  | [] => EmptyString
  | [p] => p
  | p :: rest => p +:+ sep +:+ join sep rest
  end.

(** [None] stands for the result [undefined]; an [undefined] element of an
    array is written as null and an [undefined] property is left out. *)
Fixpoint stringify (v : value) : option string :=
  match v with
  | VUndefined => None
  | VNull => Some "null"
  | VBool true => Some "true"
  | VBool false => Some "false"
  | VNum m e => Some (Number_toString m e)
  | VStr s => Some (quote_string s)
  | VArr elems =>
      Some ("[" +:+ join ","
              ((fix each (l : list value) : list string :=
                  match l with
                  | [] => []
                  | x :: rest => default "null" (stringify x) :: each rest
                  end) elems) +:+ "]")
  | VObj props =>
      Some ("{" +:+ join ","
              ((fix each (l : list (string * value)) : list string :=
                  match l with
                  | [] => []
                  | (k, x) :: rest =>
                      match stringify x with
                      | Some t => (quote_string k +:+ ":" +:+ t) :: each rest
                      | None => each rest
                      end
                  end) props) +:+ "}")
  end.

End Json.

(** ** The page: storage, network, closure variables and the DOM *)

Module Browser.
Import Js.

(** The five remote actions under [BASE_URL]. *)
Inductive endpoint : Type :=
| CartGet
| CheckoutPrepare
| PaypalOrderCreate
| PaypalOrderCapture
| CheckoutPlaceOrder.

Definition path (e : endpoint) : string :=
  match e with
  | CartGet => "/poc-appbuilder-storefront/cart-get"
  | CheckoutPrepare => "/poc-appbuilder-storefront/checkout-prepare"
  | PaypalOrderCreate => "/poc-appbuilder-storefront/paypal-order-create"
  | PaypalOrderCapture => "/poc-appbuilder-storefront/paypal-order-capture"
  | CheckoutPlaceOrder => "/poc-appbuilder-storefront/checkout-place-order"
  end.

Global Instance endpoint_eq_dec : EqDecision endpoint.
Proof. solve_decision. Defined.

(** A POST: the action and the object handed to [JSON.stringify] for the
    body. *)
Record request : Type := Request { target : endpoint; payload : value }.

Record response : Type :=
  Response { status : Z; statusText : string; body : string }.

(** [response.ok] *)
Definition ok (r : response) : bool := (200 <=? status r) && (status r <=? 299).

(** What [await fetch(...)] gives: a rejection (the transport failed) or a
    response. *)
Inductive fetch_result : Type :=
| Rejected (e : exn)
| Responded (r : response).

(** [window.location]: the four parts the block reads, and whether the
    browser's URL parser accepts a string assigned to [href]. *)
Record location : Type :=
  Location {
    protocol : string;
    hostname : string;
    origin : string;
    pathname : string;
    parses : string -> bool
  }.

(** The display data [transformCartData] builds ([amount_value] is the
    [value] of a price, [item_name] and [item_price] the [name] and the
    [price] of an item). *)
Record price : Type := Price { currency : value; amount_value : value }.

Record cart_item : Type := CartItem {
  uid : value;
  sku : value;
  item_name : value;
  quantity : value;
  item_price : price;
  rowTotal : price;
  image : value;
  imageLabel : value;
  urlKey : value
}.

Record cart_data : Type := CartData {
  id : value;
  totalQuantity : value;
  items : list cart_item;
  grandTotal : price;
  subtotalExcludingTax : price
}.

(** What [formatPrice] gives: the text [$0.00], or the amount formatted in
    a currency (kept as the two, not as the text [Intl] makes of them). *)
Inductive formatted_price : Type :=
| ZeroDollars
| Formatted (code : string) (amount : value).

(** What [$empty.innerHTML] holds: the markup of the layout, or one of the
    four views [handlePayPalReturn] writes, with the text interpolated. *)
Inductive empty_view : Type :=
| EmptyCartView
| ProcessingPaymentView
| PlacingOrderView
| SuccessView (orderNumber : string)
| ErrorView (detail : string).

Inductive button_label : Type :=
| LabelFromLayout
| LabelPlacingOrder
| LabelPlaceOrder.

Record notification : Type := Notification { heading : string; severity : string }.

(** The elements of the layout the block writes to: whether the wrapper
    (the form and the summary) and the empty-cart container are displayed,
    what each container holds, the error texts under the inputs, the values
    of the inputs by name, and the order button. *)
Record dom : Type := Dom {
  wrapper_shown : bool;
  empty_shown : bool;
  empty_html : empty_view;
  cart_items_html : option (list (cart_item * formatted_price));
  summary_html : option (formatted_price * formatted_price);
  shown_errors : gmap string string;
  inputs : gmap string string;
  button_disabled : bool;
  button_text : button_label
}.

(** The page the block runs in.  [token] is what
    [new URLSearchParams(window.location.search).get('token')] returns;
    [href] is the address last assigned to [window.location.href], if any;
    [currentNotification] is the alert rendered in the notification
    container, if any (the variable of that name holds the promise of its
    rendering); [currentCartData] is the variable of that name, which the
    closures of [decorate] share. *)
Record page : Type := Page {
  storage_denied : bool;
  token : option string;
  loc : location;
  server : list request -> request -> fetch_result;
  localStorage : gmap string string;
  calls : list request;
  currentNotification : option notification;
  currentCartData : option cart_data;
  view : dom;
  href : option string
}.

Definition with_localStorage (m : gmap string string) (w : page) : page :=
  Page (storage_denied w) (token w) (loc w) (server w)
       m (calls w) (currentNotification w) (currentCartData w) (view w) (href w).

Definition with_calls (l : list request) (w : page) : page :=
  Page (storage_denied w) (token w) (loc w) (server w)
       (localStorage w) l (currentNotification w) (currentCartData w) (view w) (href w).

Definition with_currentNotification (n : option notification) (w : page) : page :=
  Page (storage_denied w) (token w) (loc w) (server w)
       (localStorage w) (calls w) n (currentCartData w) (view w) (href w).

Definition with_currentCartData (c : option cart_data) (w : page) : page :=
  Page (storage_denied w) (token w) (loc w) (server w)
       (localStorage w) (calls w) (currentNotification w) c (view w) (href w).

Definition with_view (v : dom) (w : page) : page :=
  Page (storage_denied w) (token w) (loc w) (server w)
       (localStorage w) (calls w) (currentNotification w) (currentCartData w) v (href w).

Definition with_href (h : option string) (w : page) : page :=
  Page (storage_denied w) (token w) (loc w) (server w)
       (localStorage w) (calls w) (currentNotification w) (currentCartData w) (view w) h.

Definition set_wrapper_shown (b : bool) (d : dom) : dom :=
  Dom b (empty_shown d) (empty_html d) (cart_items_html d) (summary_html d)
      (shown_errors d) (inputs d) (button_disabled d) (button_text d).

Definition set_empty_shown (b : bool) (d : dom) : dom :=
  Dom (wrapper_shown d) b (empty_html d) (cart_items_html d) (summary_html d)
      (shown_errors d) (inputs d) (button_disabled d) (button_text d).

Definition set_empty_html (v : empty_view) (d : dom) : dom :=
  Dom (wrapper_shown d) (empty_shown d) v (cart_items_html d) (summary_html d)
      (shown_errors d) (inputs d) (button_disabled d) (button_text d).

Definition set_cart_items_html (l : option (list (cart_item * formatted_price)))
    (d : dom) : dom :=
  Dom (wrapper_shown d) (empty_shown d) (empty_html d) l (summary_html d)
      (shown_errors d) (inputs d) (button_disabled d) (button_text d).

Definition set_summary_html (c : option (formatted_price * formatted_price))
    (d : dom) : dom :=
  Dom (wrapper_shown d) (empty_shown d) (empty_html d) (cart_items_html d) c
      (shown_errors d) (inputs d) (button_disabled d) (button_text d).

Definition set_shown_errors (m : gmap string string) (d : dom) : dom :=
  Dom (wrapper_shown d) (empty_shown d) (empty_html d) (cart_items_html d) (summary_html d)
      m (inputs d) (button_disabled d) (button_text d).

Definition set_inputs (m : gmap string string) (d : dom) : dom :=
  Dom (wrapper_shown d) (empty_shown d) (empty_html d) (cart_items_html d) (summary_html d)
      (shown_errors d) m (button_disabled d) (button_text d).

Definition set_button (disabled : bool) (label : button_label) (d : dom) : dom :=
  Dom (wrapper_shown d) (empty_shown d) (empty_html d) (cart_items_html d) (summary_html d)
      (shown_errors d) (inputs d) disabled label.

(** *** Sequencing with exceptions *)

Definition M (A : Type) : Type := page -> result A * page.

Definition ret {A} (a : A) : M A := fun w => (Return a, w).

Definition throw {A} (e : exn) : M A := fun w => (Throw e, w).

Definition bind {A B} (c : M A) (k : A -> M B) : M B :=
  fun w =>
    match c w with
    | (Return a, w') => k a w'
    | (Throw e, w') => (Throw e, w')
    end.

(** [try { body } catch (e) { handler }] *)
Definition try_catch {A} (body : M A) (handler : exn -> M A) : M A :=
  fun w =>
    match body w with
    | (Return a, w') => (Return a, w')
    | (Throw e, w') => handler e w'
    end.

Definition lift {A} (r : result A) : M A := fun w => (r, w).

Definition modify (f : page -> page) : M unit := fun w => (Return tt, f w).

Definition modify_view (f : dom -> dom) : M unit :=
  modify (fun w => with_view (f (view w)) w).

Definition read {A} (f : page -> A) : M A := fun w => (Return (f w), w).

Declare Scope js_scope.
Delimit Scope js_scope with js.
Notation "'let*' x ':=' c 'in' k" := (bind c (fun x => k))
  (at level 10, x name, c at level 100, k at level 200) : js_scope.
Notation "'run' c 'in' k" := (bind c (fun _ => k))
  (at level 10, c at level 100, k at level 200) : js_scope.

Local Open Scope js_scope.

(** *** localStorage *)

Definition SecurityError : exn :=
  Exn "SecurityError" "The operation is insecure.".

Definition getItem (key : string) : M (option string) :=
  fun w =>
    if storage_denied w then (Throw SecurityError, w)
    else (Return (localStorage w !! key), w).

Definition setItem (key val : string) : M unit :=
  fun w =>
    if storage_denied w then (Throw SecurityError, w)
    else (Return tt, with_localStorage (<[key := val]> (localStorage w)) w).

Definition removeItem (key : string) : M unit :=
  fun w =>
    if storage_denied w then (Throw SecurityError, w)
    else (Return tt, with_localStorage (delete key (localStorage w)) w).

(** *** fetch *)

(** Every call is logged; the server answers from the calls made so far
    and the request. *)
Definition fetch (req : request) : M response :=
  fun w =>
    let w' := with_calls (calls w ++ [req]) w in
    match server w (calls w) req with
    | Rejected e => (Throw e, w')
    | Responded r => (Return r, w')
    end.

(** [response.json()] *)
Definition json (r : response) : M value :=
  match Json.parse (body r) with
  | Some v => ret v
  | None => throw (SyntaxError "Unexpected token in JSON")
  end.

(** [response.text()] *)
Definition text (r : response) : M string := ret (body r).

End Browser.

(** ** Regular expressions, as far as [isValidEmail] needs them *)

Module Regex.

Inductive re : Type :=
| Void
| Eps
| Class (p : ascii -> bool)
| Seq (a b : re)
| Alt (a b : re)
| Star (a : re).

Definition Plus (a : re) : re := Seq a (Star a).

Fixpoint nullable (r : re) : bool :=
  match r with
  | Void => false
  | Eps => true
  | Class _ => false
  | Seq a b => nullable a && nullable b
  | Alt a b => nullable a || nullable b
  | Star _ => true
  end.

(** What is left of [r] once [c] has been read. *)
Fixpoint deriv (c : ascii) (r : re) : re :=
  match r with
  | Void | Eps => Void
  | Class p => if p c then Eps else Void
  | Seq a b =>
      if nullable a then Alt (Seq (deriv c a) b) (deriv c b)
      else Seq (deriv c a) b
  | Alt a b => Alt (deriv c a) (deriv c b)
  | Star a => Seq (deriv c a) (Star a)
  end.

(** [/^r$/.test(s)] *)
Fixpoint test (r : re) (s : string) : bool :=
  match s with
  | String c rest => test (deriv c r) rest
  | EmptyString => nullable r
  end.

End Regex.

(** ** The checkout block *)

Module Checkout.
Import Js Browser.
Local Open Scope js_scope.

(** LocalStorage keys *)
Definition CART_ID_STORAGE_KEY : string := "cartId".
Definition GUEST_ADDRESS_STORAGE_KEY : string := "guestAddress".

(** A string that may be [null], as [localStorage.getItem] and
    [URLSearchParams.get] return it. *)
Definition str_truthy (s : option string) : bool :=
  match s with
  | Some t => negb (String.eqb t "")
  | None => false
  end.

Definition str_value (s : option string) : value :=
  match s with
  | Some t => VStr t
  | None => VNull
  end.

Definition getCartId : M (option string) :=
  try_catch (getItem CART_ID_STORAGE_KEY) (fun _ => ret None).

Definition getSavedAddress : M value :=
  try_catch
    (let* saved := getItem GUEST_ADDRESS_STORAGE_KEY in
     match saved with
     | Some t =>
         if String.eqb t "" then ret VNull
         else
           match Json.parse t with
           | Some v => ret v
           | None => throw (SyntaxError "Unexpected token in JSON")
           end
     | None => ret VNull
     end)
    (fun _ => ret VNull).

Definition saveAddress (address : value) : M unit :=
  try_catch
    (setItem GUEST_ADDRESS_STORAGE_KEY
       (default "undefined" (Json.stringify address)))
    (fun _ => ret tt).

Definition clearCartId : M unit :=
  try_catch (removeItem CART_ID_STORAGE_KEY) (fun _ => ret tt).

(** [`${response.status} ${response.statusText}`] *)
Definition status_line (r : response) : string :=
  pretty (status r) +:+ " " +:+ statusText r.

Definition getCart (cartId : option string) : M value :=
  if negb (str_truthy cartId) then ret VNull
  else
    try_catch
      (let* response := fetch (Request CartGet (VObj [("cartId", str_value cartId)])) in
       if negb (ok response)
       then throw (Error ("Failed to fetch cart: " +:+ status_line response))
       else
         let* data := json response in
         ret (or_else (get_opt data "cart") VNull))
      (fun _ => ret VNull).

(** The lines every adapter runs on a response that is not ok: what it
    hands to [new Error], from the body text and its own default. *)
Definition errorMessage (fallback errorText : string) : value :=
  match Json.parse errorText with
  | Some errorData =>
      or_else (get_opt errorData "message")
        (or_else (get_opt errorData "error") (VStr fallback))
  | None =>
      VStr (if negb (String.eqb errorText "") then errorText else fallback)
  end.

(** [throw new Error(message)]: the message is converted to text first,
    and that conversion may be what throws. *)
Definition throw_Error {A} (message : value) : M A :=
  let* msg := lift (ToString message) in
  throw (Error msg).

Definition prepareCheckout (checkoutData : value) : M value :=
  try_catch
    (let* response := fetch (Request CheckoutPrepare checkoutData) in
     if negb (ok response)
     then
       let* errorText := text response in
       throw_Error (errorMessage ("Failed to prepare checkout: " +:+ status_line response) errorText)
     else
       let* data := json response in
       ret (or_else (get_opt data "cart") VNull))
    (fun error => throw error).

(** [returnUrl], from [window.location]. *)
Definition returnUrl (l : location) : string :=
  if String.eqb (hostname l) "localhost" || String.eqb (hostname l) "127.0.0.1"
  then protocol l +:+ "//localhost:3000" +:+ pathname l
  else origin l +:+ pathname l.

Definition createPayPalOrder (cartId : option string) (amount items : value) : M value :=
  let* l := read loc in
  try_catch
    (let* response :=
       fetch (Request PaypalOrderCreate
                (VObj [("cartId", str_value cartId);
                       ("amount", amount);
                       ("items", items);
                       ("returnUrl", VStr (returnUrl l))])) in
     if negb (ok response)
     then
       let* errorText := text response in
       throw_Error (errorMessage ("Failed to create PayPal order: " +:+ status_line response) errorText)
     else
       let* data := json response in
       ret (or_else data VNull))
    (fun error => throw error).

Definition capturePayPalOrder (paypalOrderId : string) : M value :=
  try_catch
    (let* response :=
       fetch (Request PaypalOrderCapture
                (VObj [("paypalOrderId", VStr paypalOrderId)])) in
     if negb (ok response)
     then
       let* errorText := text response in
       throw_Error (errorMessage ("Failed to capture PayPal payment: " +:+ status_line response) errorText)
     else
       let* data := json response in
       ret (or_else data VNull))
    (fun error => throw error).

Definition placeOrder (cartId : string) : M value :=
  try_catch
    (let* response :=
       fetch (Request CheckoutPlaceOrder (VObj [("cartId", VStr cartId)])) in
     if negb (ok response)
     then
       let* errorText := text response in
       throw_Error (errorMessage ("Failed to place order: " +:+ status_line response) errorText)
     else
       let* data := json response in
       ret (or_else data VNull))
    (fun error => throw error).

(** *** transformCartData *)

Definition map_is_not_a_function : exn :=
  TypeError "(apiCart.itemsV2?.items || []).map is not a function".

Definition cannot_read_null (prop : string) : exn :=
  TypeError ("Cannot read properties of null (reading '" +:+ prop +:+ "')").

Definition transformPrice (p : value) : price :=
  Price (or_else (get_opt p "currency") (VStr "USD"))
        (or_else (get_opt p "value") (VNum 0 0)).

Definition transformItem (item : value) : result cart_item :=
  if nullish item then Throw (cannot_read_null "uid")
  else
    Return
      (CartItem
         (get_opt item "uid")
         (or_else (get_opt (get_opt item "product") "sku") (VStr ""))
         (or_else (get_opt (get_opt item "product") "name") (VStr ""))
         (or_else (get_opt item "quantity") (VNum 0 0))
         (transformPrice (get_opt (get_opt item "prices") "price"))
         (transformPrice (get_opt (get_opt item "prices") "row_total"))
         (or_else (get_opt (get_opt (get_opt item "product") "thumbnail") "url") (VStr ""))
         (or_else (get_opt (get_opt (get_opt item "product") "thumbnail") "label") (VStr ""))
         (or_else (get_opt (get_opt item "product") "url_key") (VStr ""))).

(** [array.map(f)] for an [f] that may throw. *)
Fixpoint map_result {A B} (f : A -> result B) (l : list A) : result (list B) :=
  match l with
  | [] => Return []
  | x :: rest =>
      match f x with
      | Return y =>
          match map_result f rest with
          | Return ys => Return (y :: ys)
          | Throw e => Throw e
          end
      | Throw e => Throw e
      end
  end.

Definition transformCartData (apiCart : value) : result (option cart_data) :=
  if negb (truthy apiCart) then Return None
  else
    match or_else (get_opt (get_opt apiCart "itemsV2") "items") (VArr []) with
    | VArr elems =>
        match map_result transformItem elems with
        | Return items =>
            Return
              (Some
                 (CartData
                    (get_opt apiCart "id")
                    (or_else (get_opt apiCart "total_quantity") (VNum 0 0))
                    items
                    (transformPrice (get_opt (get_opt apiCart "prices") "grand_total"))
                    (transformPrice
                       (get_opt (get_opt apiCart "prices") "subtotal_excluding_tax"))))
        | Throw e => Throw e
        end
    | _ => Throw map_is_not_a_function
    end.

(** *** The form validator *)

(** The ten fields of the guest form, as [handlePlaceOrder] collects them. *)
Record form_data : Type := FormData {
  guestEmail : string;
  firstname : string;
  lastname : string;
  company : string;
  street : string;
  city : string;
  region : string;
  postcode : string;
  country_code : string;
  telephone : string
}.

(** The class [[^\s@]] *)
Definition not_space_or_at (c : ascii) : bool :=
  negb (is_white_space c || Ascii.eqb c "@").

(** [/^[^\s@]+@[^\s@]+\.[^\s@]+$/] *)
Definition emailRegex : Regex.re :=
  Regex.Seq (Regex.Plus (Regex.Class not_space_or_at))
    (Regex.Seq (Regex.Class (Ascii.eqb "@"))
       (Regex.Seq (Regex.Plus (Regex.Class not_space_or_at))
          (Regex.Seq (Regex.Class (Ascii.eqb "."))
             (Regex.Plus (Regex.Class not_space_or_at))))).

Definition isValidEmail (email : string) : bool := Regex.test emailRegex email.

(** [!field || !field.trim()] *)
Definition blank (field : string) : bool :=
  String.eqb field "" || String.eqb (trim field) "".

Record validation : Type :=
  Validation { isValid : bool; errors : gmap string string }.

Definition validateForm (formData : form_data) : validation :=
  let errors : gmap string string := ∅ in
  let errors :=
    if blank (guestEmail formData)
    then <["guestEmail" := "Email is required"]> errors
    else if negb (isValidEmail (guestEmail formData))
    then <["guestEmail" := "Please enter a valid email address"]> errors
    else errors in
  let errors :=
    if blank (firstname formData)
    then <["firstname" := "First name is required"]> errors else errors in
  let errors :=
    if blank (lastname formData)
    then <["lastname" := "Last name is required"]> errors else errors in
  let errors :=
    if blank (company formData)
    then <["company" := "Company name is required"]> errors else errors in
  let errors :=
    if blank (street formData)
    then <["street" := "Street address is required"]> errors else errors in
  let errors :=
    if blank (city formData)
    then <["city" := "City is required"]> errors else errors in
  let errors :=
    if blank (region formData)
    then <["region" := "State/Region is required"]> errors else errors in
  let errors :=
    if blank (postcode formData)
    then <["postcode" := "Postal code is required"]> errors else errors in
  let errors :=
    if blank (country_code formData)
    then <["country_code" := "Country is required"]> errors else errors in
  let errors :=
    if blank (telephone formData)
    then <["telephone" := "Phone number is required"]> errors else errors in
  Validation (Nat.eqb (size errors) 0) errors.

(** *** The closures of [decorate] *)

(** What a call of [showNotification] leaves in the notification
    container.  The container is part of the layout, so the first alert of
    a page is rendered.  [UI.render] answers a promise, which the block
    stores without awaiting it: on every later call
    [currentNotification?.remove()] throws inside the [try], the [catch]
    only logs, and the first alert stays. *)
Definition notified (shown : option notification) (n : notification)
  : option notification :=
  match shown with
  | None => Some n
  | Some _ => shown
  end.

Definition showNotification (message type : string) : M unit :=
  modify (fun w =>
            with_currentNotification
              (notified (currentNotification w) (Notification message type)) w).

(** Every error element is cleared, then each field of [errors] is shown;
    each of the ten fields has its error element. *)
Definition displayErrors (errors : gmap string string) : M unit :=
  modify_view (set_shown_errors errors).

Definition RangeError (msg : string) : exn := Exn "RangeError" msg.

Definition is_letter (c : ascii) : bool :=
  (((65 <=? code c) && (code c <=? 90)) || ((97 <=? code c) && (code c <=? 122)))%N.

(** The currency codes [Intl.NumberFormat] accepts: three letters. *)
Definition well_formed_currency (s : string) : bool :=
  match s with
  | String a (String b (String c EmptyString)) => is_letter a && is_letter b && is_letter c
  | _ => false
  end.

(** [new Intl.NumberFormat(..., { currency }).format(value)]: the
    constructor converts the currency to text and throws a [RangeError] on
    a code that is not well formed; [format] converts the value to a
    number.  Inside [loadCart] what they throw lands in its catch block. *)
Definition formatPrice (p : price) : result formatted_price :=
  if negb (truthy (currency p)) || is_undefined (amount_value p) then Return ZeroDollars
  else
    let? code := ToString (currency p) in
    if well_formed_currency code then
      if converts (amount_value p) then Return (Formatted code (amount_value p))
      else Throw cannot_convert
    else Throw (RangeError ("Invalid currency code : " +:+ code)).

(** [getProductLink(urlKey, sku)], of scripts/commerce.js: the address of
    the product page, from the text of its two arguments. *)
Definition getProductLink (urlKey sku : value) : result string :=
  let? key := ToString urlKey in
  let? code := ToString sku in
  Return ("/products/" +:+ key +:+ "/" +:+ code).

(** One row of the cart, in the order the template evaluates it: the two
    links, the image when there is one, the name, the SKU, the quantity
    and the row total.  The row is kept as the item and its formatted row
    total. *)
Definition renderItem (item : cart_item) : result (cart_item * formatted_price) :=
  let? _ := getProductLink (urlKey item) (sku item) in
  let? _ :=
    if truthy (image item) then
      let? _ := ToString (image item) in
      ToString (or_else (imageLabel item) (item_name item))
    else Return EmptyString in
  let? _ := getProductLink (urlKey item) (sku item) in
  let? _ := ToString (item_name item) in
  let? _ := ToString (sku item) in
  let? _ := ToString (quantity item) in
  let? total := formatPrice (rowTotal item) in
  Return (item, total).

(** The rows of the cart. *)
Definition renderCartItems (items : list cart_item) : M unit :=
  match items with
  | [] => ret tt
  | _ =>
      let* rows := lift (map_result renderItem items) in
      modify_view (set_cart_items_html (Some rows))
  end.

(** The summary: the formatted subtotal and grand total. *)
Definition renderOrderSummary (cartData : option cart_data) : M unit :=
  match cartData with
  | None => modify_view (set_summary_html None)
  | Some c =>
      let* subtotal := lift (formatPrice (subtotalExcludingTax c)) in
      let* total := lift (formatPrice (grandTotal c)) in
      modify_view (set_summary_html (Some (subtotal, total)))
  end.

(** [Object.keys(v)] with the values: the properties of an object, the
    indices of an array or of a string. *)
Definition own_entries (v : value) : list (string * value) :=
  match v with
  | VObj props => props
  | VArr elems => imap (fun i x => (pretty i, x)) elems
  | VStr s =>
      imap (fun i c => (pretty i, VStr (String c EmptyString)))
           (list_ascii_of_string s)
  | _ => []
  end.

(** The controls of the form: the email input, the country select with
    the values of its options, and text inputs (the telephone input cleans
    its value as a text input does). *)
Inductive control : Type :=
| EmailInput
| TextInput
| CountrySelect.

Definition control_of (name : string) : control :=
  if String.eqb name "guestEmail" then EmailInput
  else if String.eqb name "country_code" then CountrySelect
  else TextInput.

Definition countries : list string := [""; "US"; "CA"; "GB"; "AU"; "DE"; "FR"; "IN"].

(** Line feed and carriage return; with tab, form feed and space, the
    white space of HTML. *)
Definition is_newline (c : ascii) : bool :=
  match code c with
  | 10 | 13 => true
  | _ => false
  end%N.

Definition is_ascii_space (c : ascii) : bool :=
  match code c with
  | 9 | 10 | 12 | 13 | 32 => true
  | _ => false
  end%N.

Fixpoint strip_newlines (s : string) : string :=
  match s with
  | String c r => if is_newline c then strip_newlines r else String c (strip_newlines r)
  | EmptyString => EmptyString
  end.

Fixpoint strip_start (s : string) : string :=
  match s with
  | String c r => if is_ascii_space c then strip_start r else s
  | EmptyString => EmptyString
  end.

Fixpoint strip_end (s : string) : string :=
  match s with
  | String c r =>
      match strip_end r with
      | EmptyString => if is_ascii_space c then EmptyString else String c EmptyString
      | r' => String c r'
      end
  | EmptyString => EmptyString
  end.

(** What a control keeps of a string assigned to its [value]: a text input
    drops line breaks, the email input also drops white space at both
    ends, and the select takes the value of an option and reads empty for
    anything else. *)
Definition sanitize (c : control) (s : string) : string :=
  match c with
  | TextInput => strip_newlines s
  | EmailInput => strip_end (strip_start (strip_newlines s))
  | CountrySelect => if existsb (String.eqb s) countries then s else EmptyString
  end.

(** [input.value = v] on the control called [name]: [v] is converted to
    text (an input takes null as the empty string, the select does not),
    then cleaned by the control. *)
Definition input_value (name : string) (v : value) : result string :=
  let? s :=
    match control_of name, v with
    | CountrySelect, _ => ToString v
    | _, VNull => Return EmptyString
    | _, _ => ToString v
    end in
  Return (sanitize (control_of name) s).

(** The selector [[name="key"]] is well formed for a [key] without double
    quote, backslash, line break, form feed and null character; it then
    finds the control of that name. *)
Definition selector_safe (key : string) : bool :=
  forallb (fun c => negb (Ascii.eqb c quote || Ascii.eqb c backslash || is_newline c
                          || (code c =? 12)%N || (code c =? 0)%N))
    (list_ascii_of_string key).

Definition invalid_selector : exn :=
  SyntaxError "The string did not match the expected pattern.".

(** The saved address goes back into the controls that carry its names,
    key by key: what was written stays written when a later key throws. *)
Fixpoint fill_entries (entries : list (string * value)) (form : gmap string string)
  : result unit * gmap string string :=
  match entries with
  | [] => (Return tt, form)
  | (key, v) :: rest =>
      if negb (selector_safe key) then (Throw invalid_selector, form)
      else
        match form !! key with
        | None => fill_entries rest form
        | Some _ =>
            match input_value key v with
            | Return s => fill_entries rest (<[key := s]> form)
            | Throw e => (Throw e, form)
            end
        end
  end.

Definition fill_inputs (savedAddress : value) (form : gmap string string)
  : result unit * gmap string string :=
  fill_entries (own_entries savedAddress) form.

Definition write_inputs (savedAddress : value) : M unit :=
  fun w =>
    ((fill_inputs savedAddress (inputs (view w))).1,
     with_view (set_inputs (fill_inputs savedAddress (inputs (view w))).2 (view w)) w).

Definition show_empty : M unit :=
  run modify_view (set_wrapper_shown false) in
  modify_view (set_empty_shown true).

Definition loadCart : M unit :=
  let* cartId := getCartId in
  if negb (str_truthy cartId) then show_empty
  else
    try_catch
      (let* apiCart := getCart cartId in
       let* cartData := lift (transformCartData apiCart) in
       run modify (with_currentCartData cartData) in
       match cartData with
       | Some c =>
           if (0 <? length (items c))%nat then
             run renderCartItems (items c) in
             run renderOrderSummary cartData in
             run modify_view (set_wrapper_shown true) in
             run modify_view (set_empty_shown false) in
             let* savedAddress := getSavedAddress in
             if truthy savedAddress then write_inputs savedAddress else ret tt
           else show_empty
       | None => show_empty
       end)
      (fun _ =>
         run showNotification "Failed to load cart" "error" in
         show_empty).

(** [formData.get(name)?.trim() || ''] *)
Definition form_field (form : gmap string string) (name : string) : string :=
  match form !! name with
  | Some s => trim s
  | None => EmptyString
  end.

Definition read_form (form : gmap string string) : form_data :=
  FormData (form_field form "guestEmail") (form_field form "firstname")
           (form_field form "lastname") (form_field form "company")
           (form_field form "street") (form_field form "city")
           (form_field form "region") (form_field form "postcode")
           (form_field form "country_code") (form_field form "telephone").

Definition addressToSave (data : form_data) : value :=
  VObj [("guestEmail", VStr (guestEmail data));
        ("firstname", VStr (firstname data));
        ("lastname", VStr (lastname data));
        ("company", VStr (company data));
        ("street", VStr (street data));
        ("city", VStr (city data));
        ("region", VStr (region data));
        ("postcode", VStr (postcode data));
        ("country_code", VStr (country_code data));
        ("telephone", VStr (telephone data))].

Definition checkoutData (cartId : option string) (data : form_data) : value :=
  VObj [("cartId", str_value cartId);
        ("guestEmail", VStr (guestEmail data));
        ("shippingAddress",
         VObj [("vat_id", VStr "");
               ("city", VStr (city data));
               ("custom_attributes", VArr []);
               ("company", or_else (VStr (company data)) (VStr ""));
               ("country_code", VStr (country_code data));
               ("firstname", VStr (firstname data));
               ("lastname", VStr (lastname data));
               ("postcode", VStr (postcode data));
               ("region", VStr "CA");
               ("region_id", VNum 12 0);
               ("street", VArr [VStr (street data); VStr ""]);
               ("telephone", VStr (telephone data))]);
        ("shippingMethod",
         VObj [("carrier_code", VStr "flatrate"); ("method_code", VStr "flatrate")]);
        ("paymentMethod", VObj [("code", VStr "checkmo")])].

(** [error.message || fallback] *)
Definition message_or (fallback : string) (error : exn) : string :=
  if negb (String.eqb (message error) "") then message error else fallback.

Definition invalid_url : exn :=
  SyntaxError "Failed to set the 'href' property on 'Location': Invalid URL".

(** [window.location.href = v]: [v] is converted to text, and the browser
    throws when the text does not parse as an address. *)
Definition assign_href (v : value) : M unit :=
  let* url := lift (ToString v) in
  let* l := read loc in
  if parses l url then modify (with_href (Some url)) else throw invalid_url.

Definition handlePlaceOrder : M unit :=
  let* cartId := getCartId in
  if negb (str_truthy cartId) then showNotification "Cart not found" "error"
  else
    let* form := read (fun w => inputs (view w)) in
    let data := read_form form in
    let validation := validateForm data in
    if negb (isValid validation) then
      run displayErrors (errors validation) in
      showNotification "Please fill in all required fields" "error"
    else
      run saveAddress (addressToSave data) in
      try_catch
        (run modify_view (set_button true LabelPlacingOrder) in
         let* checkoutResult := prepareCheckout (checkoutData cartId data) in
         if negb (truthy checkoutResult) then throw (Error "Failed to prepare checkout")
         else
           let* cartId := getCartId in
           let* cart := read currentCartData in
           match cart with
           | None => throw (cannot_read_null "prices")
           | Some c =>
               let amount :=
                 VObj [("value", amount_value (grandTotal c));
                       ("currency_code", currency (grandTotal c))] in
               let* paypalResult := createPayPalOrder cartId amount (VArr []) in
               if negb (truthy paypalResult)
                  || negb (truthy (get_opt paypalResult "approvalUrl"))
               then throw (Error "Failed to create PayPal order")
               else
                 run showNotification "Redirecting to PayPal..." "info" in
                 assign_href (get_opt paypalResult "approvalUrl")
           end)
        (fun error =>
           run showNotification (message_or "Failed to place order" error) "error" in
           modify_view (set_button false LabelPlaceOrder)).

(** [x === 'SUCCESS'] *)
Definition is_string (v : value) (s : string) : bool :=
  match v with
  | VStr t => String.eqb t s
  | _ => false
  end.

(** [`${error.message || error}`] *)
Definition message_or_self (error : exn) : string :=
  if negb (String.eqb (message error) "") then message error else exn_toString error.

Definition handlePayPalReturn : M bool :=
  let* token := read token in
  if negb (str_truthy token) then ret false
  else
    run modify_view (set_wrapper_shown false) in
    run modify_view (set_empty_shown true) in
    run modify_view (set_empty_html ProcessingPaymentView) in
    try_catch
      (let* captureResult :=
         try_catch (capturePayPalOrder (default "" token))
           (fun captureError =>
              throw (Error ("Failed to capture payment: "
                              +:+ message_or_self captureError))) in
       if negb (truthy captureResult)
       then throw (Error "Payment capture returned no result")
       else if negb (is_string (get_opt captureResult "status") "SUCCESS")
       then
         let statusMsg :=
           or_else (get_opt captureResult "status")
             (or_else (get_opt captureResult "status") (VStr "unknown")) in
         let* status := lift (ToString statusMsg) in
         throw (Error ("Payment capture was not completed successfully. Status: "
                         +:+ status))
       else
         let* cartId := getCartId in
         if negb (str_truthy cartId) then throw (Error "Cart not found")
         else
           run modify_view (set_empty_html PlacingOrderView) in
           let* orderResult :=
             try_catch (placeOrder (default "" cartId))
               (fun orderError =>
                  throw (Error ("Failed to place order: "
                                  +:+ message_or_self orderError))) in
           if negb (truthy orderResult) || negb (truthy (get_opt orderResult "order"))
           then throw (Error "Failed to place order")
           else
             run clearCartId in
             let* number :=
               lift (ToString
                       (or_else (get_opt orderResult "orderNumber")
                          (or_else
                             (get_opt (get_opt (get_opt orderResult "order") "order")
                                      "number")
                             (VStr "")))) in
             run modify_view (set_empty_html (SuccessView number)) in
             ret true)
      (fun error =>
         run modify_view
               (set_empty_html
                  (ErrorView
                     (message_or
                        "An error occurred while processing your payment. Please try again."
                        error))) in
         ret false).

(** The end of [decorate], once the layout is in the page: the return from
    PayPal when the address carries a token, the cart otherwise. *)
Definition decorate : M unit :=
  let* paypalToken := read token in
  let isPayPalReturn := str_truthy paypalToken in
  if isPayPalReturn && str_truthy paypalToken then
    try_catch
      (let* paypalReturnSuccess := handlePayPalReturn in
       if negb paypalReturnSuccess then loadCart else ret tt)
      (fun error =>
         run showNotification (message_or "Failed to process PayPal return" error) "error" in
         loadCart)
  else loadCart.

End Checkout.

(** * Vocabulary of the statements *)

Import Js Browser Checkout.
Local Open Scope js_scope.

(** One rule of [validateForm]: the message goes into the map when the
    rule fails. *)
Definition put_if (b : bool) (k x : string) (m : gmap string string) : gmap string string :=
  if b then <[k:=x]> m else m.

(** The two rules on the email, the first that fails. *)
Definition email_errors (email : string) : gmap string string :=
  if blank email then {["guestEmail" := "Email is required"]}
  else if negb (isValidEmail email)
  then {["guestEmail" := "Please enter a valid email address"]}
  else ∅.

(** The names of the inputs of the guest form. *)
Definition field_names : list string :=
  ["guestEmail"; "firstname"; "lastname"; "company"; "street"; "city";
   "region"; "postcode"; "country_code"; "telephone"].

(** A required field: its message is in the map exactly when the field is
    empty once trimmed. *)
Definition required_error (k msg value : string) (errs : gmap string string) : Prop :=
  errs !! k = if String.eqb (trim value) "" then Some msg else None.

(** *** Concrete pages, for the scenarios *)

(** The inputs of the layout, all empty. *)
Definition empty_inputs : gmap string string :=
  list_to_map ((fun k => (k, EmptyString)) <$> field_names).

(** The page as [decorate] finds it once the layout is in place. *)
Definition layout : dom :=
  Dom true false EmptyCartView None None ∅ empty_inputs false LabelFromLayout.

(** The address of a sample page.  Its parser stands for the browser's on
    the addresses of the examples: it accepts a string without white
    space. *)
Definition shop : location :=
  Location "https:" "shop.example" "https://shop.example" "/checkout"
    (fun url => forallb (fun c => negb (is_white_space c)) (list_ascii_of_string url)).

Definition fresh_page (tok : option string) (store : gmap string string)
    (srv : list request -> request -> fetch_result) : page :=
  Page false tok shop srv store [] None None layout None.

(** A transport that is down: every [fetch] rejects. *)
Definition offline (_ : list request) (_ : request) : fetch_result :=
  Rejected (TypeError "Failed to fetch").

Definition sample_address : form_data :=
  FormData "ada@example.com" "Ada" "Lovelace" "Analytical Engines"
           "12 St James Square" "London" "LND" "SW1Y 4JH" "GB" "+44 20 7946 0000".

(** *** The adapters, as functions of what the server answers *)

(** What an adapter returns or throws for one answer of [fetch]: [generic]
    starts its default message, [pick] takes the result out of the decoded
    body. *)
Definition adapter_result (generic : string) (pick : value -> value)
    (answer : fetch_result) : result value :=
  match answer with
  | Rejected e => Throw e
  | Responded r =>
      if ok r then
        match Json.parse (body r) with
        | Some data => Return (pick data)
        | None => Throw (SyntaxError "Unexpected token in JSON")
        end
      else
        let? msg := ToString (errorMessage (generic +:+ status_line r) (body r)) in
        Throw (Error msg)
  end.

Definition prepare_request (checkoutData : value) : request :=
  Request CheckoutPrepare checkoutData.

Definition create_request (l : location) (cartId : option string) (amount items : value)
  : request :=
  Request PaypalOrderCreate
    (VObj [("cartId", str_value cartId); ("amount", amount); ("items", items);
           ("returnUrl", VStr (returnUrl l))]).

Definition capture_request (paypalOrderId : string) : request :=
  Request PaypalOrderCapture (VObj [("paypalOrderId", VStr paypalOrderId)]).

Definition place_request (cartId : string) : request :=
  Request CheckoutPlaceOrder (VObj [("cartId", VStr cartId)]).

Definition cart_request (cartId : option string) : request :=
  Request CartGet (VObj [("cartId", str_value cartId)]).

(** The page after one more logged call. *)
Definition called (req : request) (w : page) : page :=
  with_calls (calls w ++ [req]) w.

(** The message of a failed call in the words of the amended claim: the
    text of the [message] of the decoded body if truthy, else of its
    [error] if truthy, else the generic message; for a body that is no
    JSON, the body text if not empty, else the generic message. *)
Definition normalized_message (generic text : string) : result string :=
  match Json.parse text with
  | Some data =>
      if truthy (get_opt data "message") then ToString (get_opt data "message")
      else if truthy (get_opt data "error") then ToString (get_opt data "error")
      else Return generic
  | None => Return (if String.eqb text "" then generic else text)
  end.

Definition has_prop (k : string) (v : value) : bool :=
  match v with
  | VObj props => bool_decide (k ∈ props.*1)
  | _ => false
  end.

(** The message in the words of the specification: the [message] field of
    a structured body if present, else its [error] field, else the raw body
    text when not empty, else the generic message. *)
Definition specified_message (generic text : string) : result string :=
  match Json.parse text with
  | Some data =>
      if has_prop "message" data then ToString (get_opt data "message")
      else if has_prop "error" data then ToString (get_opt data "error")
      else Return (if String.eqb text "" then generic else text)
  | None => Return (if String.eqb text "" then generic else text)
  end.

(** A server with one answer for everything. *)
Definition answering (r : response) (_ : list request) (_ : request) : fetch_result :=
  Responded r.

(** What reaches the caller of an adapter whose request is [req] and whose
    default message starts with [generic], for a response that is not ok:
    an [Error] with the normalized message, or what converting the chosen
    field to text throws. *)
Definition surfaced (w : page) (generic : string) (req : request)
    (res : result value) : Prop :=
  forall r, server w (calls w) req = Responded r -> ok r = false ->
    res = let? msg := normalized_message (generic +:+ status_line r) (body r) in
          Throw (Error msg).

Definition internal_error_empty_object : response :=
  Response 500 "Internal Server Error" "{}".

(** *** The orchestrator, as functions of what the store and the server hold *)

(** What [getCartId] returns. *)
Definition stored_cart_id (w : page) : option string :=
  if storage_denied w then None else localStorage w !! CART_ID_STORAGE_KEY.

(** What [getCart] returns for one answer of [fetch]. *)
Definition cart_of_answer (answer : fetch_result) : value :=
  match answer with
  | Rejected _ => VNull
  | Responded r =>
      if ok r then
        match Json.parse (body r) with
        | Some data => or_else (get_opt data "cart") VNull
        | None => VNull
        end
      else VNull
  end.

(** The cart [loadCart] gets to display: what the server answers for the
    stored cart identifier, transformed. *)
Definition loaded_cart (w : page) : result (option cart_data) :=
  transformCartData
    (cart_of_answer (server w (calls w) (cart_request (stored_cart_id w)))).

(** No cart, or a cart with zero line items. *)
Definition no_line_items (r : result (option cart_data)) : Prop :=
  r = Return None \/ exists c, r = Return (Some c) /\ items c = [].

(** The calls made between two states of the page. *)
Definition new_calls (before after : page) : list request :=
  drop (length (calls before)) (calls after).

Definition is_payment_call (req : request) : bool :=
  match target req with
  | CartGet => false
  | CheckoutPrepare | PaypalOrderCreate | PaypalOrderCapture | CheckoutPlaceOrder => true
  end.

(** The text of a body, from the value it encodes. *)
Definition json_body (v : value) : string := default "" (Json.stringify v).

(** An object with a [toString] property of its own: it has no text. *)
Definition no_text : value := VObj [("toString", VNum 1 0)].

(** The status 500 with a body whose [message] has no text. *)
Definition internal_error_no_text : response :=
  Response 500 "Internal Server Error" (json_body (VObj [("message", no_text)])).

(** *** The return from PayPal *)

(** What [capturePayPalOrder] gives [handlePayPalReturn] on page [w]. *)
Definition capture_outcome (w : page) (tok : string) : result value :=
  adapter_result "Failed to capture PayPal payment: " (fun data => or_else data VNull)
    (server w (calls w) (capture_request tok)).

(** The capture came back with the settled status, the string SUCCESS. *)
Definition settled (res : result value) : bool :=
  match res with
  | Return v => truthy v && is_string (get_opt v "status") "SUCCESS"
  | Throw _ => false
  end.

(** What the error view shows of an exception that reached the catch
    block of [handlePayPalReturn]. *)
Definition payment_error (e : exn) : string :=
  message_or "An error occurred while processing your payment. Please try again." e.

Definition capture_failure_detail (res : result value) : string :=
  match res with
  | Throw e => "Failed to capture payment: " +:+ message_or_self e
  | Return v =>
      if truthy v
      then
        match ToString (or_else (get_opt v "status") (VStr "unknown")) with
        | Return status =>
            "Payment capture was not completed successfully. Status: " +:+ status
        | Throw e => payment_error e
        end
      else "Payment capture returned no result"
  end.

(** What [placeOrder] gives once the capture call is in the log. *)
Definition place_outcome (w : page) (tok cartId : string) : result value :=
  adapter_result "Failed to place order: " (fun data => or_else data VNull)
    (server w (calls w ++ [capture_request tok]) (place_request cartId)).

Definition order_placed (res : result value) : bool :=
  match res with
  | Return v => truthy v && truthy (get_opt v "order")
  | Throw _ => false
  end.

Definition place_failure_detail (res : result value) : string :=
  match res with
  | Throw e => "Failed to place order: " +:+ message_or_self e
  | Return _ => "Failed to place order"
  end.

(** The order number the success view interpolates, as text. *)
Definition displayed_order_number (res : result value) : result string :=
  match res with
  | Return v =>
      ToString
        (or_else (get_opt v "orderNumber")
           (or_else (get_opt (get_opt (get_opt v "order") "order") "number") (VStr "")))
  | Throw _ => Return EmptyString
  end.

(** The page once the handler has taken over the empty-cart container. *)
Definition resumed (content : empty_view) (d : dom) : dom :=
  set_empty_html content (set_empty_shown true (set_wrapper_shown false d)).

(** The page the handler leaves on a failure: the error view, and the calls
    made. *)
Definition failed (detail : string) (reqs : list request) (w : page) : page :=
  with_view (resumed (ErrorView detail) (view w)) (with_calls (calls w ++ reqs) w).

(** The page the handler leaves on success: the success view, the calls
    made, and no cart identifier in the store. *)
Definition completed (number : string) (reqs : list request) (w : page) : page :=
  with_view (resumed (SuccessView number) (view w))
    (with_localStorage (delete CART_ID_STORAGE_KEY (localStorage w))
       (with_calls (calls w ++ reqs) w)).

(** The page the handler leaves when the order was placed and the cart
    identifier removed, but the order number has no text: the error view. *)
Definition unconfirmed (detail : string) (reqs : list request) (w : page) : page :=
  with_view (resumed (ErrorView detail) (view w))
    (with_localStorage (delete CART_ID_STORAGE_KEY (localStorage w))
       (with_calls (calls w ++ reqs) w)).

(** [handlePayPalReturn], path by path. *)
Definition resume_outcome (w : page) : result bool * page :=
  if negb (str_truthy (token w)) then (Return false, w)
  else
    let tok := default "" (token w) in
    let capture := capture_outcome w tok in
    if negb (settled capture)
    then (Return false, failed (capture_failure_detail capture) [capture_request tok] w)
    else if negb (str_truthy (stored_cart_id w))
    then (Return false, failed "Cart not found" [capture_request tok] w)
    else
      let cartId := default "" (stored_cart_id w) in
      let order := place_outcome w tok cartId in
      if negb (order_placed order)
      then (Return false,
            failed (place_failure_detail order)
              [capture_request tok; place_request cartId] w)
      else
        match displayed_order_number order with
        | Return number =>
            (Return true,
             completed number [capture_request tok; place_request cartId] w)
        | Throw e =>
            (Return false,
             unconfirmed (payment_error e)
               [capture_request tok; place_request cartId] w)
        end.

(** A cart without line items, as the cart action answers it. *)
Definition empty_cart_body : string :=
  json_body
    (VObj [("cart",
            VObj [("id", VStr "cart-1");
                  ("total_quantity", VNum 0 0);
                  ("itemsV2", VObj [("items", VArr [])])])]).

Definition page_with_empty_cart : page :=
  fresh_page None {[ CART_ID_STORAGE_KEY := "cart-1" ]}
    (answering (Response 200 "OK" empty_cart_body)).

(** A server for the return from PayPal: the capture settles, and the
    order action answers [order]; every other action fails. *)
Definition paypal_server (capture order : value) (_ : list request) (req : request)
  : fetch_result :=
  match target req with
  | PaypalOrderCapture => Responded (Response 200 "OK" (json_body capture))
  | CheckoutPlaceOrder => Responded (Response 200 "OK" (json_body order))
  | _ => Responded internal_error_empty_object
  end.

Definition capture_success : value := VObj [("status", VStr "SUCCESS")].
Definition capture_failed : value := VObj [("status", VStr "FAILED")].

(** The answer of Scenario B, and the two shapes the success view reads. *)
Definition order_flat : value := VObj [("order", VObj [("number", VStr "000000123")])].
Definition order_nested : value :=
  VObj [("order", VObj [("order", VObj [("number", VStr "000000123")])])].
Definition order_numbered : value :=
  VObj [("order", VObj [("number", VStr "000000123")]); ("orderNumber", VStr "000000123")].

(** The page a return from PayPal opens on: the token in the address, the
    cart identifier still in the store. *)
Definition return_page (capture order : value) : page :=
  fresh_page (Some "EC-1") {[ CART_ID_STORAGE_KEY := "cart-1" ]}
    (paypal_server capture order).

(** The page a reload opens on: a new layout and new closures over the
    same address, store, server and call log. *)
Definition reload (w : page) : page :=
  Page (storage_denied w) (token w) (loc w) (server w) (localStorage w) (calls w)
       None None layout None.

(** *** The submit action *)

(** The store once [saveAddress] has written the address. *)
Definition saved (data : form_data) (w : page) : page :=
  with_localStorage
    (<[GUEST_ADDRESS_STORAGE_KEY :=
         default "undefined" (Json.stringify (addressToSave data))]> (localStorage w)) w.

(** What [prepareCheckout] gives [handlePlaceOrder] on page [w]. *)
Definition prepare_outcome (w : page) (cartId : option string) (data : form_data)
  : result value :=
  adapter_result "Failed to prepare checkout: "
    (fun d => or_else (get_opt d "cart") VNull)
    (server w (calls w) (prepare_request (checkoutData cartId data))).

Definition prepared (res : result value) : bool :=
  match res with
  | Return v => truthy v
  | Throw _ => false
  end.

Definition amount_of (c : cart_data) : value :=
  VObj [("value", amount_value (grandTotal c));
        ("currency_code", currency (grandTotal c))].

(** What [createPayPalOrder] gives once the prepare call is in the log. *)
Definition create_outcome (w : page) (cartId : option string) (data : form_data)
    (c : cart_data) : result value :=
  adapter_result "Failed to create PayPal order: " (fun d => or_else d VNull)
    (server w (calls w ++ [prepare_request (checkoutData cartId data)])
       (create_request (loc w) cartId (amount_of c) (VArr []))).

Definition created (res : result value) : bool :=
  match res with
  | Return v => truthy v && truthy (get_opt v "approvalUrl")
  | Throw _ => false
  end.

(** The page the catch block of [handlePlaceOrder] leaves: the error
    notification raised, the button enabled again under its first label. *)
Definition errored (detail : string) (reqs : list request) (w : page) : page :=
  with_view (set_button false LabelPlaceOrder (view w))
    (with_currentNotification
       (notified (currentNotification w) (Notification detail "error"))
       (with_calls (calls w ++ reqs) w)).

Definition redirecting : notification := Notification "Redirecting to PayPal..." "info".

(** The page on its way to the approval address. *)
Definition redirected (url : string) (reqs : list request) (w : page) : page :=
  with_href (Some url)
    (with_currentNotification (notified (currentNotification w) redirecting)
       (with_view (set_button true LabelPlacingOrder (view w))
          (with_calls (calls w ++ reqs) w))).

(** The page when the assignment of the approval address threw: the
    redirect was announced, the catch block enabled the button again. *)
Definition stalled (reqs : list request) (w : page) : page :=
  with_view (set_button false LabelPlaceOrder (view w))
    (with_currentNotification (notified (currentNotification w) redirecting)
       (with_calls (calls w ++ reqs) w)).

(** The address the page is sent to: the text of the approval address when
    it has one that the browser accepts. *)
Definition navigation (w : page) (res : result value) : result string :=
  match res with
  | Return r =>
      let? url := ToString (get_opt r "approvalUrl") in
      if parses (loc w) url then Return url else Throw invalid_url
  | Throw e => Throw e
  end.

Definition prepare_failure_detail (res : result value) : string :=
  match res with
  | Throw e => message_or "Failed to place order" e
  | Return _ => "Failed to prepare checkout"
  end.

Definition create_failure_detail (res : result value) : string :=
  match res with
  | Throw e => message_or "Failed to place order" e
  | Return _ => "Failed to create PayPal order"
  end.

(** [handlePlaceOrder], path by path, once the cart identifier is there and
    the form is valid. *)
Definition submit_outcome (w : page) : page :=
  let cartId := stored_cart_id w in
  let data := read_form (inputs (view w)) in
  let prepare := prepare_request (checkoutData cartId data) in
  let prepare_res := prepare_outcome w cartId data in
  if negb (prepared prepare_res)
  then errored (prepare_failure_detail prepare_res) [prepare] (saved data w)
  else
    match currentCartData w with
    | None => errored (message (cannot_read_null "prices")) [prepare] (saved data w)
    | Some c =>
        let create := create_request (loc w) cartId (amount_of c) (VArr []) in
        let create_res := create_outcome w cartId data c in
        if negb (created create_res)
        then errored (create_failure_detail create_res) [prepare; create] (saved data w)
        else
          match navigation w create_res with
          | Return url => redirected url [prepare; create] (saved data w)
          | Throw _ => stalled [prepare; create] (saved data w)
          end
    end.


(** The same form with another region typed in. *)
Definition with_region (r : string) (d : form_data) : form_data :=
  FormData (guestEmail d) (firstname d) (lastname d) (company d) (street d) (city d)
           r (postcode d) (country_code d) (telephone d).

(** A cart of one item at 50.00 USD, as [loadCart] leaves it in
    [currentCartData]. *)
Definition one_item_cart : cart_data :=
  CartData (VStr "cart-1") (VNum 1 0)
    [CartItem (VStr "uid-1") (VStr "SKU-1") (VStr "Widget") (VNum 1 0)
       (Price (VStr "USD") (VNum 5000 (-2))) (Price (VStr "USD") (VNum 5000 (-2)))
       (VStr "") (VStr "") (VStr "widget")]
    (Price (VStr "USD") (VNum 5000 (-2))) (Price (VStr "USD") (VNum 5000 (-2))).

Definition sample_inputs : gmap string string :=
  list_to_map
    [("guestEmail", " ada@example.com "); ("firstname", "Ada"); ("lastname", "Lovelace");
     ("company", "Analytical Engines"); ("street", "  12 St James Square ");
     ("city", "London"); ("region", " LND "); ("postcode", "SW1Y 4JH");
     ("country_code", "GB"); ("telephone", "+44 20 7946 0000")].

(** A server for the submit action: [prepare] and [create] are the bodies
    the two actions answer with status 200. *)
Definition checkout_server (prepare create : value) (_ : list request) (req : request)
  : fetch_result :=
  match target req with
  | CheckoutPrepare => Responded (Response 200 "OK" (json_body prepare))
  | PaypalOrderCreate => Responded (Response 200 "OK" (json_body create))
  | _ => Responded internal_error_empty_object
  end.

Definition prepared_cart : value := VObj [("cart", VObj [("id", VStr "cart-1")])].
Definition approval : value :=
  VObj [("approvalUrl", VStr "https://pay.example/approve?X")].

(** The page at the click on the button: the cart loaded, the form filled. *)
Definition submit_page (srv : list request -> request -> fetch_result) : page :=
  Page false None shop srv {[ CART_ID_STORAGE_KEY := "cart-1" ]} [] None
       (Some one_item_cart)
       (set_inputs sample_inputs layout) None.

(** Steps that make no call. *)
Definition keeps_log {A} (c : M A) : Prop := forall w, calls (c w).2 = calls w.

(** A server on which the capture settles and the order action fails with
    a structured error. *)
Definition order_failing_server (_ : list request) (req : request) : fetch_result :=
  match target req with
  | PaypalOrderCapture => Responded (Response 200 "OK" (json_body capture_success))
  | _ =>
      Responded
        (Response 500 "Internal Server Error"
           (json_body (VObj [("message", VStr "Order could not be recorded")])))
  end.

(** *** Further vocabulary: strings and regular expressions *)

(** Every character of [s] is white space. *)
Definition all_space (s : string) : bool :=
  forallb is_white_space (list_ascii_of_string s).

(** [s] does not start, and does not end, with white space. *)
Definition starts_clean (s : string) : Prop :=
  match s with
  | String c _ => is_white_space c = false
  | EmptyString => True
  end.

Fixpoint ends_clean (s : string) : Prop :=
  match s with
  | EmptyString => True
  | String c EmptyString => is_white_space c = false
  | String _ r => ends_clean r
  end.

Import Regex.

(** The strings a regular expression denotes. *)
Inductive matches : re -> string -> Prop :=
| MEps : matches Eps EmptyString
| MClass (p : ascii -> bool) (c : ascii) :
    p c = true -> matches (Class p) (String c EmptyString)
| MSeq (a b : re) (s t : string) :
    matches a s -> matches b t -> matches (Seq a b) (s +:+ t)
| MAltL (a b : re) (s : string) : matches a s -> matches (Alt a b) s
| MAltR (a b : re) (s : string) : matches b s -> matches (Alt a b) s
| MStarNil (a : re) : matches (Star a) EmptyString
| MStarCons (a : re) (s t : string) :
    matches a s -> matches (Star a) t -> matches (Star a) (s +:+ t).

(** A nonempty run of characters that are neither white space nor [@]. *)
Definition plain (s : string) : Prop :=
  s <> "" /\ forallb not_space_or_at (list_ascii_of_string s) = true.

(** *** Further vocabulary: what a step leaves as it was *)

(** The step [c] never changes what [f] reads of the page. *)
Definition preserves {A B} (f : page -> B) (c : M A) : Prop :=
  forall w, f (c w).2 = f w.

(** Exactly one of the wrapper and the empty-cart container is displayed. *)
Definition one_container (w : page) : Prop :=
  wrapper_shown (view w) = negb (empty_shown (view w)).

(** *** Further vocabulary: the cart on display *)

(** What [transformCartData] maps over. *)
Definition raw_items (apiCart : value) : value :=
  or_else (get_opt (get_opt apiCart "itemsV2") "items") (VArr []).

(** A price with a currency and a value, so that [formatPrice] goes to
    [Intl]. *)
Definition priced (p : price) : Prop :=
  truthy (currency p) = true /\ is_undefined (amount_value p) = false.

(** [formatPrice] does not throw on [p]. *)
Definition price_formats (p : price) : bool :=
  match formatPrice p with
  | Return _ => true
  | Throw _ => false
  end.

(** The row of [item] renders: every field the template interpolates has
    a text, and the row total formats. *)
Definition row_renders (item : cart_item) : bool :=
  match renderItem item with
  | Return _ => true
  | Throw _ => false
  end.

(** Every row and both prices of the summary render. *)
Definition renders (c : cart_data) : bool :=
  forallb row_renders (items c)
  && price_formats (subtotalExcludingTax c)
  && price_formats (grandTotal c).

(** The field of the form data that the input [name] holds. *)
Definition field_of (data : form_data) (name : string) : option string :=
  if String.eqb name "guestEmail" then Some (guestEmail data)
  else if String.eqb name "firstname" then Some (firstname data)
  else if String.eqb name "lastname" then Some (lastname data)
  else if String.eqb name "company" then Some (company data)
  else if String.eqb name "street" then Some (street data)
  else if String.eqb name "city" then Some (city data)
  else if String.eqb name "region" then Some (region data)
  else if String.eqb name "postcode" then Some (postcode data)
  else if String.eqb name "country_code" then Some (country_code data)
  else if String.eqb name "telephone" then Some (telephone data)
  else None.

(** A cart payload with one item. *)
Definition one_item_payload : value :=
  VObj [("id", VStr "cart-1");
        ("total_quantity", VNum 1 0);
        ("itemsV2",
         VObj [("items",
                VArr [VObj [("uid", VStr "uid-1");
                            ("quantity", VNum 1 0);
                            ("product", VObj [("sku", VStr "SKU-1"); ("name", VStr "Widget")]);
                            ("prices",
                             VObj [("row_total",
                                    VObj [("currency", VStr "USD");
                                          ("value", VNum 5000 (-2))])])]])]);
        ("prices",
         VObj [("grand_total", VObj [("currency", VStr "USD"); ("value", VNum 5000 (-2))])])].

(** A cart payload whose item list is no list. *)
Definition malformed_payload : value :=
  VObj [("id", VStr "cart-1"); ("itemsV2", VObj [("items", VStr "none")])].

(** A server that answers the cart action with [cart] and fails the rest. *)
Definition cart_server (cart : value) (_ : list request) (req : request) : fetch_result :=
  match target req with
  | CartGet => Responded (Response 200 "OK" (json_body (VObj [("cart", cart)])))
  | _ => Responded internal_error_empty_object
  end.

(** What [getSavedAddress] returns on page [w]. *)
Definition saved_address (w : page) : value :=
  match (getSavedAddress w).1 with
  | Return v => v
  | Throw _ => VNull
  end.

(** The saved value can be written back into the form: every name it
    holds makes a well-formed selector, and every value that goes into a
    control has a text. *)
Definition writable (savedAddress : value) (form : gmap string string) : bool :=
  match (fill_inputs savedAddress form).1 with
  | Return _ => true
  | Throw _ => false
  end.

(** A page whose stored cart holds one item, and that cart as the block
    keeps it. *)
Definition cart_page : page :=
  fresh_page None {[ CART_ID_STORAGE_KEY := "cart-1" ]} (cart_server one_item_payload).

Definition malformed_cart_page : page :=
  fresh_page None {[ CART_ID_STORAGE_KEY := "cart-1" ]} (cart_server malformed_payload).

Definition loaded_one_item : cart_data :=
  CartData (VStr "cart-1") (VNum 1 0)
    [CartItem (VStr "uid-1") (VStr "SKU-1") (VStr "Widget") (VNum 1 0)
       (Price (VStr "USD") (VNum 0 0)) (Price (VStr "USD") (VNum 50 0))
       (VStr "") (VStr "") (VStr "")]
    (Price (VStr "USD") (VNum 50 0)) (Price (VStr "USD") (VNum 0 0)).

(** *** Further vocabulary: one call to the server *)

(** The server answers [req] on page [w] with an ok response whose body
    decodes to [data]. *)
Definition answers_ok (w : page) (req : request) (data : value) : Prop :=
  exists r,
    server w (calls w) req = Responded r /\ ok r = true /\ Json.parse (body r) = Some data.

(** The step [c] logs the one request [req], changes nothing else of the
    page, and returns exactly when the server answers ok with a body that
    decodes, with [pick] of the decoded body. *)
Definition posts_once (c : M value) (req : request) (pick : value -> value) (w : page)
  : Prop :=
  (c w).2 = called req w
  /\ forall v, (c w).1 = Return v <-> exists data, answers_ok w req data /\ v = pick data.

(** The cart did not transform, or a row or a price of the summary of a
    cart with line items did not render: [loadCart] then ends in its
    catch block. *)
Definition load_fails (w : page) : bool :=
  str_truthy (stored_cart_id w)
  && match loaded_cart w with
     | Throw _ => true
     | Return None => false
     | Return (Some c) => (0 <? length (items c))%nat && negb (renders c)
     end.

(** A server for a whole visit: the cart action answers the one-item cart,
    the prepare and create actions succeed. *)
Definition visit_server (_ : list request) (req : request) : fetch_result :=
  match target req with
  | CartGet =>
      Responded (Response 200 "OK" (json_body (VObj [("cart", one_item_payload)])))
  | CheckoutPrepare => Responded (Response 200 "OK" (json_body prepared_cart))
  | PaypalOrderCreate => Responded (Response 200 "OK" (json_body approval))
  | _ => Responded internal_error_empty_object
  end.

(** No character of [s] is a line break. *)
Definition no_newline (s : string) : bool :=
  forallb (fun c => negb (is_newline c)) (list_ascii_of_string s).

(** Every control of the form holds a value it can hold: one that it
    keeps as it is when assigned. *)
Definition held (form : gmap string string) : bool :=
  bool_decide (map_Forall (fun name s => sanitize (control_of name) s = s) form).

(** The form of a sample visit, as its controls hold it. *)
Definition typed_inputs : gmap string string :=
  list_to_map
    [("guestEmail", "ada@example.com"); ("firstname", " Ada"); ("lastname", "Lovelace");
     ("company", "Analytical Engines"); ("street", "  12 St James Square ");
     ("city", "London"); ("region", " LND "); ("postcode", "SW1Y 4JH");
     ("country_code", "GB"); ("telephone", "+44 20 7946 0000")].

Definition visit_page : page :=
  Page false None shop visit_server {[ CART_ID_STORAGE_KEY := "cart-1" ]} [] None
       (Some one_item_cart)
       (set_inputs typed_inputs layout) None.

(** A server for a return whose capture fails while the cart is still
    there: the cart action answers the one-item cart. *)
Definition capture_failing_server (_ : list request) (req : request) : fetch_result :=
  match target req with
  | CartGet =>
      Responded (Response 200 "OK" (json_body (VObj [("cart", one_item_payload)])))
  | PaypalOrderCapture => Responded (Response 200 "OK" (json_body capture_failed))
  | _ => Responded internal_error_empty_object
  end.

Definition failed_return_page : page :=
  fresh_page (Some "EC-1") {[ CART_ID_STORAGE_KEY := "cart-1" ]} capture_failing_server.

(** [handlePayPalReturn] answers true on page [w]. *)
Definition completes (w : page) : bool :=
  match (handlePayPalReturn w).1 with
  | Return true => true
  | _ => false
  end.

(** The call [loadCart] makes on page [w]. *)
Definition cart_calls (w : page) : list request :=
  if str_truthy (stored_cart_id w) then [cart_request (stored_cart_id w)] else [].

(** The ten entries of the address that [saveAddress] stores, in the order
    of the object literal. *)
Definition address_fields (data : form_data) : list (string * string) :=
  [("guestEmail", guestEmail data); ("firstname", firstname data);
   ("lastname", lastname data); ("company", company data); ("street", street data);
   ("city", city data); ("region", region data); ("postcode", postcode data);
   ("country_code", country_code data); ("telephone", telephone data)].

(** * Properties *)

(** ** The form validator *)

Lemma blank_trim (s : string) : blank s = String.eqb (trim s) "".
Proof. destruct s as [|c r]; reflexivity. Qed.

Lemma lookup_put_if (b : bool) (k x : string) (m : gmap string string) (k' : string) :
  put_if b k x m !! k' = if bool_decide (k = k') && b then Some x else m !! k'.
Proof.
  unfold put_if. case_bool_decide as Hk; destruct b; try reflexivity.
  - subst. apply lookup_insert_eq.
  - by apply lookup_insert_ne.
Qed.

Lemma lookup_email_errors (email k : string) :
  email_errors email !! k
  = if bool_decide ("guestEmail" = k)
    then (if String.eqb (trim email) "" then Some "Email is required"
          else if isValidEmail email then None
          else Some "Please enter a valid email address")
    else None.
Proof.
  unfold email_errors. rewrite <- blank_trim.
  destruct (blank email), (isValidEmail email); cbn [negb];
    case_bool_decide as Hk; subst;
    rewrite ?lookup_singleton_eq, ?lookup_empty; try reflexivity;
    by rewrite lookup_singleton_ne.
Qed.

Lemma validateForm_unfold (fd : form_data) :
  errors (validateForm fd)
  = put_if (blank (telephone fd)) "telephone" "Phone number is required"
      (put_if (blank (country_code fd)) "country_code" "Country is required"
      (put_if (blank (postcode fd)) "postcode" "Postal code is required"
      (put_if (blank (region fd)) "region" "State/Region is required"
      (put_if (blank (city fd)) "city" "City is required"
      (put_if (blank (street fd)) "street" "Street address is required"
      (put_if (blank (company fd)) "company" "Company name is required"
      (put_if (blank (lastname fd)) "lastname" "Last name is required"
      (put_if (blank (firstname fd)) "firstname" "First name is required"
      (email_errors (guestEmail fd)))))))))).
Proof. reflexivity. Qed.

Lemma validateForm_isValid (fd : form_data) :
  isValid (validateForm fd) = Nat.eqb (size (errors (validateForm fd))) 0.
Proof. reflexivity. Qed.

Lemma lookup_errors (fd : form_data) (k : string) :
  errors (validateForm fd) !! k
  = if bool_decide (k = "telephone") then (if blank (telephone fd) then Some "Phone number is required" else None)
    else if bool_decide (k = "country_code") then (if blank (country_code fd) then Some "Country is required" else None)
    else if bool_decide (k = "postcode") then (if blank (postcode fd) then Some "Postal code is required" else None)
    else if bool_decide (k = "region") then (if blank (region fd) then Some "State/Region is required" else None)
    else if bool_decide (k = "city") then (if blank (city fd) then Some "City is required" else None)
    else if bool_decide (k = "street") then (if blank (street fd) then Some "Street address is required" else None)
    else if bool_decide (k = "company") then (if blank (company fd) then Some "Company name is required" else None)
    else if bool_decide (k = "lastname") then (if blank (lastname fd) then Some "Last name is required" else None)
    else if bool_decide (k = "firstname") then (if blank (firstname fd) then Some "First name is required" else None)
    else if bool_decide (k = "guestEmail")
    then (if blank (guestEmail fd) then Some "Email is required"
          else if isValidEmail (guestEmail fd) then None
          else Some "Please enter a valid email address")
    else None.
Proof.
  rewrite validateForm_unfold, !lookup_put_if, lookup_email_errors, <- blank_trim.
  generalize (blank (telephone fd)) (blank (country_code fd)) (blank (postcode fd))
    (blank (region fd)) (blank (city fd)) (blank (street fd)) (blank (company fd))
    (blank (lastname fd)) (blank (firstname fd)) (blank (guestEmail fd))
    (isValidEmail (guestEmail fd)).
  intros b1 b2 b3 b4 b5 b6 b7 b8 b9 b10 b11.
  repeat
    match goal with
    | |- context [bool_decide (k = ?n)] =>
        destruct (decide (k = n)) as [->|Hne];
        [ vm_compute; reflexivity
        | rewrite (bool_decide_eq_false_2 (k = n)) by exact Hne;
          rewrite (bool_decide_eq_false_2 (n = k)) by (intros Heq; apply Hne; symmetry; exact Heq);
          clear Hne ]
    end.
  reflexivity.
Qed.

(** C6.  [validateForm] is a total function of the ten strings (it cannot
    throw).  Its result is either valid with an empty error map or invalid
    with at least one entry.  A required field has its message exactly when
    it is empty after trimming; the email has one message at most, that of
    the first rule that fails (required, then format); each entry depends
    on its own field only, so all failing fields are reported together, and
    no other key is ever reported. *)
Theorem validateForm_outcome (formData : form_data) :
  let v := validateForm formData in
  ((isValid v = true /\ errors v = ∅)
   \/ (isValid v = false /\ exists k msg, errors v !! k = Some msg))
  /\ errors v !! "guestEmail"
     = (if String.eqb (trim (guestEmail formData)) "" then Some "Email is required"
        else if isValidEmail (guestEmail formData) then None
        else Some "Please enter a valid email address")
  /\ required_error "firstname" "First name is required" (firstname formData) (errors v)
  /\ required_error "lastname" "Last name is required" (lastname formData) (errors v)
  /\ required_error "company" "Company name is required" (company formData) (errors v)
  /\ required_error "street" "Street address is required" (street formData) (errors v)
  /\ required_error "city" "City is required" (city formData) (errors v)
  /\ required_error "region" "State/Region is required" (region formData) (errors v)
  /\ required_error "postcode" "Postal code is required" (postcode formData) (errors v)
  /\ required_error "country_code" "Country is required" (country_code formData) (errors v)
  /\ required_error "telephone" "Phone number is required" (telephone formData) (errors v)
  /\ (forall k, is_Some (errors v !! k) -> k ∈ field_names).
Proof.
  intros v. subst v. split.
  { rewrite validateForm_isValid.
    destruct (decide (errors (validateForm formData) = ∅)) as [He|Hne].
    - left. split; [|exact He]. rewrite He. reflexivity.
    - right. split.
      + apply Nat.eqb_neq. intros Hs. apply Hne. by apply map_size_empty_iff.
      + destruct (map_choose _ Hne) as (k & msg & Hk). eauto. }
  unfold required_error. rewrite <- !blank_trim.
  repeat split; try (rewrite lookup_errors; reflexivity).
  intros k [msg Hk]. rewrite lookup_errors in Hk. unfold field_names.
  repeat (case_bool_decide; [subst k; repeat first [apply list_elem_of_here | apply list_elem_of_further]|]).
  discriminate.
Qed.

(** ** JSON text: what [JSON.stringify] writes, [JSON.parse] reads back *)

#[local] Arguments String.append !s1 s2 : simpl nomatch.

Lemma append_assoc (a b c : string) : (a +:+ b) +:+ c = a +:+ (b +:+ c).
Proof. induction a as [|x a IH]; simpl; [reflexivity|]. by f_equal. Qed.

Lemma append_empty_r (a : string) : a +:+ "" = a.
Proof. induction a as [|x a IH]; simpl; [reflexivity|]. by f_equal. Qed.

Lemma snoc_append (acc : string) (c : ascii) (s : string) :
  Json.snoc acc c +:+ s = acc +:+ String c s.
Proof. unfold Json.snoc. by rewrite append_assoc. Qed.

(** One escaped character is read back as that character. *)
Lemma lex_escape_char (c : ascii) (acc : string) (out : list Json.token) (r : string) :
  Json.lex (Json.LString acc) out (Json.escape_char c +:+ r)
  = Json.lex (Json.LString (Json.snoc acc c)) out r.
Proof. destruct c as [[] [] [] [] [] [] [] []]; reflexivity. Qed.

Lemma lex_escape (s : string) (acc : string) (out : list Json.token) (r : string) :
  Json.lex (Json.LString acc) out (Json.escape s +:+ r)
  = Json.lex (Json.LString (acc +:+ s)) out r.
Proof.
  revert acc. induction s as [|c s IH]; intros acc; cbn [Json.escape].
  - by rewrite append_empty_r.
  - by rewrite append_assoc, lex_escape_char, IH, snoc_append.
Qed.

(** A quoted string is one string token, whatever the string. *)
Lemma lex_quote_string (s : string) (out : list Json.token) (r : string) :
  Json.lex Json.LDefault out (Json.quote_string s +:+ r)
  = Json.lex Json.LDefault (Json.TString s :: out) r.
Proof.
  unfold Json.quote_string. simpl.
  change (Json.lex (Json.LString "") out ((Json.escape s +:+ String quote "") +:+ r)
          = Json.lex Json.LDefault (Json.TString s :: out) r).
  by rewrite append_assoc, lex_escape.
Qed.

Lemma lex_punct (c : ascii) (t : Json.token) (out : list Json.token) (r : string) :
  Json.is_json_ws c = false -> Json.punct c = Some t ->
  Json.lex Json.LDefault out (String c EmptyString +:+ r)
  = Json.lex Json.LDefault (t :: out) r.
Proof.
  intros Hws Hp. simpl. unfold Json.lex_start. by rewrite Hws, Hp.
Qed.

(** The text written for an address is not empty and parses back to the
    address. *)
Lemma parse_stringify_address (data : form_data) :
  String.eqb (default "undefined" (Json.stringify (addressToSave data))) "" = false
  /\ Json.parse (default "undefined" (Json.stringify (addressToSave data)))
     = Some (addressToSave data).
Proof.
  split; [reflexivity|].
  unfold Json.parse, addressToSave.
  cbn [Json.stringify default Json.join]. unfold Datatypes.id.
  rewrite !append_assoc.
  rewrite (lex_punct "{" Json.TLBrace) by reflexivity.
  repeat (rewrite lex_quote_string;
          rewrite (lex_punct ":" Json.TColon) by reflexivity;
          rewrite lex_quote_string;
          try rewrite (lex_punct "," Json.TComma) by reflexivity).
  reflexivity.
Qed.

(** The parser on a few texts. *)
Example parse_empty_object : Json.parse "{}" = Some (VObj []).
Proof. reflexivity. Qed.

Example parse_numbers :
  Json.parse " [0, -12, 49.99, 1e3, 2.5E-1] "
  = Some (VArr [VNum 0 0; VNum (-12) 0; VNum 4999 (-2); VNum 1 3; VNum 25 (-2)]).
Proof. reflexivity. Qed.

Example parse_rejects :
  Json.parse "" = None /\ Json.parse "[1,]" = None /\ Json.parse "01" = None
  /\ Json.parse "{} {}" = None /\ Json.parse "nul" = None
  /\ Json.parse "Internal Server Error" = None.
Proof. repeat split; reflexivity. Qed.

Example parse_nested :
  Json.parse (json_body order_nested) = Some order_nested
  /\ Json.parse (json_body (VObj [("a", VArr [VBool true; VNull; VObj []])]))
     = Some (VObj [("a", VArr [VBool true; VNull; VObj []])]).
Proof. split; reflexivity. Qed.

(** ** The Session Store *)

Lemma saveAddress_state (address : value) (w : page) :
  storage_denied w = false ->
  saveAddress address w
  = (Return tt,
     with_localStorage
       (<[GUEST_ADDRESS_STORAGE_KEY := default "undefined" (Json.stringify address)]>
          (localStorage w)) w).
Proof.
  intros Hs. unfold saveAddress, try_catch, setItem. by rewrite Hs.
Qed.

Lemma saveAddress_denied (address : value) (w : page) :
  storage_denied w = true -> saveAddress address w = (Return tt, w).
Proof.
  intros Hs. unfold saveAddress, try_catch, setItem. by rewrite Hs.
Qed.

Lemma getSavedAddress_stored (data : form_data) (w : page) :
  storage_denied w = false ->
  localStorage w !! GUEST_ADDRESS_STORAGE_KEY
  = Some (default "undefined" (Json.stringify (addressToSave data))) ->
  getSavedAddress w = (Return (addressToSave data), w).
Proof.
  intros Hs Hl. destruct (parse_stringify_address data) as [Hne Hp].
  unfold getSavedAddress, try_catch, bind, getItem. rewrite Hs, Hl, Hne, Hp.
  reflexivity.
Qed.

(** C9.  Writing a guest address (the object of the ten string fields) to
    the Session Store and reading it back gives the same object, field for
    field, whatever the ten strings are; the store must be one the page may
    use, since [saveAddress] swallows the exception of a store it may not. *)
Theorem saveAddress_getSavedAddress (data : form_data) (w : page) :
  storage_denied w = false ->
  let w' := (saveAddress (addressToSave data) w).2 in
  getSavedAddress w' = (Return (addressToSave data), w').
Proof.
  intros Hs w'. subst w'. rewrite saveAddress_state by exact Hs. cbn [snd].
  apply getSavedAddress_stored; [exact Hs|]. apply lookup_insert_eq.
Qed.

(** The round trip on a sample address, in a store that works. *)
Lemma saveAddress_getSavedAddress_witness :
  storage_denied (fresh_page None ∅ offline) = false
  /\ getSavedAddress (saveAddress (addressToSave sample_address) (fresh_page None ∅ offline)).2
     = (Return (addressToSave sample_address),
        (saveAddress (addressToSave sample_address) (fresh_page None ∅ offline)).2).
Proof.
  split; [reflexivity|].
  apply (saveAddress_getSavedAddress sample_address (fresh_page None ∅ offline)).
  reflexivity.
Defined.

(** ** The Payment Gateway Adapter *)

Lemma prepareCheckout_run (checkoutData : value) (w : page) :
  prepareCheckout checkoutData w
  = (adapter_result "Failed to prepare checkout: "
       (fun data => or_else (get_opt data "cart") VNull)
       (server w (calls w) (prepare_request checkoutData)),
     called (prepare_request checkoutData) w).
Proof.
  unfold prepareCheckout, try_catch, bind, fetch, adapter_result, prepare_request,
    called, text, json, throw_Error, lift, and_then, throw, ret.
  destruct (server w (calls w) _) as [e|r]; [reflexivity|].
  destruct (ok r); cbn [negb]; [|by destruct (ToString _)].
  destruct (Json.parse (body r)); reflexivity.
Qed.

Lemma createPayPalOrder_run (cartId : option string) (amount items : value) (w : page) :
  createPayPalOrder cartId amount items w
  = (adapter_result "Failed to create PayPal order: " (fun data => or_else data VNull)
       (server w (calls w) (create_request (loc w) cartId amount items)),
     called (create_request (loc w) cartId amount items) w).
Proof.
  unfold createPayPalOrder, try_catch, bind, read, fetch, adapter_result, create_request,
    called, text, json, throw_Error, lift, and_then, throw, ret.
  destruct (server w (calls w) _) as [e|r]; [reflexivity|].
  destruct (ok r); cbn [negb]; [|by destruct (ToString _)].
  destruct (Json.parse (body r)); reflexivity.
Qed.

Lemma capturePayPalOrder_run (paypalOrderId : string) (w : page) :
  capturePayPalOrder paypalOrderId w
  = (adapter_result "Failed to capture PayPal payment: " (fun data => or_else data VNull)
       (server w (calls w) (capture_request paypalOrderId)),
     called (capture_request paypalOrderId) w).
Proof.
  unfold capturePayPalOrder, try_catch, bind, fetch, adapter_result, capture_request,
    called, text, json, throw_Error, lift, and_then, throw, ret.
  destruct (server w (calls w) _) as [e|r]; [reflexivity|].
  destruct (ok r); cbn [negb]; [|by destruct (ToString _)].
  destruct (Json.parse (body r)); reflexivity.
Qed.

Lemma placeOrder_run (cartId : string) (w : page) :
  placeOrder cartId w
  = (adapter_result "Failed to place order: " (fun data => or_else data VNull)
       (server w (calls w) (place_request cartId)),
     called (place_request cartId) w).
Proof.
  unfold placeOrder, try_catch, bind, fetch, adapter_result, place_request,
    called, text, json, throw_Error, lift, and_then, throw, ret.
  destruct (server w (calls w) _) as [e|r]; [reflexivity|].
  destruct (ok r); cbn [negb]; [|by destruct (ToString _)].
  destruct (Json.parse (body r)); reflexivity.
Qed.

Lemma errorMessage_normalized (generic text : string) :
  ToString (errorMessage generic text) = normalized_message generic text.
Proof.
  unfold errorMessage, normalized_message, or_else.
  destruct (Json.parse text) as [data|].
  - destruct (truthy (get_opt data "message")); [reflexivity|].
    destruct (truthy (get_opt data "error")); reflexivity.
  - destruct (String.eqb text ""); reflexivity.
Qed.

(** The result of an adapter on a response that is not ok. *)
Lemma adapter_result_not_ok (generic : string) (pick : value -> value) (r : response) :
  ok r = false ->
  adapter_result generic pick (Responded r)
  = let? msg := normalized_message (generic +:+ status_line r) (body r) in
    Throw (Error msg).
Proof.
  intros Hok. unfold adapter_result. by rewrite Hok, errorMessage_normalized.
Qed.

Lemma adapter_result_surfaced (w : page) (generic : string) (pick : value -> value)
    (req : request) :
  surfaced w generic req (adapter_result generic pick (server w (calls w) req)).
Proof. intros r -> Hok. by apply adapter_result_not_ok. Qed.

(** C8, amended.  For each of the four adapter calls, a response that is
    not ok reaches the caller as an [Error] whose message is the text of
    the [message] of the decoded body if truthy, else of its [error] if
    truthy, else the generic status message; when the body is not JSON,
    the body text if it is not empty, else the generic status message.
    (A chosen field that has no text makes the adapter throw the
    [TypeError] of the conversion instead.) *)
Theorem adapter_error_normalized (w : page) :
  (forall checkoutData,
     surfaced w "Failed to prepare checkout: " (prepare_request checkoutData)
       (prepareCheckout checkoutData w).1)
  /\ (forall cartId amount items,
        surfaced w "Failed to create PayPal order: "
          (create_request (loc w) cartId amount items)
          (createPayPalOrder cartId amount items w).1)
  /\ (forall paypalOrderId,
        surfaced w "Failed to capture PayPal payment: " (capture_request paypalOrderId)
          (capturePayPalOrder paypalOrderId w).1)
  /\ (forall cartId,
        surfaced w "Failed to place order: " (place_request cartId)
          (placeOrder cartId w).1).
Proof.
  split; [|split; [|split]]; intros.
  - rewrite prepareCheckout_run. apply adapter_result_surfaced.
  - rewrite createPayPalOrder_run. apply adapter_result_surfaced.
  - rewrite capturePayPalOrder_run. apply adapter_result_surfaced.
  - rewrite placeOrder_run. apply adapter_result_surfaced.
Qed.

(** The order action answering 500 with the body {}, and with a body
    whose [message] has no text. *)
Lemma adapter_error_normalized_witness :
  ok internal_error_empty_object = false
  /\ (placeOrder "cart-1" (fresh_page None ∅ (answering internal_error_empty_object))).1
     = Throw (Error "Failed to place order: 500 Internal Server Error")
  /\ (placeOrder "cart-1" (fresh_page None ∅ (answering internal_error_no_text))).1
     = Throw cannot_convert.
Proof.
  split; [reflexivity|]. split.
  - destruct (adapter_error_normalized
                (fresh_page None ∅ (answering internal_error_empty_object)))
      as (_ & _ & _ & Hplace).
    rewrite (Hplace "cart-1" internal_error_empty_object); reflexivity.
  - destruct (adapter_error_normalized (fresh_page None ∅ (answering internal_error_no_text)))
      as (_ & _ & _ & Hplace).
    rewrite (Hplace "cart-1" internal_error_no_text); reflexivity.
Defined.

(** C8 as the specification words it fails: a body that decodes to an
    object with neither field gives the generic message, not the body
    text. *)
Lemma adapter_error_as_specified_fails :
  (prepareCheckout (VObj [])
     (fresh_page None ∅ (answering internal_error_empty_object))).1
  = Throw (Error "Failed to prepare checkout: 500 Internal Server Error")
  /\ specified_message
       ("Failed to prepare checkout: " +:+ status_line internal_error_empty_object)
       (body internal_error_empty_object)
     = Return "{}"
  /\ (prepareCheckout (VObj [])
        (fresh_page None ∅ (answering internal_error_empty_object))).1
     <> (let? msg :=
           specified_message
             ("Failed to prepare checkout: " +:+ status_line internal_error_empty_object)
             (body internal_error_empty_object) in
         Throw (Error msg)).
Proof. vm_compute. repeat split; try reflexivity. discriminate. Qed.

(** ** The orchestrator *)

Lemma getCartId_run (w : page) : getCartId w = (Return (stored_cart_id w), w).
Proof.
  unfold getCartId, try_catch, getItem, stored_cart_id, ret.
  by destruct (storage_denied w).
Qed.

Lemma getCart_run (cartId : option string) (w : page) :
  str_truthy cartId = true ->
  getCart cartId w
  = (Return (cart_of_answer (server w (calls w) (cart_request cartId))),
     called (cart_request cartId) w).
Proof.
  intros Hc. unfold getCart. rewrite Hc. cbn [negb].
  unfold try_catch, bind, fetch, cart_of_answer, cart_request, called, json, throw, ret.
  destruct (server w (calls w) _) as [e|r]; [reflexivity|].
  destruct (ok r); cbn [negb]; [|reflexivity].
  destruct (Json.parse (body r)); reflexivity.
Qed.

Lemma getSavedAddress_state (w : page) : (getSavedAddress w).2 = w.
Proof.
  unfold getSavedAddress, try_catch, bind, getItem, throw, ret.
  destruct (storage_denied w); [reflexivity|].
  destruct (localStorage w !! _) as [t|]; [|reflexivity].
  destruct (String.eqb t ""); [reflexivity|].
  destruct (Json.parse t); reflexivity.
Qed.

Lemma new_calls_app (w w' : page) (l : list request) :
  calls w' = calls w ++ l -> new_calls w w' = l.
Proof. intros E. unfold new_calls. rewrite E. apply drop_app_length. Qed.

(** Running a sequence whose first step is known. *)
Lemma bind_run {A B} (c : M A) (k : A -> M B) (w w1 : page) (a : A) :
  c w = (Return a, w1) -> bind c k w = k a w1.
Proof. intros E. unfold bind. by rewrite E. Qed.

Lemma try_catch_bind_run {A B} (c : M A) (k : A -> M B) (h : exn -> M B)
    (w w1 : page) (a : A) :
  c w = (Return a, w1) -> try_catch (bind c k) h w = try_catch (k a) h w1.
Proof. intros E. unfold try_catch. by rewrite (bind_run c k w w1 a E). Qed.

Lemma keeps_log_ret {A} (a : A) : keeps_log (ret a).
Proof. by intros w. Qed.

Lemma keeps_log_throw {A} (e : exn) : keeps_log (@throw A e).
Proof. by intros w. Qed.

Lemma keeps_log_lift {A} (r : result A) : keeps_log (lift r).
Proof. by intros w. Qed.

Lemma keeps_log_modify_view (f : dom -> dom) : keeps_log (modify_view f).
Proof. by intros w. Qed.

Lemma keeps_log_showNotification (message type : string) :
  keeps_log (showNotification message type).
Proof. by intros w. Qed.

Lemma keeps_log_bind {A B} (c : M A) (k : A -> M B) :
  keeps_log c -> (forall a, keeps_log (k a)) -> keeps_log (bind c k).
Proof.
  intros Hc Hk w. unfold bind. specialize (Hc w).
  destruct (c w) as [[a|e] w1]; cbn [snd] in *; [|exact Hc].
  by rewrite (Hk a w1).
Qed.

Lemma keeps_log_try_catch {A} (c : M A) (h : exn -> M A) :
  keeps_log c -> (forall e, keeps_log (h e)) -> keeps_log (try_catch c h).
Proof.
  intros Hc Hh w. unfold try_catch. specialize (Hc w).
  destruct (c w) as [[a|e] w1]; cbn [snd] in *; [exact Hc|].
  by rewrite (Hh e w1).
Qed.

Lemma keeps_log_getSavedAddress : keeps_log getSavedAddress.
Proof. intros w. by rewrite getSavedAddress_state. Qed.

Lemma keeps_log_show_empty : keeps_log show_empty.
Proof. by intros w. Qed.

Lemma keeps_log_renderCartItems (items : list cart_item) :
  keeps_log (renderCartItems items).
Proof.
  unfold renderCartItems. destruct items; [apply keeps_log_ret|].
  apply keeps_log_bind; [apply keeps_log_lift|].
  intros rows. apply keeps_log_modify_view.
Qed.

Lemma keeps_log_renderOrderSummary (cartData : option cart_data) :
  keeps_log (renderOrderSummary cartData).
Proof.
  unfold renderOrderSummary. destruct cartData as [c|]; [|apply keeps_log_modify_view].
  apply keeps_log_bind; [apply keeps_log_lift|]. intros subtotal.
  apply keeps_log_bind; [apply keeps_log_lift|]. intros total.
  apply keeps_log_modify_view.
Qed.

(** What [loadCart] does with the cart it fetched. *)
Lemma keeps_log_show_cart (apiCart : value) :
  keeps_log
    (try_catch
       (let* cartData := lift (transformCartData apiCart) in
        run modify (with_currentCartData cartData) in
        match cartData with
        | Some c =>
            if (0 <? length (items c))%nat then
              run renderCartItems (items c) in
              run renderOrderSummary cartData in
              run modify_view (set_wrapper_shown true) in
              run modify_view (set_empty_shown false) in
              let* savedAddress := getSavedAddress in
              if truthy savedAddress then write_inputs savedAddress else ret tt
            else show_empty
        | None => show_empty
        end)
       (fun _ => run showNotification "Failed to load cart" "error" in show_empty)).
Proof.
  apply keeps_log_try_catch.
  - apply keeps_log_bind; [apply keeps_log_lift|]. intros cartData.
    apply keeps_log_bind; [by intros w|]. intros _.
    destruct cartData as [c|]; [|apply keeps_log_show_empty].
    destruct (0 <? length (items c))%nat; [|apply keeps_log_show_empty].
    apply keeps_log_bind; [apply keeps_log_renderCartItems|]. intros _.
    apply keeps_log_bind; [apply keeps_log_renderOrderSummary|]. intros _.
    apply keeps_log_bind; [apply keeps_log_modify_view|]. intros _.
    apply keeps_log_bind; [apply keeps_log_modify_view|]. intros _.
    apply keeps_log_bind; [apply keeps_log_getSavedAddress|]. intros savedAddress.
    destruct (truthy savedAddress); [by intros w|apply keeps_log_ret].
  - intros e. apply keeps_log_bind; [apply keeps_log_showNotification|].
    intros _. apply keeps_log_show_empty.
Qed.

(** [loadCart] asks for the cart at most once and calls nothing else. *)
Lemma loadCart_calls (w : page) :
  calls (loadCart w).2
  = calls w ++ (if str_truthy (stored_cart_id w) then [cart_request (stored_cart_id w)] else []).
Proof.
  unfold loadCart. rewrite (bind_run _ _ w w _ (getCartId_run w)).
  destruct (str_truthy (stored_cart_id w)) eqn:Hc; cbn [negb].
  - rewrite (try_catch_bind_run _ _ _ w _ _ (getCart_run _ w Hc)).
    by rewrite keeps_log_show_cart.
  - cbn. by rewrite app_nil_r.
Qed.

Lemma clearCartId_run (w : page) :
  storage_denied w = false ->
  clearCartId w
  = (Return tt, with_localStorage (delete CART_ID_STORAGE_KEY (localStorage w)) w).
Proof. intros Hs. unfold clearCartId, try_catch, removeItem. by rewrite Hs. Qed.

Lemma stored_cart_id_truthy (w : page) :
  str_truthy (stored_cart_id w) = true -> storage_denied w = false.
Proof. unfold stored_cart_id. by destruct (storage_denied w). Qed.

(** Unfolds the updates of the page and reads the fields back. *)
Ltac page_fields :=
  cbv [failed completed unconfirmed resumed called ret throw
       errored redirected stalled saved
       with_view with_calls with_localStorage with_currentNotification
       with_currentCartData with_href
       set_wrapper_shown set_empty_shown set_empty_html set_cart_items_html
       set_summary_html set_shown_errors set_inputs set_button
       storage_denied token loc server localStorage calls currentNotification
       currentCartData view href
       wrapper_shown empty_shown empty_html cart_items_html summary_html
       shown_errors inputs button_disabled button_text].

(** The handler computes [resume_outcome]. *)
Lemma handlePayPalReturn_run (w : page) : handlePayPalReturn w = resume_outcome w.
Proof.
  unfold handlePayPalReturn, resume_outcome, bind at 1, read.
  destruct (str_truthy (token w)) eqn:Htok; cbn [negb]; [|reflexivity].
  unfold bind, modify_view, modify, try_catch.
  rewrite capturePayPalOrder_run. cbn [server calls view with_view].
  fold (capture_outcome w (default "" (token w))).
  destruct (capture_outcome w (default "" (token w))) as [v|e] eqn:Hcap.
  2:{ cbn. reflexivity. }
  unfold settled. destruct (truthy v) eqn:Hv; cbn [negb andb].
  2:{ cbn. rewrite Hv. reflexivity. }
  destruct (is_string (get_opt v "status") "SUCCESS") eqn:Hst; cbn [negb].
  2:{ unfold lift, capture_failure_detail, payment_error. rewrite Hv. unfold or_else.
      destruct (truthy (get_opt v "status")); [destruct (ToString _)|]; reflexivity. }
  rewrite getCartId_run.
  repeat match goal with
         | |- context [stored_cart_id ?x] =>
             lazymatch x with
             | w => fail
             | _ => change (stored_cart_id x) with (stored_cart_id w)
             end
         end.
  destruct (str_truthy (stored_cart_id w)) eqn:Hc; cbn [negb].
  2:{ cbn. reflexivity. }
  rewrite placeOrder_run. cbn [server calls view with_view called with_calls].
  fold (place_outcome w (default "" (token w)) (default "" (stored_cart_id w))).
  destruct (place_outcome w _ _) as [o|e] eqn:Hord.
  2:{ cbn. page_fields. rewrite <- (app_assoc (calls w)). reflexivity. }
  unfold order_placed.
  destruct (truthy o && truthy (get_opt o "order")) eqn:Ho.
  - apply andb_true_iff in Ho as [Ho1 Ho2]. rewrite Ho1, Ho2. cbn [negb orb].
    rewrite clearCartId_run by (cbn; by apply stored_cart_id_truthy).
    unfold lift, displayed_order_number, payment_error.
    destruct (ToString _) as [number|e].
    + cbn. page_fields. rewrite <- (app_assoc (calls w)). reflexivity.
    + unfold unconfirmed. cbn. page_fields. rewrite <- (app_assoc (calls w)).
      reflexivity.
  - replace (negb (truthy o) || negb (truthy (get_opt o "order"))) with true
      by (destruct (truthy o), (truthy (get_opt o "order")); done).
    cbn. page_fields. rewrite <- (app_assoc (calls w)). reflexivity.
Qed.

Lemma loadCart_no_cart_id (w : page) :
  str_truthy (stored_cart_id w) = false ->
  loadCart w
  = (Return tt, with_view (set_empty_shown true (set_wrapper_shown false (view w))) w).
Proof.
  intros Hc. unfold loadCart, bind at 1. rewrite getCartId_run, Hc. reflexivity.
Qed.

Lemma loadCart_empty_run (w : page) :
  str_truthy (stored_cart_id w) = true ->
  no_line_items (loaded_cart w) ->
  exists cartData,
    loadCart w
    = (Return tt,
       with_view (set_empty_shown true (set_wrapper_shown false (view w)))
         (with_currentCartData cartData (called (cart_request (stored_cart_id w)) w))).
Proof.
  intros Hc Hno. unfold loadCart, bind at 1. rewrite getCartId_run, Hc. cbn [negb].
  unfold try_catch, bind at 1. rewrite getCart_run by exact Hc.
  unfold loaded_cart in Hno. unfold bind at 1, lift.
  destruct Hno as [Hno|(c & Hno & Hitems)]; rewrite Hno.
  - exists None. reflexivity.
  - exists (Some c). unfold bind, modify. rewrite Hitems. reflexivity.
Qed.

(** C7, amended.  A load that finds no cart identifier, no cart, or a cart
    with zero line items ends normally on the empty-cart container: the
    wrapper hidden, the container shown with the content it holds (the
    empty-cart view of the layout; the error view when the handler of the
    return from PayPal has written it there), no notification raised.  The
    only call it may have made is the one that fetches the cart: none of
    the four Payment Gateway Adapter operations. *)
Theorem loadCart_no_line_items (w : page) :
  str_truthy (stored_cart_id w) = false \/ no_line_items (loaded_cart w) ->
  let w' := (loadCart w).2 in
  (loadCart w).1 = Return tt
  /\ wrapper_shown (view w') = false
  /\ empty_shown (view w') = true
  /\ empty_html (view w') = empty_html (view w)
  /\ (empty_html (view w) = EmptyCartView -> empty_html (view w') = EmptyCartView)
  /\ currentNotification w' = currentNotification w
  /\ href w' = href w
  /\ Forall (fun req => is_payment_call req = false) (new_calls w w').
Proof.
  intros Hcase w'. subst w'.
  assert (Hcalls : Forall (fun req => is_payment_call req = false)
                     (new_calls w (loadCart w).2)).
  { rewrite (new_calls_app w _ _ (loadCart_calls w)).
    destruct (str_truthy (stored_cart_id w)); repeat constructor. }
  destruct (str_truthy (stored_cart_id w)) eqn:Hc.
  - destruct Hcase as [Hcase|Hno]; [discriminate|].
    destruct (loadCart_empty_run w Hc Hno) as [cartData Hrun].
    rewrite Hrun in *.
    repeat split; try reflexivity; [intros Hview; exact Hview | exact Hcalls].
  - rewrite (loadCart_no_cart_id w Hc) in *.
    repeat split; try reflexivity; [intros Hview; exact Hview | exact Hcalls].
Qed.

(** C7 as the specification words it fails on the load that [decorate]
    runs after a failed return from PayPal: with no cart identifier in the
    store there is no cart, and the container shown holds the error view of
    the handler, not the empty-cart view. *)
Lemma load_after_failed_return_keeps_error_view :
  let w := (handlePayPalReturn
              (fresh_page (Some "EC-1") ∅ (paypal_server capture_success order_nested))).2 in
  let w' := (loadCart w).2 in
  str_truthy (stored_cart_id w) = false
  /\ new_calls w w' = []
  /\ empty_shown (view w') = true
  /\ empty_html (view w') = ErrorView "Cart not found"
  /\ empty_html (view w') <> EmptyCartView
  /\ w' = (decorate
             (fresh_page (Some "EC-1") ∅ (paypal_server capture_success order_nested))).2.
Proof. vm_compute. repeat split; try reflexivity. discriminate. Qed.

(** A stored cart identifier whose cart comes back with zero line items. *)
Lemma loadCart_no_line_items_witness :
  no_line_items (loaded_cart page_with_empty_cart)
  /\ (loadCart page_with_empty_cart).1 = Return tt
  /\ empty_shown (view (loadCart page_with_empty_cart).2) = true
  /\ empty_html (view (loadCart page_with_empty_cart).2) = EmptyCartView
  /\ currentNotification (loadCart page_with_empty_cart).2 = None
  /\ new_calls page_with_empty_cart (loadCart page_with_empty_cart).2
     = [cart_request (Some "cart-1")].
Proof.
  assert (Hno : no_line_items (loaded_cart page_with_empty_cart)).
  { right. eexists. split; [vm_compute; reflexivity | reflexivity]. }
  split; [exact Hno|].
  destruct (loadCart_no_line_items page_with_empty_cart (or_intror Hno))
    as (Hret & _ & Hshown & _ & Hhtml & Hnote & _ & _).
  split; [exact Hret|]. split; [exact Hshown|]. split; [exact (Hhtml eq_refl)|].
  split; [exact Hnote|]. vm_compute. reflexivity.
Defined.

Lemma token_truthy (w : page) (tok : string) :
  token w = Some tok -> tok <> "" -> str_truthy (token w) = true.
Proof.
  intros -> Hne. cbn. apply negb_true_iff. by apply String.eqb_neq.
Qed.

(** [loadCart] catches what it may throw: it always returns. *)
Lemma loadCart_returns (w : page) : (loadCart w).1 = Return tt.
Proof.
  unfold loadCart, bind at 1. rewrite getCartId_run.
  destruct (str_truthy (stored_cart_id w)) eqn:Hc; cbn [negb]; [|reflexivity].
  unfold try_catch.
  match goal with |- context [let (_, _) := ?body w in _] =>
    destruct (body w) as [[[]|e] w1] end; reflexivity.
Qed.

(** With a token in the address, [decorate] runs the handler and loads the
    cart when the handler fails. *)
Lemma decorate_resume (w : page) :
  str_truthy (token w) = true ->
  decorate w
  = match resume_outcome w with
    | (Return true, w1) => (Return tt, w1)
    | (Return false, w1) => loadCart w1
    | (Throw e, w1) =>
        loadCart
          (with_currentNotification
             (notified (currentNotification w1)
                (Notification (message_or "Failed to process PayPal return" e) "error"))
             w1)
    end.
Proof.
  intros Htok. unfold decorate, bind at 1, read. rewrite Htok. cbn [andb].
  unfold try_catch, bind. rewrite handlePayPalReturn_run.
  destruct (resume_outcome w) as [[[|]|e] w1]; cbn [negb]; try reflexivity.
  pose proof (loadCart_returns w1) as Hl.
  destruct (loadCart w1) as [[[]|e] w2]; [reflexivity|discriminate].
Qed.

(** The capture is settled exactly when the server answered the capture
    request with an ok response whose body decodes to a value with the
    status SUCCESS. *)
Lemma settled_capture_iff (w : page) (tok : string) :
  settled (capture_outcome w tok) = true
  <-> exists r data,
        server w (calls w) (capture_request tok) = Responded r
        /\ ok r = true
        /\ Json.parse (body r) = Some data
        /\ get_opt data "status" = VStr "SUCCESS".
Proof.
  unfold capture_outcome, adapter_result, settled. split.
  - destruct (server w (calls w) _) as [e|r]; [discriminate|].
    destruct (ok r) eqn:Hok; [|by destruct (ToString _)].
    destruct (Json.parse (body r)) as [data|] eqn:Hp; [|discriminate].
    intros Hs. apply andb_true_iff in Hs as [Ht Hst]. unfold or_else in Ht, Hst.
    destruct (truthy data); [|discriminate].
    exists r, data. repeat split; try done.
    destruct (get_opt data "status") as [| |b|m e|s|l|l]; try discriminate.
    by apply String.eqb_eq in Hst as ->.
  - intros (r & data & -> & -> & -> & Hs).
    assert (Ht : truthy data = true).
    { destruct data; try discriminate. reflexivity. }
    unfold or_else. rewrite Ht, Hs, Ht. reflexivity.
Qed.

(** C2.  Whatever the capture call gives short of the settled status (a
    status other than SUCCESS, no status, no result, a response that is not
    ok, a failed transport), the handler returns false on the error view
    having made the capture call and no other: [placeOrder] is not called,
    and the cart load that [decorate] runs afterwards does not call it
    either. *)
Theorem capture_not_settled_no_order (w : page) (tok : string) :
  token w = Some tok -> tok <> "" ->
  settled (capture_outcome w tok) = false ->
  let w' := (handlePayPalReturn w).2 in
  (handlePayPalReturn w).1 = Return false
  /\ new_calls w w' = [capture_request tok]
  /\ empty_html (view w') = ErrorView (capture_failure_detail (capture_outcome w tok))
  /\ localStorage w' = localStorage w
  /\ Forall (fun req => target req <> CheckoutPlaceOrder) (new_calls w (decorate w).2).
Proof.
  intros Htok Hne Hcap w'. subst w'.
  pose proof (token_truthy w tok Htok Hne) as Ht.
  assert (Hrun : resume_outcome w
                 = (Return false,
                    failed (capture_failure_detail (capture_outcome w tok))
                      [capture_request tok] w)).
  { unfold resume_outcome. rewrite Ht, Htok. cbn [negb].
    change (default "" (Some tok)) with tok. cbv zeta. by rewrite Hcap. }
  rewrite (decorate_resume w Ht), handlePayPalReturn_run, Hrun. cbn [fst snd].
  split; [reflexivity|]. split; [by apply new_calls_app|].
  split; [reflexivity|]. split; [reflexivity|].
  set (w1 := failed _ _ w).
  rewrite (new_calls_app w (loadCart w1).2
             ([capture_request tok]
                ++ (if str_truthy (stored_cart_id w1)
                    then [cart_request (stored_cart_id w1)] else []))).
  - destruct (str_truthy (stored_cart_id w1)); repeat constructor; discriminate.
  - rewrite loadCart_calls. subst w1. cbn [failed calls with_view with_calls].
    by rewrite <- app_assoc.
Qed.

(** Scenario C: the capture answers the status FAILED. *)
Lemma capture_not_settled_no_order_witness :
  settled (capture_outcome (return_page capture_failed order_nested) "EC-1") = false
  /\ (handlePayPalReturn (return_page capture_failed order_nested)).1 = Return false
  /\ new_calls (return_page capture_failed order_nested)
       (handlePayPalReturn (return_page capture_failed order_nested)).2
     = [capture_request "EC-1"]
  /\ empty_html (view (handlePayPalReturn (return_page capture_failed order_nested)).2)
     = ErrorView "Payment capture was not completed successfully. Status: FAILED".
Proof.
  split; [reflexivity|].
  destruct (capture_not_settled_no_order (return_page capture_failed order_nested) "EC-1")
    as (Hret & Hcalls & Hview & _); [reflexivity|discriminate|reflexivity|].
  split; [exact Hret|]. split; [exact Hcalls|]. exact Hview.
Defined.

(** C1, amended.  When the address carries a token and the store holds no
    cart identifier, the handler still makes the capture call, exactly
    once and before it looks for the cart identifier; it never calls
    [placeOrder], and it ends on the error view, not on the success view:
    with the detail of the capture when the capture did not settle, with
    Cart not found when it did. *)
Theorem resume_without_cart_id (w : page) (tok : string) :
  token w = Some tok -> tok <> "" ->
  str_truthy (stored_cart_id w) = false ->
  let w' := (handlePayPalReturn w).2 in
  (handlePayPalReturn w).1 = Return false
  /\ new_calls w w' = [capture_request tok]
  /\ empty_html (view w')
     = ErrorView (if settled (capture_outcome w tok) then "Cart not found"
                  else capture_failure_detail (capture_outcome w tok))
  /\ localStorage w' = localStorage w.
Proof.
  intros Htok Hne Hc w'. subst w'.
  pose proof (token_truthy w tok Htok Hne) as Ht.
  rewrite handlePayPalReturn_run. unfold resume_outcome.
  rewrite Ht, Htok, Hc. cbn [negb]. change (default "" (Some tok)) with tok. cbv zeta.
  destruct (settled (capture_outcome w tok)); cbn [negb fst snd].
  all: split; [reflexivity|]; split; [by apply new_calls_app|]; split; reflexivity.
Qed.

(** The reload of the return page after a completed flow. *)
Lemma resume_without_cart_id_witness :
  str_truthy (stored_cart_id (reload (decorate (return_page capture_success order_nested)).2))
  = false
  /\ (handlePayPalReturn (reload (decorate (return_page capture_success order_nested)).2)).1
     = Return false
  /\ empty_html
       (view (handlePayPalReturn
                (reload (decorate (return_page capture_success order_nested)).2)).2)
     = ErrorView "Cart not found".
Proof.
  split; [reflexivity|].
  destruct (resume_without_cart_id
              (reload (decorate (return_page capture_success order_nested)).2) "EC-1")
    as (Hret & _ & Hview & _); [reflexivity|discriminate|reflexivity|].
  split; [exact Hret|]. exact Hview.
Defined.

(** C1 as the specification words it fails.  After a completed flow (the
    success view, the cart identifier gone from the store), a reload with
    the same token captures again and ends on the error view. *)
Lemma reload_after_completion_captures_again :
  let done := (decorate (return_page capture_success order_nested)).2 in
  let again := (decorate (reload done)).2 in
  empty_html (view done) = SuccessView "000000123"
  /\ stored_cart_id (reload done) = None
  /\ token (reload done) = Some "EC-1"
  /\ new_calls (reload done) again = [capture_request "EC-1"]
  /\ empty_html (view again) = ErrorView "Cart not found"
  /\ ~ (new_calls (reload done) again = []
        /\ exists number, empty_html (view again) = SuccessView number).
Proof.
  vm_compute. repeat split; try reflexivity. intros [Hcalls _]. discriminate.
Qed.

(** C3, amended.  On a return with a token and a cart identifier in the
    store, when the capture settles and [placeOrder] answers a body with a
    truthy [order], the calls made are the capture and the order, in that
    order, and the cart identifier is removed from the store.  The order
    number to show is [orderNumber] if truthy, else [order.order.number]
    if truthy, else empty: when it has a text, the handler returns true on
    the success view with that text, 000000123 for a body that carries it
    in either of those places and nothing for the body of Scenario B,
    which carries it in [order.number].  (A number without a text, an
    object with a [toString] property of its own, makes writing the
    success view throw: the handler then returns false on the error
    view.) *)
Theorem resume_success (w : page) (tok cartId : string) :
  token w = Some tok -> tok <> "" ->
  stored_cart_id w = Some cartId -> cartId <> "" ->
  settled (capture_outcome w tok) = true ->
  order_placed (place_outcome w tok cartId) = true ->
  let w' := (handlePayPalReturn w).2 in
  stored_cart_id w' = None
  /\ new_calls w w' = [capture_request tok; place_request cartId]
  /\ match displayed_order_number (place_outcome w tok cartId) with
     | Return number =>
         (handlePayPalReturn w).1 = Return true
         /\ empty_html (view w') = SuccessView number
     | Throw e =>
         (handlePayPalReturn w).1 = Return false
         /\ empty_html (view w') = ErrorView (payment_error e)
     end
  /\ displayed_order_number (Return order_nested) = Return "000000123"
  /\ displayed_order_number (Return order_numbered) = Return "000000123"
  /\ displayed_order_number (Return order_flat) = Return "".
Proof.
  intros Htok Hne Hc Hcne Hcap Hord w'. subst w'.
  pose proof (token_truthy w tok Htok Hne) as Ht.
  assert (Hct : str_truthy (stored_cart_id w) = true).
  { rewrite Hc. cbn. apply negb_true_iff. by apply String.eqb_neq. }
  assert (Hdel : forall content reqs,
             stored_cart_id
               (with_view content
                  (with_localStorage (delete CART_ID_STORAGE_KEY (localStorage w))
                     (with_calls reqs w))) = None).
  { intros content reqs. unfold stored_cart_id.
    cbn [storage_denied localStorage with_view with_localStorage with_calls].
    rewrite (stored_cart_id_truthy w Hct). apply lookup_delete_eq. }
  rewrite handlePayPalReturn_run. unfold resume_outcome.
  rewrite Ht, Htok, Hct, Hc. cbn [negb].
  change (default "" (Some tok)) with tok. change (default "" (Some cartId)) with cartId.
  cbv zeta. rewrite Hcap, Hord. cbn [negb].
  destruct (displayed_order_number (place_outcome w tok cartId)) as [number|e];
    cbn [fst snd].
  all: split; [apply Hdel|]; split; [by apply new_calls_app|].
  all: split; [split; reflexivity|]; repeat split; reflexivity.
Qed.

(** A return where the order action answers the number under
    [order.order.number]. *)
Lemma resume_success_witness :
  settled (capture_outcome (return_page capture_success order_nested) "EC-1") = true
  /\ order_placed (place_outcome (return_page capture_success order_nested) "EC-1" "cart-1")
     = true
  /\ empty_html (view (handlePayPalReturn (return_page capture_success order_nested)).2)
     = SuccessView "000000123"
  /\ stored_cart_id (handlePayPalReturn (return_page capture_success order_nested)).2 = None.
Proof.
  split; [reflexivity|]. split; [reflexivity|].
  destruct (resume_success (return_page capture_success order_nested) "EC-1" "cart-1")
    as (Hstore & _ & Hview & _);
    [reflexivity|discriminate|reflexivity|discriminate|reflexivity|reflexivity|].
  split; [exact (proj2 Hview)|exact Hstore].
Defined.

(** C3 as the specification words it fails: with the answers of Scenario B
    the success view shows no order number. *)
Lemma scenario_b_shows_no_number :
  let w' := (handlePayPalReturn (return_page capture_success order_flat)).2 in
  (handlePayPalReturn (return_page capture_success order_flat)).1 = Return true
  /\ empty_html (view w') = SuccessView ""
  /\ empty_html (view w') <> SuccessView "000000123"
  /\ stored_cart_id w' = None.
Proof. vm_compute. repeat split; try reflexivity. discriminate. Qed.

(** C4.  A return that carries a token while the store holds no cart
    identifier ends on the error view, shown to the user in place of the
    form.  The only call made is the capture: no cart is fetched or
    created, [placeOrder] is not called, the store is left as it was and no
    cart data is set. *)
Theorem resume_missing_cart_id_is_error (w : page) (tok : string) :
  token w = Some tok -> tok <> "" ->
  str_truthy (stored_cart_id w) = false ->
  let w' := (decorate w).2 in
  (decorate w).1 = Return tt
  /\ (exists detail, empty_html (view w') = ErrorView detail)
  /\ empty_shown (view w') = true
  /\ wrapper_shown (view w') = false
  /\ new_calls w w' = [capture_request tok]
  /\ localStorage w' = localStorage w
  /\ currentCartData w' = currentCartData w
  /\ href w' = href w.
Proof.
  intros Htok Hne Hc w'. subst w'.
  pose proof (token_truthy w tok Htok Hne) as Ht.
  rewrite (decorate_resume w Ht). unfold resume_outcome.
  rewrite Ht, Htok, Hc. cbn [negb]. change (default "" (Some tok)) with tok. cbv zeta.
  destruct (settled (capture_outcome w tok)); cbn [negb].
  all: rewrite loadCart_no_cart_id by exact Hc; cbn [fst snd].
  all: split; [reflexivity|]; split; [eexists; reflexivity|].
  all: split; [reflexivity|]; split; [reflexivity|].
  all: split; [by apply new_calls_app|]; repeat split; reflexivity.
Qed.

(** A return with a token on an empty store. *)
Lemma resume_missing_cart_id_is_error_witness :
  str_truthy (stored_cart_id (fresh_page (Some "EC-1") ∅
                                (paypal_server capture_success order_nested))) = false
  /\ new_calls (fresh_page (Some "EC-1") ∅ (paypal_server capture_success order_nested))
       (decorate (fresh_page (Some "EC-1") ∅
                    (paypal_server capture_success order_nested))).2
     = [capture_request "EC-1"]
  /\ exists detail,
       empty_html (view (decorate (fresh_page (Some "EC-1") ∅
                                     (paypal_server capture_success order_nested))).2)
       = ErrorView detail.
Proof.
  split; [reflexivity|].
  destruct (resume_missing_cart_id_is_error
              (fresh_page (Some "EC-1") ∅ (paypal_server capture_success order_nested))
              "EC-1")
    as (_ & Hview & _ & _ & Hcalls & _); [reflexivity|discriminate|reflexivity|].
  split; [exact Hcalls|exact Hview].
Defined.

Lemma stored_cart_id_saved (data : form_data) (w : page) :
  stored_cart_id (saved data w) = stored_cart_id w.
Proof.
  unfold stored_cart_id, saved. cbn [storage_denied localStorage with_localStorage].
  destruct (storage_denied w); [reflexivity|]. by apply lookup_insert_ne.
Qed.

(** Once an alert is rendered, raising another changes nothing. *)
Lemma notified_notified (shown : option notification) (a b : notification) :
  notified (notified shown a) b = notified shown a.
Proof. by destruct shown. Qed.

(** The submit action without a cart identifier, and on an invalid form:
    no call is made. *)
Lemma handlePlaceOrder_no_cart_id (w : page) :
  str_truthy (stored_cart_id w) = false ->
  handlePlaceOrder w
  = (Return tt,
     with_currentNotification
       (notified (currentNotification w) (Notification "Cart not found" "error")) w).
Proof.
  intros Hc. unfold handlePlaceOrder, bind at 1. rewrite getCartId_run, Hc. reflexivity.
Qed.

Lemma handlePlaceOrder_invalid (w : page) :
  str_truthy (stored_cart_id w) = true ->
  isValid (validateForm (read_form (inputs (view w)))) = false ->
  handlePlaceOrder w
  = (Return tt,
     with_currentNotification
       (notified (currentNotification w)
          (Notification "Please fill in all required fields" "error"))
       (with_view
          (set_shown_errors (errors (validateForm (read_form (inputs (view w))))) (view w))
          w)).
Proof.
  intros Hc Hv. unfold handlePlaceOrder, bind at 1. rewrite getCartId_run, Hc. cbn [negb].
  unfold bind at 1, read. rewrite Hv. reflexivity.
Qed.

(** The submit action on a valid form computes [submit_outcome]. *)
Lemma handlePlaceOrder_run (w : page) :
  str_truthy (stored_cart_id w) = true ->
  isValid (validateForm (read_form (inputs (view w)))) = true ->
  handlePlaceOrder w = (Return tt, submit_outcome w).
Proof.
  intros Hc Hv. pose proof (stored_cart_id_truthy w Hc) as Hs.
  unfold handlePlaceOrder, bind at 1. rewrite getCartId_run, Hc. cbn [negb].
  unfold bind at 1, read. rewrite Hv. cbn [negb].
  unfold bind at 1. rewrite saveAddress_state by exact Hs.
  fold (saved (read_form (inputs (view w))) w).
  set (data := read_form (inputs (view w))). set (ws := saved data w).
  unfold try_catch, bind at 1, modify_view, modify.
  unfold bind at 1. rewrite prepareCheckout_run.
  cbn [server calls with_view].
  change (server ws) with (server w). change (calls ws) with (calls w).
  fold (prepare_outcome w (stored_cart_id w) data).
  unfold submit_outcome. fold data. cbv zeta.
  destruct (prepare_outcome w (stored_cart_id w) data) as [v|e] eqn:Hp;
    cbn [prepared negb].
  2:{ unfold bind, showNotification, modify_view, modify. page_fields. reflexivity. }
  destruct (truthy v) eqn:Htv; cbn [negb].
  2:{ unfold bind, showNotification, modify_view, modify, throw. page_fields.
      reflexivity. }
  unfold bind at 1. rewrite getCartId_run.
  match goal with |- context [stored_cart_id ?x] =>
    lazymatch x with
    | w => fail
    | _ => replace (stored_cart_id x) with (stored_cart_id w)
             by (symmetry; apply (stored_cart_id_saved data w))
    end
  end.
  unfold bind at 1, read. cbn [currentCartData called with_calls with_view].
  change (currentCartData ws) with (currentCartData w).
  destruct (currentCartData w) as [c|].
  2:{ unfold bind, showNotification, modify_view, modify, throw. page_fields.
      reflexivity. }
  unfold bind at 1. rewrite createPayPalOrder_run.
  cbn [server calls loc called with_calls with_view].
  change (server ws) with (server w). change (calls ws) with (calls w).
  change (loc ws) with (loc w).
  fold (amount_of c). fold (create_outcome w (stored_cart_id w) data c).
  destruct (create_outcome w (stored_cart_id w) data c) as [r|e] eqn:Hcr;
    cbn [created negb].
  2:{ unfold bind, showNotification, modify_view, modify. page_fields.
      rewrite <- (app_assoc (calls w)). reflexivity. }
  destruct (truthy r && truthy (get_opt r "approvalUrl")) eqn:Hr.
  - apply andb_true_iff in Hr as [Hr1 Hr2]. rewrite Hr1, Hr2. cbn [negb orb].
    unfold navigation, assign_href, and_then, bind, lift, read, showNotification,
      modify_view, modify, throw.
    destruct (ToString (get_opt r "approvalUrl")) as [url|e].
    + cbn [loc with_currentNotification with_view with_calls called].
      change (loc ws) with (loc w).
      destruct (parses (loc w) url).
      * page_fields. rewrite <- (app_assoc (calls w)). reflexivity.
      * cbn [currentNotification with_currentNotification with_view with_calls called].
        rewrite notified_notified. page_fields.
        rewrite <- (app_assoc (calls w)). reflexivity.
    + cbn [currentNotification with_currentNotification with_view with_calls called].
      rewrite notified_notified. page_fields.
      rewrite <- (app_assoc (calls w)). reflexivity.
  - replace (negb (truthy r) || negb (truthy (get_opt r "approvalUrl"))) with true
      by (destruct (truthy r), (truthy (get_opt r "approvalUrl")); done).
    cbn [negb]. unfold bind, showNotification, modify_view, modify, throw. page_fields.
    rewrite <- (app_assoc (calls w)). reflexivity.
Qed.


Lemma errored_new_calls (detail : string) (reqs : list request) (data : form_data)
    (w : page) :
  new_calls w (errored detail reqs (saved data w)) = reqs.
Proof. by apply new_calls_app. Qed.

Lemma redirected_new_calls (url : string) (reqs : list request) (data : form_data)
    (w : page) :
  new_calls w (redirected url reqs (saved data w)) = reqs.
Proof. by apply new_calls_app. Qed.

Lemma stalled_new_calls (reqs : list request) (data : form_data) (w : page) :
  new_calls w (stalled reqs (saved data w)) = reqs.
Proof. by apply new_calls_app. Qed.



(** The store after the submit action holds the address just saved. *)
Lemma submit_outcome_store (w : page) :
  storage_denied (submit_outcome w) = storage_denied w
  /\ localStorage (submit_outcome w)
     = localStorage (saved (read_form (inputs (view w))) w).
Proof.
  unfold submit_outcome. cbv zeta.
  destruct (prepared _); cbn [negb]; [|by split].
  destruct (currentCartData w) as [c|]; [|by split].
  destruct (created _); cbn [negb]; [|by split].
  destruct (navigation _ _); by split.
Qed.

Lemma submit_outcome_calls (w : page) :
  exists rest,
    new_calls w (submit_outcome w)
    = prepare_request (checkoutData (stored_cart_id w) (read_form (inputs (view w))))
        :: rest
    /\ Forall (fun req => target req = PaypalOrderCreate) rest.
Proof.
  unfold submit_outcome. cbv zeta.
  destruct (prepared _); cbn [negb].
  2:{ exists []. split; [apply errored_new_calls|constructor]. }
  destruct (currentCartData w) as [c|].
  2:{ exists []. split; [apply errored_new_calls|constructor]. }
  eexists [_]. destruct (created _); cbn [negb].
  - destruct (navigation _ _).
    + split; [apply redirected_new_calls|]. repeat constructor.
    + split; [apply stalled_new_calls|]. repeat constructor.
  - split; [apply errored_new_calls|]. repeat constructor.
Qed.

(** C10.  On a valid form the request sent to [prepareCheckout] is built
    from the trimmed fields of the form: its shipping address carries the
    region CA and the region identifier 12 whatever region was entered, and
    the street as the list of the entered street (trimmed) and the empty
    string.  The request is the same for any other region entered.  The
    entered region is in the address written to the Session Store, which
    reads back after the action. *)
Theorem prepare_request_region_fixed (w : page) :
  str_truthy (stored_cart_id w) = true ->
  isValid (validateForm (read_form (inputs (view w)))) = true ->
  let data := read_form (inputs (view w)) in
  let sent := checkoutData (stored_cart_id w) data in
  let w' := (handlePlaceOrder w).2 in
  (exists rest,
     new_calls w w' = Request CheckoutPrepare sent :: rest
     /\ Forall (fun req => target req = PaypalOrderCreate) rest)
  /\ get_opt (get_opt sent "shippingAddress") "region" = VStr "CA"
  /\ get_opt (get_opt sent "shippingAddress") "region_id" = VNum 12 0
  /\ get_opt (get_opt sent "shippingAddress") "street"
     = VArr [VStr (form_field (inputs (view w)) "street"); VStr ""]
  /\ (forall r, checkoutData (stored_cart_id w) (with_region r data) = sent)
  /\ getSavedAddress w' = (Return (addressToSave data), w')
  /\ get_opt (addressToSave data) "region"
     = VStr (form_field (inputs (view w)) "region").
Proof.
  intros Hc Hv data sent w'. subst w'.
  rewrite (handlePlaceOrder_run w Hc Hv). cbn [fst snd].
  split; [apply submit_outcome_calls|].
  repeat split.
  destruct (submit_outcome_store w) as [Hden Hstore].
  apply getSavedAddress_stored.
  - rewrite Hden. by apply stored_cart_id_truthy.
  - rewrite Hstore. apply lookup_insert_eq.
Qed.

(** A submit with the region LND typed in: CA is sent, and the page is
    redirected. *)
Lemma prepare_request_region_fixed_witness :
  str_truthy (stored_cart_id (submit_page (checkout_server prepared_cart approval))) = true
  /\ isValid (validateForm
                (read_form (inputs (view (submit_page
                                            (checkout_server prepared_cart approval))))))
     = true
  /\ form_field (inputs (view (submit_page (checkout_server prepared_cart approval))))
       "region" = "LND"
  /\ get_opt
       (get_opt
          (checkoutData (Some "cart-1")
             (read_form (inputs (view (submit_page
                                         (checkout_server prepared_cart approval))))))
          "shippingAddress") "region"
     = VStr "CA"
  /\ href (handlePlaceOrder (submit_page (checkout_server prepared_cart approval))).2
     = Some "https://pay.example/approve?X".
Proof.
  split; [reflexivity|]. split; [vm_compute; reflexivity|].
  split; [vm_compute; reflexivity|].
  destruct (prepare_request_region_fixed
              (submit_page (checkout_server prepared_cart approval)))
    as (_ & Hregion & _); [reflexivity|vm_compute; reflexivity|].
  split; [exact Hregion|]. vm_compute. reflexivity.
Defined.

(** ** The scenarios of the specification, run on the embedding *)

(** Scenario A: a cart of one item at 50.00, a valid address, both calls
    succeed: the page is sent to the approval address and the store still
    holds the cart identifier. *)
Example scenario_a_redirects :
  let w' := (handlePlaceOrder (submit_page (checkout_server prepared_cart approval))).2 in
  href w' = Some "https://pay.example/approve?X"
  /\ stored_cart_id w' = Some "cart-1"
  /\ target <$> calls w' = [CheckoutPrepare; PaypalOrderCreate]
  /\ get_opt (default VNull (payload <$> last (calls w'))) "amount"
     = VObj [("value", VNum 5000 (-2)); ("currency_code", VStr "USD")].
Proof. vm_compute. repeat split; reflexivity. Qed.

(** Scenario C: the capture answers the status FAILED: the error view with
    the status, and the capture is the only payment call ([decorate] then
    loads the cart again). *)
Example scenario_c_routes_to_cart :
  let w' := (decorate (return_page capture_failed order_nested)).2 in
  empty_html (view w')
  = ErrorView "Payment capture was not completed successfully. Status: FAILED"
  /\ target <$> calls w' = [PaypalOrderCapture; CartGet].
Proof. vm_compute. split; reflexivity. Qed.

(** Scenario D: the order action fails after a settled capture: the error
    view carries the message of the adapter, and the cart identifier stays
    in the store. *)
Example scenario_d_order_not_recorded :
  let w' :=
    (handlePayPalReturn
       (fresh_page (Some "EC-1") {[ CART_ID_STORAGE_KEY := "cart-1" ]}
          order_failing_server)).2 in
  empty_html (view w') = ErrorView "Failed to place order: Order could not be recorded"
  /\ stored_cart_id w' = Some "cart-1"
  /\ target <$> calls w' = [PaypalOrderCapture; CheckoutPlaceOrder].
Proof. vm_compute. repeat split; reflexivity. Qed.

(** ** Corner cases, run on the embedding *)

(** An order whose number has no text: the order is placed and the cart
    identifier removed, then writing the success view throws and the
    handler answers false on the error view. *)
Example order_number_without_text :
  let order := VObj [("order", VObj [("id", VStr "7")]); ("orderNumber", no_text)] in
  let w' := (handlePayPalReturn (return_page capture_success order)).2 in
  (handlePayPalReturn (return_page capture_success order)).1 = Return false
  /\ empty_html (view w') = ErrorView "Cannot convert object to primitive value"
  /\ stored_cart_id w' = None
  /\ target <$> calls w' = [PaypalOrderCapture; CheckoutPlaceOrder].
Proof. vm_compute. repeat split; reflexivity. Qed.

(** Only the first notification of a page is rendered. *)
Example second_notification_not_rendered :
  let w := fresh_page None ∅ offline in
  currentNotification (showNotification "Cart not found" "error" w).2
  = Some (Notification "Cart not found" "error")
  /\ currentNotification
       (showNotification "Redirecting to PayPal..." "info"
          (showNotification "Cart not found" "error" w).2).2
     = Some (Notification "Cart not found" "error").
Proof. vm_compute. split; reflexivity. Qed.

(** An approval address that the browser does not take: the redirect was
    announced, nothing is assigned and the button is enabled again. *)
Example approval_address_refused :
  let answer := VObj [("approvalUrl", VStr "not an address")] in
  let w' := (handlePlaceOrder (submit_page (checkout_server prepared_cart answer))).2 in
  href w' = None
  /\ currentNotification w' = Some redirecting
  /\ button_disabled (view w') = false
  /\ target <$> calls w' = [CheckoutPrepare; PaypalOrderCreate].
Proof. vm_compute. repeat split; reflexivity. Qed.

(** A saved value with a name that makes no selector: the loop throws at
    that name, and what it wrote before stays. *)
Example saved_name_with_quote :
  let saved :=
    VObj [("firstname", VStr "Ada"); (String quote "x", VStr "y"); ("city", VStr "London")] in
  fill_inputs saved empty_inputs
  = (Throw invalid_selector, <["firstname" := "Ada"]> empty_inputs).
Proof. vm_compute. reflexivity. Qed.

(** What the controls keep of a value written to them. *)
Example controls_clean_values :
  input_value "guestEmail" (VStr " ada@example.com ") = Return "ada@example.com"
  /\ input_value "street" (VStr (String "010"%char "12 St James Square"))
     = Return "12 St James Square"
  /\ input_value "country_code" (VStr "XX") = Return ""
  /\ input_value "country_code" (VStr "GB") = Return "GB"
  /\ input_value "city" VNull = Return ""
  /\ input_value "city" no_text = Throw cannot_convert.
Proof. vm_compute. repeat split; reflexivity. Qed.

(** A transport that is down: the cart fetch gives null, as its comment
    says, while an adapter, whose comment says the same, throws what
    [fetch] threw. *)
Example transport_failure :
  (getCart (Some "cart-1") (fresh_page None ∅ offline)).1 = Return VNull
  /\ (placeOrder "cart-1" (fresh_page None ∅ offline)).1
     = Throw (TypeError "Failed to fetch").
Proof. vm_compute. split; reflexivity. Qed.

(** * Further properties of the block *)

(** ** Trimming *)

Lemma trimStart_empty_iff (s : string) : trimStart s = "" <-> all_space s = true.
Proof.
  unfold all_space. induction s as [|c s IH]; cbn; [done|].
  destruct (is_white_space c); cbn; [exact IH|]. split; discriminate.
Qed.

Lemma trimStart_starts_clean (s : string) : starts_clean (trimStart s).
Proof.
  induction s as [|c s IH]; cbn; [done|].
  destruct (is_white_space c) eqn:Hc; [exact IH|]. exact Hc.
Qed.

Lemma trimEnd_cons_clean (c : ascii) (s : string) :
  is_white_space c = false -> exists r, trimEnd (String c s) = String c r.
Proof.
  intros Hc. cbn. destruct (trimEnd s); [|by eexists].
  rewrite Hc. by eexists.
Qed.

Lemma trimEnd_ends_clean (s : string) : ends_clean (trimEnd s).
Proof.
  induction s as [|c s IH]; cbn; [done|].
  destruct (trimEnd s) as [|d r] eqn:Hr.
  - destruct (is_white_space c) eqn:Hc; cbn; [done|exact Hc].
  - exact IH.
Qed.

Lemma trimEnd_starts_clean (s : string) : starts_clean s -> starts_clean (trimEnd s).
Proof.
  destruct s as [|c s]; [done|]. cbn [starts_clean]. intros Hc.
  destruct (trimEnd_cons_clean c s Hc) as [r ->]. exact Hc.
Qed.

Lemma trimStart_id (s : string) : starts_clean s -> trimStart s = s.
Proof. destruct s as [|c s]; [done|]. cbn. by intros ->. Qed.

Lemma trimEnd_id (s : string) : ends_clean s -> trimEnd s = s.
Proof.
  induction s as [|c s IH]; [done|]. intros H.
  destruct s as [|d r].
  - cbn in *. by rewrite H.
  - specialize (IH H). cbn [trimEnd] in *. by rewrite IH.
Qed.

Lemma trim_empty_iff (s : string) : trim s = "" <-> all_space s = true.
Proof.
  rewrite <- trimStart_empty_iff. unfold trim. split.
  - intros H. pose proof (trimStart_starts_clean s) as Hs.
    destruct (trimStart s) as [|c r]; [done|]. cbn in Hs.
    destruct (trimEnd_cons_clean c r Hs) as [r' Hr]. congruence.
  - by intros ->.
Qed.

Lemma trim_trimmed (s : string) : starts_clean (trim s) /\ ends_clean (trim s).
Proof.
  unfold trim. split.
  - apply trimEnd_starts_clean, trimStart_starts_clean.
  - apply trimEnd_ends_clean.
Qed.

Lemma trim_idempotent (s : string) : trim (trim s) = trim s.
Proof.
  destruct (trim_trimmed s) as [Hs He].
  unfold trim at 1. rewrite (trimStart_id _ Hs). by apply trimEnd_id.
Qed.

(** ** The email pattern *)

(** The derivative matcher decides the language of the expression. *)
Lemma append_eq_empty (s t : string) : s +:+ t = "" -> s = "" /\ t = "".
Proof. destruct s; cbn; [by intros ->|discriminate]. Qed.

Lemma nullable_matches (r : re) : nullable r = true <-> matches r "".
Proof.
  induction r as [| |p|a IHa b IHb|a IHa b IHb|a IHa]; cbn.
  - split; [discriminate|]. inversion 1.
  - split; [intros _; constructor|done].
  - split; [discriminate|]. inversion 1.
  - rewrite andb_true_iff, IHa, IHb. split.
    + intros [Ha Hb]. exact (MSeq a b "" "" Ha Hb).
    + inversion 1 as [| |a' b' s t Hs Ht Heq| | | |]; subst.
      match goal with H : _ +:+ _ = "" |- _ => apply append_eq_empty in H as [-> ->] end.
      done.
  - rewrite orb_true_iff, IHa, IHb. split.
    + intros [H|H]; [by apply MAltL|by apply MAltR].
    + inversion 1; subst; auto.
  - split; [intros _; constructor|done].
Qed.

(** A nonempty match of a star starts with a nonempty match of its body. *)
Lemma star_cons_inv (a : re) (u : string) :
  matches (Star a) u ->
  forall c s, u = String c s ->
  exists s1 s2, s = s1 +:+ s2 /\ matches a (String c s1) /\ matches (Star a) s2.
Proof.
  intros H. remember (Star a) as r eqn:Hr. induction H as [| | | | | |a' s t Hs _ Ht IHt];
    try discriminate Hr.
  - intros c s' Heq. discriminate Heq.
  - injection Hr as ->. intros c s' Heq.
    destruct s as [|d s1].
    + cbn in Heq. by apply IHt.
    + cbn in Heq. injection Heq as -> <-. by exists s1, t.
Qed.

Lemma deriv_matches (r : re) (c : ascii) (s : string) :
  matches (deriv c r) s <-> matches r (String c s).
Proof.
  revert s. induction r as [| |p|a IHa b IHb|a IHa b IHb|a IHa]; intros s; cbn.
  - split; inversion 1.
  - split; inversion 1.
  - destruct (p c) eqn:Hp.
    + split.
      * inversion 1; subst. by constructor.
      * inversion 1; subst. constructor.
    + split; [inversion 1|]. inversion 1; subst. congruence.
  - assert (Hseq : matches (Seq (deriv c a) b) s
                   -> matches (Seq a b) (String c s)).
    { inversion 1 as [| |a' b' s1 s2 H1 H2| | | |]; subst.
      apply IHa in H1. exact (MSeq a b (String c s1) s2 H1 H2). }
    assert (Hinv : matches (Seq a b) (String c s) ->
                   (exists s1 s2, s = s1 +:+ s2 /\ matches a (String c s1) /\ matches b s2)
                   \/ (matches a "" /\ matches b (String c s))).
    { inversion 1 as [| |a' b' s1 s2 H1 H2| | | |]; subst.
      match goal with Heq : _ +:+ _ = String c s |- _ =>
        destruct s1 as [|d s1]; cbn in Heq;
          [right; subst; done | left; injection Heq as -> <-; by exists s1, s2]
      end. }
    destruct (nullable a) eqn:Hn.
    + split.
      * inversion 1; subst; [by apply Hseq|].
        match goal with H : matches (deriv c b) s |- _ => apply IHb in H end.
        apply nullable_matches in Hn. exact (MSeq a b "" (String c s) Hn ltac:(assumption)).
      * intros H. destruct (Hinv H) as [(s1 & s2 & -> & H1 & H2)|[H1 H2]].
        -- apply MAltL. apply IHa in H1. by constructor.
        -- apply MAltR. by apply IHb.
    + split; [exact Hseq|].
      intros H. destruct (Hinv H) as [(s1 & s2 & -> & H1 & H2)|[H1 H2]].
      * apply IHa in H1. by constructor.
      * apply nullable_matches in H1. congruence.
  - split.
    + inversion 1; subst; [apply MAltL|apply MAltR]; [by apply IHa|by apply IHb].
    + inversion 1; subst; [apply MAltL|apply MAltR]; [by apply IHa|by apply IHb].
  - split.
    + inversion 1 as [| |a' b' s1 s2 H1 H2| | | |]; subst.
      apply IHa in H1. exact (MStarCons a (String c s1) s2 H1 H2).
    + intros H. destruct (star_cons_inv a _ H c s eq_refl) as (s1 & s2 & -> & H1 & H2).
      apply IHa in H1. by constructor.
Qed.

Lemma test_matches (r : re) (s : string) : test r s = true <-> matches r s.
Proof.
  revert r. induction s as [|c s IH]; intros r; cbn.
  - apply nullable_matches.
  - rewrite IH. apply deriv_matches.
Qed.

Lemma star_class_matches (p : ascii -> bool) (s : string) :
  matches (Star (Class p)) s <-> forallb p (list_ascii_of_string s) = true.
Proof.
  split.
  - intros H. remember (Star (Class p)) as r eqn:Hr.
    induction H as [| | | | | |a s t Hs _ Ht IHt]; try discriminate Hr; [done|].
    injection Hr as ->. inversion Hs; subst. cbn. rewrite IHt by done.
    by rewrite andb_true_r.
  - induction s as [|c s IH]; cbn; [intros _; constructor|].
    intros [Hc Hs]%andb_true_iff.
    exact (MStarCons (Class p) (String c "") s (MClass p c Hc) (IH Hs)).
Qed.

Lemma plus_class_matches (p : ascii -> bool) (s : string) :
  matches (Plus (Class p)) s
  <-> s <> "" /\ forallb p (list_ascii_of_string s) = true.
Proof.
  unfold Plus. split.
  - inversion 1 as [| |a b s1 s2 H1 H2| | | |]; subst.
    inversion H1; subst. apply star_class_matches in H2. cbn. split; [done|].
    by rewrite H2, andb_true_r.
  - intros [Hne Hall]. destruct s as [|c s]; [done|]. cbn in Hall.
    apply andb_true_iff in Hall as [Hc Hs].
    apply (MSeq (Class p) (Star (Class p)) (String c "") s); [by constructor|].
    by apply star_class_matches.
Qed.

Lemma class_eqb_matches (c : ascii) (s : string) :
  matches (Class (Ascii.eqb c)) s <-> s = String c "".
Proof.
  split.
  - inversion 1; subst. by match goal with H : Ascii.eqb _ _ = true |- _ =>
      apply Ascii.eqb_eq in H as -> end.
  - intros ->. constructor. apply Ascii.eqb_refl.
Qed.

Lemma seq_matches (a b : re) (s : string) :
  matches (Seq a b) s <-> exists s1 s2, s = s1 +:+ s2 /\ matches a s1 /\ matches b s2.
Proof.
  split.
  - inversion 1; subst. eauto.
  - intros (s1 & s2 & -> & H1 & H2). by constructor.
Qed.

(** X1.  [isValidEmail] accepts exactly the strings of the form
    a@b.c where each of a, b and c is a nonempty run of characters that are
    neither white space nor [@] (b and c may contain dots). *)
Theorem isValidEmail_shape (email : string) :
  isValidEmail email = true
  <-> exists a b c,
        email = a +:+ "@" +:+ b +:+ "." +:+ c /\ plain a /\ plain b /\ plain c.
Proof.
  unfold isValidEmail, emailRegex. rewrite test_matches. unfold plain. split.
  - intros H.
    apply seq_matches in H as (a & r1 & -> & Ha & H). apply plus_class_matches in Ha.
    apply seq_matches in H as (x & r2 & -> & Hx & H). apply class_eqb_matches in Hx as ->.
    apply seq_matches in H as (b & r3 & -> & Hb & H). apply plus_class_matches in Hb.
    apply seq_matches in H as (y & c & -> & Hy & Hc). apply class_eqb_matches in Hy as ->.
    apply plus_class_matches in Hc. by exists a, b, c.
  - intros (a & b & c & -> & Ha & Hb & Hc).
    apply MSeq; [by apply plus_class_matches|].
    apply (MSeq _ _ "@"); [by apply class_eqb_matches|].
    apply MSeq; [by apply plus_class_matches|].
    apply (MSeq _ _ "."); [by apply class_eqb_matches|].
    by apply plus_class_matches.
Qed.

Lemma blank_all_space (s : string) : blank s = all_space s.
Proof.
  rewrite blank_trim. destruct (all_space s) eqn:Ha.
  - apply trim_empty_iff in Ha. by rewrite Ha.
  - apply String.eqb_neq. intros Ht. apply trim_empty_iff in Ht. congruence.
Qed.

Lemma isValidEmail_not_blank (email : string) :
  isValidEmail email = true -> all_space email = false.
Proof.
  unfold isValidEmail, emailRegex. rewrite test_matches. intros H.
  apply seq_matches in H as (a & rest & -> & Ha & _).
  apply plus_class_matches in Ha as [Hne Ha].
  destruct a as [|x a]; [done|]. cbn in Ha. apply andb_true_iff in Ha as [Hx _].
  unfold all_space. cbn. unfold not_space_or_at in Hx.
  apply negb_true_iff, orb_false_iff in Hx as [-> _]. reflexivity.
Qed.

(** X2.  [validateForm] declares a form valid exactly when the email has
    the shape [isValidEmail] accepts and each of the nine other fields
    holds a character that is not white space. *)
Theorem validateForm_valid_iff (formData : form_data) :
  isValid (validateForm formData) = true
  <-> isValidEmail (guestEmail formData) = true
      /\ all_space (firstname formData) = false
      /\ all_space (lastname formData) = false
      /\ all_space (company formData) = false
      /\ all_space (street formData) = false
      /\ all_space (city formData) = false
      /\ all_space (region formData) = false
      /\ all_space (postcode formData) = false
      /\ all_space (country_code formData) = false
      /\ all_space (telephone formData) = false.
Proof.
  rewrite validateForm_isValid, Nat.eqb_eq, map_size_empty_iff.
  rewrite <- !blank_all_space. split.
  - intros He.
    assert (Hk : forall k, errors (validateForm formData) !! k = None)
      by (intros k; by rewrite He).
    pose proof (Hk "guestEmail") as H0. pose proof (Hk "firstname") as H1.
    pose proof (Hk "lastname") as H2. pose proof (Hk "company") as H3.
    pose proof (Hk "street") as H4. pose proof (Hk "city") as H5.
    pose proof (Hk "region") as H6. pose proof (Hk "postcode") as H7.
    pose proof (Hk "country_code") as H8. pose proof (Hk "telephone") as H9.
    clear Hk He. rewrite lookup_errors in *. cbn in *.
    destruct (blank (guestEmail formData)); [discriminate|].
    destruct (isValidEmail (guestEmail formData)); [|discriminate].
    repeat split;
      match goal with |- blank ?f = false => by destruct (blank f) end.
  - intros (H0 & H1 & H2 & H3 & H4 & H5 & H6 & H7 & H8 & H9).
    apply map_eq. intros k. rewrite lookup_errors, lookup_empty.
    rewrite H1, H2, H3, H4, H5, H6, H7, H8, H9, H0.
    pose proof (isValidEmail_not_blank _ H0) as Hb. rewrite <- blank_all_space in Hb.
    rewrite Hb. repeat case_bool_decide; reflexivity.
Qed.

(** ** Steps that leave a part of the page as it was *)

Lemma preserves_bind {A B C} (f : page -> C) (c : M A) (k : A -> M B) :
  preserves f c -> (forall a, preserves f (k a)) -> preserves f (bind c k).
Proof.
  intros Hc Hk w. unfold bind. specialize (Hc w).
  destruct (c w) as [[a|e] w1]; cbn [snd] in *; [|exact Hc].
  by rewrite (Hk a w1).
Qed.

Lemma preserves_try_catch {A C} (f : page -> C) (c : M A) (h : exn -> M A) :
  preserves f c -> (forall e, preserves f (h e)) -> preserves f (try_catch c h).
Proof.
  intros Hc Hh w. unfold try_catch. specialize (Hc w).
  destruct (c w) as [[a|e] w1]; cbn [snd] in *; [exact Hc|].
  by rewrite (Hh e w1).
Qed.

Lemma preserves_getCartId {C} (f : page -> C) : preserves f getCartId.
Proof. intros w. by rewrite getCartId_run. Qed.

Lemma preserves_getSavedAddress {C} (f : page -> C) : preserves f getSavedAddress.
Proof. intros w. by rewrite getSavedAddress_state. Qed.

Lemma preserves_getCart {C} (f : page -> C) (cartId : option string) :
  (forall l w, f (with_calls l w) = f w) -> preserves f (getCart cartId).
Proof.
  intros Hf w. destruct (str_truthy cartId) eqn:Hc.
  - rewrite getCart_run by exact Hc. apply Hf.
  - unfold getCart. by rewrite Hc.
Qed.

Lemma preserves_renderCartItems {C} (f : page -> C) (items : list cart_item) :
  (forall l w, f (with_view (set_cart_items_html l (view w)) w) = f w) ->
  preserves f (renderCartItems items).
Proof.
  intros Hf. unfold renderCartItems. destruct items; [by intros w|].
  apply preserves_bind; [by intros w|]. intros rows w. apply Hf.
Qed.

Lemma preserves_renderOrderSummary {C} (f : page -> C) (cartData : option cart_data) :
  (forall s w, f (with_view (set_summary_html s (view w)) w) = f w) ->
  preserves f (renderOrderSummary cartData).
Proof.
  intros Hf. unfold renderOrderSummary. destruct cartData as [c|]; [|intros w; apply Hf].
  apply preserves_bind; [by intros w|]. intros subtotal.
  apply preserves_bind; [by intros w|]. intros total w. apply Hf.
Qed.

(** [loadCart] leaves alone whatever none of its updates touches. *)
Lemma preserves_loadCart {C} (f : page -> C) :
  (forall b w, f (with_view (set_wrapper_shown b (view w)) w) = f w) ->
  (forall b w, f (with_view (set_empty_shown b (view w)) w) = f w) ->
  (forall l w, f (with_view (set_cart_items_html l (view w)) w) = f w) ->
  (forall s w, f (with_view (set_summary_html s (view w)) w) = f w) ->
  (forall m w, f (with_view (set_inputs m (view w)) w) = f w) ->
  (forall l w, f (with_calls l w) = f w) ->
  (forall n w, f (with_currentNotification n w) = f w) ->
  (forall c w, f (with_currentCartData c w) = f w) ->
  preserves f loadCart.
Proof.
  intros Hwrap Hemp Hitems Hsum Hinputs Hcalls Hnote Hcart. unfold loadCart.
  apply preserves_bind; [apply preserves_getCartId|]. intros cartId.
  assert (Hempty : preserves f show_empty).
  { unfold show_empty. apply preserves_bind; [intros w; apply Hwrap|].
    intros _ w. apply Hemp. }
  destruct (negb (str_truthy cartId)); [exact Hempty|].
  apply preserves_try_catch.
  - apply preserves_bind; [by apply preserves_getCart|]. intros apiCart.
    apply preserves_bind; [by intros w|]. intros cartData.
    apply preserves_bind; [intros w; apply Hcart|]. intros _.
    destruct cartData as [c|]; [|exact Hempty].
    destruct (0 <? length (items c))%nat; [|exact Hempty].
    apply preserves_bind; [by apply preserves_renderCartItems|]. intros _.
    apply preserves_bind; [by apply preserves_renderOrderSummary|]. intros _.
    apply preserves_bind; [intros w; apply Hwrap|]. intros _.
    apply preserves_bind; [intros w; apply Hemp|]. intros _.
    apply preserves_bind; [apply preserves_getSavedAddress|]. intros savedAddress.
    destruct (truthy savedAddress); [intros w; apply Hinputs|by intros w].
  - intros e. apply preserves_bind; [intros w; apply Hnote|]. intros _. exact Hempty.
Qed.

(** Whatever happens, [loadCart] ends with exactly one of the wrapper and
    the empty-cart container displayed. *)
Lemma loadCart_one_container (w : page) : one_container (loadCart w).2.
Proof.
  unfold loadCart. rewrite (bind_run _ _ w w _ (getCartId_run w)).
  destruct (str_truthy (stored_cart_id w)) eqn:Hc; cbn [negb]; [|reflexivity].
  rewrite (try_catch_bind_run _ _ _ w _ _ (getCart_run _ w Hc)).
  set (w1 := called _ w). clearbody w1.
  unfold try_catch, bind at 1, lift.
  destruct (transformCartData _) as [[c|]|e]; [|reflexivity|reflexivity].
  unfold bind at 1, modify. set (w2 := with_currentCartData _ w1). clearbody w2.
  destruct (items c) as [|i l] eqn:Hi; [reflexivity|]. cbn [length Nat.ltb Nat.leb].
  unfold bind at 1.
  destruct (renderCartItems (i :: l) w2) as [[[]|e] w3]; [|reflexivity].
  unfold bind at 1.
  destruct (renderOrderSummary (Some c) w3) as [[[]|e] w4]; [|reflexivity].
  unfold bind, modify_view, modify.
  match goal with |- context [getSavedAddress ?x] =>
    pose proof (getSavedAddress_state x) as Hs;
    destruct (getSavedAddress x) as [[v|e] w5]; cbn in Hs; subst w5 end.
  - destruct (truthy v); [|reflexivity].
    unfold write_inputs. destruct (fill_inputs v _).1; reflexivity.
  - reflexivity.
Qed.

(** X3.  [loadCart] never throws.  It makes one call at most, the one that
    fetches the cart of the stored identifier, and none when there is no
    identifier.  It ends with exactly one of the wrapper and the empty-cart
    container displayed, and it leaves the store, the address of the page,
    the content of the empty-cart container, the field errors and the
    button as they were. *)
Theorem loadCart_settles (w : page) :
  let w' := (loadCart w).2 in
  (loadCart w).1 = Return tt
  /\ new_calls w w'
     = (if str_truthy (stored_cart_id w) then [cart_request (stored_cart_id w)] else [])
  /\ wrapper_shown (view w') = negb (empty_shown (view w'))
  /\ localStorage w' = localStorage w
  /\ href w' = href w
  /\ empty_html (view w') = empty_html (view w)
  /\ shown_errors (view w') = shown_errors (view w)
  /\ button_disabled (view w') = button_disabled (view w).
Proof.
  intros w'. subst w'.
  split; [apply loadCart_returns|].
  split; [apply new_calls_app, loadCart_calls|].
  split; [apply (loadCart_one_container w)|].
  split; [by apply (preserves_loadCart localStorage)|].
  split; [by apply (preserves_loadCart href)|].
  split; [by apply (preserves_loadCart (fun w => empty_html (view w)))|].
  split; [by apply (preserves_loadCart (fun w => shown_errors (view w)))|].
  by apply (preserves_loadCart (fun w => button_disabled (view w))).
Qed.

(** ** The cart on display *)

Lemma transformPrice_priced (p : value) : priced (transformPrice p).
Proof.
  unfold priced, transformPrice, or_else. cbn [currency amount_value]. split.
  - by destruct (truthy (get_opt p "currency")) eqn:E.
  - destruct (truthy (get_opt p "value")) eqn:E; [|reflexivity].
    by destruct (get_opt p "value").
Qed.

Lemma map_result_transformItem (elems : list value) :
  if forallb (fun x => negb (nullish x)) elems
  then exists l, map_result transformItem elems = Return l
         /\ uid <$> l = (fun x => get_opt x "uid") <$> elems
         /\ Forall (fun item => priced (item_price item) /\ priced (rowTotal item)) l
  else map_result transformItem elems = Throw (cannot_read_null "uid").
Proof.
  induction elems as [|x elems IH]; cbn [forallb map_result].
  - exists []. repeat split. constructor.
  - destruct (nullish x) eqn:Hx; cbn [negb andb].
    { unfold transformItem. by rewrite Hx. }
    assert (Hit : exists item,
               transformItem x = Return item /\ uid item = get_opt x "uid"
               /\ priced (item_price item) /\ priced (rowTotal item)).
    { unfold transformItem. rewrite Hx. eexists. split; [reflexivity|].
      cbn [uid item_price rowTotal]. repeat split; apply transformPrice_priced. }
    destruct Hit as (item & -> & Hu & Hp).
    destruct (forallb _ elems).
    + destruct IH as (l & -> & Huid & Hpriced). exists (item :: l).
      split; [reflexivity|]. split; [cbn; by rewrite Hu, Huid|]. by constructor.
    + by rewrite IH.
Qed.

(** X4.  [transformCartData] gives null for a falsy payload.  For any other
    payload it throws a [TypeError] when the item list is not an array or
    holds a null, and otherwise returns a cart with the identifier of the
    payload, one item per element in the same order, and only prices that
    carry a currency and a value (USD and 0 where the payload has none). *)
Theorem transformCartData_outcome (apiCart : value) :
  if truthy apiCart then
    match raw_items apiCart with
    | VArr elems =>
        if forallb (fun x => negb (nullish x)) elems
        then exists c,
               transformCartData apiCart = Return (Some c)
               /\ id c = get_opt apiCart "id"
               /\ uid <$> items c = (fun x => get_opt x "uid") <$> elems
               /\ Forall (fun item => priced (item_price item) /\ priced (rowTotal item))
                    (items c)
               /\ priced (grandTotal c)
               /\ priced (subtotalExcludingTax c)
        else transformCartData apiCart = Throw (cannot_read_null "uid")
    | _ => transformCartData apiCart = Throw map_is_not_a_function
    end
  else transformCartData apiCart = Return None.
Proof.
  unfold transformCartData, raw_items.
  destruct (truthy apiCart); cbn [negb]; [|done].
  destruct (or_else _ _) as [| | | | |elems|]; try reflexivity.
  pose proof (map_result_transformItem elems) as H.
  destruct (forallb _ elems).
  - destruct H as (l & -> & Huid & Hpriced). eexists. split; [reflexivity|].
    cbn [id items grandTotal subtotalExcludingTax].
    repeat split; try done; apply transformPrice_priced.
  - by rewrite H.
Qed.

Lemma formatPrice_priced (p : price) :
  priced p ->
  formatPrice p
  = let? code := ToString (currency p) in
    if well_formed_currency code then
      if converts (amount_value p) then Return (Formatted code (amount_value p))
      else Throw cannot_convert
    else Throw (RangeError ("Invalid currency code : " +:+ code)).
Proof. intros [Hc Hv]. unfold formatPrice. by rewrite Hc, Hv. Qed.

Lemma fill_inputs_falsy (v : value) (form : gmap string string) :
  truthy v = false -> fill_inputs v form = (Return tt, form).
Proof.
  intros Hv. unfold fill_inputs.
  destruct v as [| |b|m e|s|l|l]; try reflexivity; try discriminate.
  destruct s; [reflexivity|discriminate].
Qed.

Lemma getSavedAddress_value (w : page) :
  getSavedAddress w = (Return (saved_address w), w).
Proof.
  unfold saved_address, getSavedAddress, try_catch, bind, getItem, throw, ret.
  destruct (storage_denied w); [reflexivity|].
  destruct (localStorage w !! _) as [t|]; [|reflexivity].
  destruct (String.eqb t ""); [reflexivity|].
  destruct (Json.parse t); reflexivity.
Qed.

Lemma saved_address_frame (w w' : page) :
  storage_denied w' = storage_denied w ->
  localStorage w' = localStorage w ->
  saved_address w' = saved_address w.
Proof.
  intros Hd Hs.
  unfold saved_address, getSavedAddress, try_catch, bind, getItem, throw, ret.
  rewrite Hd, Hs.
  destruct (storage_denied w); [reflexivity|].
  destruct (localStorage w !! _) as [t|]; [|reflexivity].
  destruct (String.eqb t ""); [reflexivity|].
  destruct (Json.parse t); reflexivity.
Qed.

Lemma renderItem_item (item : cart_item) (row : cart_item * formatted_price) :
  renderItem item = Return row -> row.1 = item.
Proof.
  unfold renderItem, and_then. repeat case_match; try discriminate.
  all: by intros [= <-].
Qed.

Lemma render_rows (l : list cart_item) :
  match map_result renderItem l with
  | Return rows => forallb row_renders l = true /\ rows.*1 = l
  | Throw _ => forallb row_renders l = false
  end.
Proof.
  induction l as [|item l IH]; cbn [map_result forallb]; [done|].
  unfold row_renders at 1 3.
  destruct (renderItem item) as [row|e] eqn:Hrow; [|reflexivity].
  apply renderItem_item in Hrow.
  destruct (map_result _ l) as [rows|e].
  - destruct IH as [-> <-]. cbn. by rewrite Hrow.
  - by rewrite IH.
Qed.

Lemma loadCart_display_run (w : page) (c : cart_data) :
  str_truthy (stored_cart_id w) = true ->
  loaded_cart w = Return (Some c) ->
  items c <> [] ->
  renders c = true ->
  writable (saved_address w) (inputs (view w)) = true ->
  exists rows subtotal total,
    rows.*1 = items c
    /\ formatPrice (subtotalExcludingTax c) = Return subtotal
    /\ formatPrice (grandTotal c) = Return total
    /\ loadCart w
       = (Return tt,
          with_view
            (set_inputs (fill_inputs (saved_address w) (inputs (view w))).2
               (set_empty_shown false
                  (set_wrapper_shown true
                     (set_summary_html (Some (subtotal, total))
                        (set_cart_items_html (Some rows) (view w))))))
            (with_currentCartData (Some c)
               (called (cart_request (stored_cart_id w)) w))).
Proof.
  intros Hc Hload Hitems Hrenders Hfill.
  apply andb_true_iff in Hrenders as [[Hrows Hsub]%andb_true_iff Htot].
  unfold loadCart. rewrite (bind_run _ _ w w _ (getCartId_run w)). rewrite Hc. cbn [negb].
  rewrite (try_catch_bind_run _ _ _ w _ _ (getCart_run _ w Hc)).
  unfold loaded_cart in Hload. unfold try_catch, bind at 1, lift. rewrite Hload.
  unfold bind at 1, modify.
  destruct (items c) as [|i l] eqn:Hi; [done|]. cbn [length Nat.ltb Nat.leb].
  unfold renderCartItems, bind at 1 2, lift.
  pose proof (render_rows (i :: l)) as Hr.
  destruct (map_result _ (i :: l)) as [rows|e]; [|congruence].
  destruct Hr as [_ Hfst].
  unfold price_formats in Hsub, Htot.
  unfold bind at 1, renderOrderSummary, bind at 1 2, lift, modify_view, modify.
  destruct (formatPrice (subtotalExcludingTax c)) as [subtotal|e]; [|discriminate].
  destruct (formatPrice (grandTotal c)) as [total|e]; [|discriminate].
  exists rows, subtotal, total. split; [exact Hfst|]. split; [reflexivity|].
  split; [reflexivity|].
  unfold bind. rewrite getSavedAddress_value.
  repeat match goal with |- context [saved_address ?x] =>
    lazymatch x with
    | w => fail
    | _ => rewrite (saved_address_frame w x eq_refl eq_refl)
    end end.
  destruct (truthy (saved_address w)) eqn:Ht.
  - unfold write_inputs. cbn [inputs view with_view set_empty_shown set_wrapper_shown
      set_summary_html set_cart_items_html with_currentCartData called with_calls].
    unfold writable in Hfill.
    destruct (fill_inputs (saved_address w) (inputs (view w))) as [[[]|e] form];
      [|discriminate].
    reflexivity.
  - rewrite (fill_inputs_falsy _ _ Ht). destruct w as [? ? ? ? ? ? ? ? [] ?]. reflexivity.
Qed.

(** X5.  When the stored cart comes back with at least one item, every
    row and both prices of the summary render, and the saved address, if
    any, can be written back, [loadCart] keeps the cart in
    [currentCartData], displays the wrapper with one row per item and the
    summary, hides the empty-cart container, raises no notification, and
    leaves in the controls that carry the names of the saved address what
    they keep of its values. *)
Theorem loadCart_shows_cart (w : page) (c : cart_data) :
  str_truthy (stored_cart_id w) = true ->
  loaded_cart w = Return (Some c) ->
  items c <> [] ->
  renders c = true ->
  writable (saved_address w) (inputs (view w)) = true ->
  let w' := (loadCart w).2 in
  wrapper_shown (view w') = true
  /\ empty_shown (view w') = false
  /\ currentCartData w' = Some c
  /\ (exists rows, cart_items_html (view w') = Some rows /\ rows.*1 = items c)
  /\ (exists subtotal total,
        summary_html (view w') = Some (subtotal, total)
        /\ formatPrice (subtotalExcludingTax c) = Return subtotal
        /\ formatPrice (grandTotal c) = Return total)
  /\ currentNotification w' = currentNotification w
  /\ inputs (view w') = (fill_inputs (saved_address w) (inputs (view w))).2.
Proof.
  intros Hc Hload Hitems Hrenders Hfill w'. subst w'.
  destruct (loadCart_display_run w c Hc Hload Hitems Hrenders Hfill)
    as (rows & subtotal & total & Hfst & Hsub & Htot & ->).
  cbn [snd]. repeat split; eauto.
Qed.

(** A stored identifier whose cart comes back with one item. *)
Lemma loadCart_shows_cart_witness :
  wrapper_shown (view (loadCart cart_page).2) = true
  /\ empty_shown (view (loadCart cart_page).2) = false
  /\ currentCartData (loadCart cart_page).2 = Some loaded_one_item.
Proof.
  destruct (loadCart_shows_cart cart_page loaded_one_item)
    as (Hwrapper & Hempty & Hcart & _);
    [reflexivity | vm_compute; reflexivity | discriminate | reflexivity
    | reflexivity |].
  split; [exact Hwrapper|]. split; [exact Hempty|exact Hcart].
Defined.

(** ** The Session Store, key by key *)

Lemma saveAddress_run (address : value) (w : page) :
  saveAddress address w
  = (Return tt,
     if storage_denied w then w
     else with_localStorage
            (<[GUEST_ADDRESS_STORAGE_KEY := default "undefined" (Json.stringify address)]>
               (localStorage w)) w).
Proof. unfold saveAddress, try_catch, setItem. by destruct (storage_denied w). Qed.

Lemma clearCartId_total (w : page) :
  clearCartId w
  = (Return tt,
     if storage_denied w then w
     else with_localStorage (delete CART_ID_STORAGE_KEY (localStorage w)) w).
Proof. unfold clearCartId, try_catch, removeItem. by destruct (storage_denied w). Qed.

(** X6.  The two reads of the Session Store never throw and leave the page
    as it is, also when the store is denied or holds text that is no JSON.
    [getCartId] gives the stored identifier, null in a denied store;
    [getSavedAddress] gives a value other than null only when the stored
    text decodes to it. *)
Theorem store_reads_never_throw (w : page) :
  getCartId w = (Return (stored_cart_id w), w)
  /\ getSavedAddress w = (Return (saved_address w), w)
  /\ (storage_denied w = true -> stored_cart_id w = None /\ saved_address w = VNull)
  /\ (saved_address w <> VNull ->
      exists t, localStorage w !! GUEST_ADDRESS_STORAGE_KEY = Some t
                /\ Json.parse t = Some (saved_address w)).
Proof.
  split; [apply getCartId_run|]. split; [apply getSavedAddress_value|].
  unfold stored_cart_id, saved_address, getSavedAddress, try_catch, bind, getItem, throw, ret.
  destruct (storage_denied w); [by split|]. split; [discriminate|].
  destruct (localStorage w !! GUEST_ADDRESS_STORAGE_KEY) as [t|]; [|done].
  destruct (String.eqb t ""); [done|].
  destruct (Json.parse t) as [v|] eqn:Hp; [|done].
  intros _. by exists t.
Qed.

(** X7.  The two writes of the Session Store never throw, and each touches
    its own key only: saving an address keeps the cart identifier, clearing
    the cart identifier keeps the saved address and leaves no identifier to
    read, and clearing twice is clearing once. *)
Theorem store_writes_keep_other_key (address : value) (w : page) :
  (saveAddress address w).1 = Return tt
  /\ (clearCartId w).1 = Return tt
  /\ stored_cart_id (saveAddress address w).2 = stored_cart_id w
  /\ saved_address (clearCartId w).2 = saved_address w
  /\ stored_cart_id (clearCartId w).2 = None
  /\ clearCartId (clearCartId w).2 = clearCartId w.
Proof.
  rewrite saveAddress_run, clearCartId_total. cbn [fst snd].
  split; [reflexivity|]. split; [reflexivity|].
  destruct (storage_denied w) eqn:Hs.
  - split; [reflexivity|]. split; [reflexivity|].
    split; [unfold stored_cart_id; by rewrite Hs|].
    rewrite clearCartId_total. by rewrite Hs.
  - split.
    { unfold stored_cart_id. cbn [storage_denied localStorage with_localStorage].
      rewrite Hs. by apply lookup_insert_ne. }
    split.
    { unfold saved_address, getSavedAddress, try_catch, bind, getItem.
      cbn [storage_denied localStorage with_localStorage]. rewrite Hs.
      rewrite lookup_delete_ne by done.
      destruct (localStorage w !! GUEST_ADDRESS_STORAGE_KEY) as [t|]; [|reflexivity].
      destruct (String.eqb t ""); [reflexivity|].
      destruct (Json.parse t); reflexivity. }
    split.
    { unfold stored_cart_id. cbn [storage_denied localStorage with_localStorage].
      rewrite Hs. apply lookup_delete_eq. }
    rewrite clearCartId_total. cbn [storage_denied localStorage with_localStorage].
    rewrite Hs. rewrite delete_delete_eq. reflexivity.
Qed.

(** ** One call per adapter *)

Lemma adapter_result_returns (generic : string) (pick : value -> value) (w : page)
    (req : request) (v : value) :
  adapter_result generic pick (server w (calls w) req) = Return v
  <-> exists data, answers_ok w req data /\ v = pick data.
Proof.
  unfold adapter_result, answers_ok. split.
  - destruct (server w (calls w) req) as [e|r]; [discriminate|].
    destruct (ok r) eqn:Hok; [|by destruct (ToString _)].
    destruct (Json.parse (body r)) as [data|] eqn:Hp; [|discriminate].
    intros [= <-]. exists data. split; [|reflexivity]. by exists r.
  - intros (data & (r & -> & -> & ->) & ->). reflexivity.
Qed.

(** X8.  Each of the four adapters sends exactly one request, whether it
    returns or throws, and changes nothing else of the page; it returns a
    value only from a response that is ok and whose body decodes: the cart
    of the body for [prepareCheckout], the body itself (null when falsy) for
    the other three. *)
Theorem adapters_post_once (w : page) :
  (forall checkoutData,
     posts_once (prepareCheckout checkoutData) (prepare_request checkoutData)
       (fun data => or_else (get_opt data "cart") VNull) w)
  /\ (forall cartId amount items,
        posts_once (createPayPalOrder cartId amount items)
          (create_request (loc w) cartId amount items) (fun data => or_else data VNull) w)
  /\ (forall paypalOrderId,
        posts_once (capturePayPalOrder paypalOrderId) (capture_request paypalOrderId)
          (fun data => or_else data VNull) w)
  /\ (forall cartId,
        posts_once (placeOrder cartId) (place_request cartId)
          (fun data => or_else data VNull) w).
Proof.
  unfold posts_once. split; [|split; [|split]]; intros.
  - rewrite prepareCheckout_run. split; [reflexivity|]. intros v.
    apply adapter_result_returns.
  - rewrite createPayPalOrder_run. split; [reflexivity|]. intros v.
    apply adapter_result_returns.
  - rewrite capturePayPalOrder_run. split; [reflexivity|]. intros v.
    apply adapter_result_returns.
  - rewrite placeOrder_run. split; [reflexivity|]. intros v.
    apply adapter_result_returns.
Qed.

(** X9.  [getCart] never throws.  Without a cart identifier it gives null
    and calls nothing; with one it sends the one cart request, and gives a
    truthy cart only when the server answers ok with a body that decodes,
    the cart being the [cart] of that body.  A failed transport, a response
    that is not ok and a body that is no JSON all give null. *)
Theorem getCart_outcome (cartId : option string) (w : page) :
  exists cart,
    getCart cartId w
    = (Return cart, if str_truthy cartId then called (cart_request cartId) w else w)
    /\ (truthy cart = true
        <-> str_truthy cartId = true
            /\ exists data,
                 answers_ok w (cart_request cartId) data
                 /\ truthy (get_opt data "cart") = true
                 /\ cart = get_opt data "cart").
Proof.
  destruct (str_truthy cartId) eqn:Hc.
  - rewrite (getCart_run cartId w Hc). eexists. split; [reflexivity|].
    unfold cart_of_answer, answers_ok, or_else. split.
    + destruct (server w (calls w) _) as [e|r]; [discriminate|].
      destruct (ok r) eqn:Hok; [|discriminate].
      destruct (Json.parse (body r)) as [data|] eqn:Hp; [|discriminate].
      destruct (truthy (get_opt data "cart")) eqn:Ht; [|discriminate].
      intros _. split; [reflexivity|]. exists data. split; [by exists r|]. by split.
    + intros (_ & data & (r & -> & -> & ->) & Ht & _). by rewrite Ht.
  - exists VNull. unfold getCart. rewrite Hc. split; [reflexivity|].
    split; [discriminate|]. by intros [? _].
Qed.

(** ** The catch block of [loadCart] *)

(** What [loadCart] does with the cart it fetched, when that fails. *)
Lemma loadCart_fails_run (w : page) :
  load_fails w = true ->
  exists cartData rows,
    loadCart w
    = (Return tt,
       with_view
         (set_empty_shown true
            (set_wrapper_shown false (set_cart_items_html rows (view w))))
         (with_currentNotification
            (notified (currentNotification w) (Notification "Failed to load cart" "error"))
            (with_currentCartData cartData
               (called (cart_request (stored_cart_id w)) w))))
    /\ cartData = match loaded_cart w with
                  | Return (Some c) => Some c
                  | _ => currentCartData w
                  end.
Proof.
  unfold load_fails. intros [Hc Hf]%andb_true_iff.
  unfold loadCart. rewrite (bind_run _ _ w w _ (getCartId_run w)). rewrite Hc. cbn [negb].
  rewrite (try_catch_bind_run _ _ _ w _ _ (getCart_run _ w Hc)).
  unfold loaded_cart in *. unfold try_catch, bind at 1, lift.
  destruct (transformCartData _) as [[c|]|e]; [| discriminate |].
  - apply andb_true_iff in Hf as [Hlen Hr]. apply negb_true_iff in Hr.
    exists (Some c).
    unfold bind at 1, modify. rewrite Hlen.
    destruct (items c) as [|i l] eqn:Hi; [discriminate|].
    unfold renders in Hr. rewrite Hi in Hr.
    unfold renderCartItems, bind at 1 2, lift.
    pose proof (render_rows (i :: l)) as Hrows.
    destruct (map_result _ (i :: l)) as [rows|e].
    2:{ exists (cart_items_html (view w)). split; [|reflexivity].
        cbn. destruct w as [? ? ? ? ? ? ? ? [] ?]. reflexivity. }
    exists (Some rows). split; [|reflexivity].
    destruct Hrows as [Hrows _]. rewrite Hrows in Hr. cbn [andb] in Hr.
    unfold price_formats in Hr.
    unfold bind at 1, renderOrderSummary, bind at 1 2, lift, modify_view, modify.
    destruct (formatPrice (subtotalExcludingTax c)) as [subtotal|e].
    2:{ cbn. destruct w as [? ? ? ? ? ? ? ? [] ?]. reflexivity. }
    destruct (formatPrice (grandTotal c)) as [total|e]; [discriminate|].
    cbn. destruct w as [? ? ? ? ? ? ? ? [] ?]. reflexivity.
  - exists (currentCartData w), (cart_items_html (view w)). split; [|reflexivity].
    cbn. destruct w as [? ? ? ? ? ? ? ? [] ?]. reflexivity.
Qed.

(** X10.  When the fetched cart does not transform, or a row or a price
    of the summary of a cart with line items does not render, [loadCart]
    ends in its catch block: it raises the notification "Failed to load
    cart" (shown unless the page had rendered a notification before) and
    leaves the page on the empty-cart container.  A cart that did
    transform stays in [currentCartData] although it is not displayed. *)
Theorem loadCart_notification (w : page) :
  load_fails w = true ->
  let w' := (loadCart w).2 in
  currentNotification w'
  = notified (currentNotification w) (Notification "Failed to load cart" "error")
  /\ wrapper_shown (view w') = false
  /\ empty_shown (view w') = true
  /\ currentCartData w' = match loaded_cart w with
                          | Return (Some c) => Some c
                          | _ => currentCartData w
                          end
  /\ (loadCart w).1 = Return tt.
Proof.
  intros Hf w'. subst w'.
  destruct (loadCart_fails_run w Hf) as (cartData & rows & -> & ->). by repeat split.
Qed.

(** A stored cart whose item list is no list. *)
Lemma loadCart_notification_witness :
  currentNotification (loadCart malformed_cart_page).2
  = Some (Notification "Failed to load cart" "error")
  /\ empty_shown (view (loadCart malformed_cart_page).2) = true.
Proof.
  destruct (loadCart_notification malformed_cart_page) as (Hnote & _ & Hempty & _);
    [vm_compute; reflexivity|].
  split; [exact Hnote|exact Hempty].
Defined.

(** ** The saved address back in the form *)

(** Writing never adds or removes a control, also when it throws. *)
Lemma fill_entries_names (entries : list (string * value)) (form : gmap string string)
    (name : string) :
  is_Some ((fill_entries entries form).2 !! name) <-> is_Some (form !! name).
Proof.
  revert form. induction entries as [|[key v] entries IH]; intros form;
    cbn [fill_entries snd]; [done|].
  destruct (selector_safe key); cbn [negb snd]; [|done].
  destruct (form !! key) as [old|] eqn:Hold; [|apply IH].
  destruct (input_value key v) as [s|e]; cbn [snd]; [|done].
  rewrite IH. destruct (String.eqb_spec key name) as [->|Hne].
  - rewrite lookup_insert_eq, Hold. split; by eexists.
  - by rewrite lookup_insert_ne.
Qed.

Lemma input_value_string (name s : string) :
  input_value name (VStr s) = Return (sanitize (control_of name) s).
Proof. unfold input_value. by destruct (control_of name). Qed.

(** Writing strings under names that make well-formed selectors never
    throws: each control named takes what it keeps of the last string
    written under its name. *)
Lemma fill_entries_strings (kvs : list (string * string)) (form : gmap string string) :
  forallb (fun kv => selector_safe kv.1) kvs = true ->
  (fill_entries (prod_map Datatypes.id VStr <$> kvs) form).1 = Return tt
  /\ forall name,
       (fill_entries (prod_map Datatypes.id VStr <$> kvs) form).2 !! name
       = (fun old =>
            fold_left
              (fun acc kv =>
                 if String.eqb kv.1 name then sanitize (control_of name) kv.2 else acc)
              kvs old) <$> form !! name.
Proof.
  revert form. induction kvs as [|[k t] kvs IH]; intros form Hsafe.
  - split; [reflexivity|]. intros name. cbn. by destruct (form !! name).
  - cbn [forallb fst] in Hsafe. apply andb_true_iff in Hsafe as [Hk Hsafe].
    cbn [fmap list_fmap prod_map fst snd fill_entries Datatypes.id fold_left].
    rewrite Hk. cbn [negb]. rewrite input_value_string.
    destruct (form !! k) as [old|] eqn:Hold.
    + destruct (IH (<[k := sanitize (control_of k) t]> form) Hsafe) as [Hret Hlook].
      split; [exact Hret|]. intros name. rewrite Hlook.
      destruct (String.eqb_spec k name) as [->|Hne].
      * by rewrite lookup_insert_eq, Hold.
      * by rewrite lookup_insert_ne.
    + destruct (IH form Hsafe) as [Hret Hlook].
      split; [exact Hret|]. intros name. rewrite Hlook.
      destruct (String.eqb_spec k name) as [->|Hne]; [|reflexivity].
      by rewrite Hold.
Qed.

Lemma fill_inputs_address_lookup (data : form_data) (form : gmap string string) :
  (fill_inputs (addressToSave data) form).1 = Return tt
  /\ forall name,
       (fill_inputs (addressToSave data) form).2 !! name
       = (fun old => default old (sanitize (control_of name) <$> field_of data name))
           <$> form !! name.
Proof.
  change (fill_inputs (addressToSave data) form)
    with (fill_entries (prod_map Datatypes.id VStr <$> address_fields data) form).
  destruct (fill_entries_strings (address_fields data) form) as [Hret Hlook];
    [reflexivity|].
  split; [exact Hret|]. intros name. rewrite Hlook.
  destruct (form !! name) as [old|]; [|reflexivity]. cbn [fmap option_fmap option_map].
  f_equal. unfold field_of, address_fields.
  destruct (String.eqb_spec name "guestEmail") as [->|?]; [reflexivity|].
  destruct (String.eqb_spec name "firstname") as [->|?]; [reflexivity|].
  destruct (String.eqb_spec name "lastname") as [->|?]; [reflexivity|].
  destruct (String.eqb_spec name "company") as [->|?]; [reflexivity|].
  destruct (String.eqb_spec name "street") as [->|?]; [reflexivity|].
  destruct (String.eqb_spec name "city") as [->|?]; [reflexivity|].
  destruct (String.eqb_spec name "region") as [->|?]; [reflexivity|].
  destruct (String.eqb_spec name "postcode") as [->|?]; [reflexivity|].
  destruct (String.eqb_spec name "country_code") as [->|?]; [reflexivity|].
  destruct (String.eqb_spec name "telephone") as [->|?]; [reflexivity|].
  cbn [fold_left fst snd default].
  repeat match goal with
         | |- context [String.eqb ?k name] =>
             destruct (String.eqb_spec k name) as [<-|?]; [done|]
         end.
  reflexivity.
Qed.

(** X11.  Writing a saved value back into the form never adds or removes a
    control, whatever was saved and whether or not the writing throws.
    Writing a saved address (ten strings) never throws: a control that
    carries the name of one of the ten fields takes what it keeps of the
    saved value of that field (a text input drops line breaks, the email
    input also white space at both ends, the country select reads empty
    for a value that is not among its options), and every other control
    keeps its value. *)
Theorem fill_inputs_address (savedAddress : value) (data : form_data)
    (form : gmap string string) (name : string) :
  (is_Some ((fill_inputs savedAddress form).2 !! name) <-> is_Some (form !! name))
  /\ (fill_inputs (addressToSave data) form).1 = Return tt
  /\ (fill_inputs (addressToSave data) form).2 !! name
     = (fun old => default old (sanitize (control_of name) <$> field_of data name))
         <$> form !! name.
Proof.
  split; [apply fill_entries_names|].
  destruct (fill_inputs_address_lookup data form) as [Hret Hlook].
  split; [exact Hret|apply Hlook].
Qed.

(** *** What the controls keep of a trimmed value they held *)

Lemma strip_newlines_length (s : string) :
  (String.length (strip_newlines s) <= String.length s)%nat.
Proof.
  induction s as [|c r IH]; cbn [strip_newlines String.length]; [done|].
  destruct (is_newline c); cbn [String.length]; lia.
Qed.

Lemma strip_newlines_id (s : string) : strip_newlines s = s <-> no_newline s = true.
Proof.
  unfold no_newline. induction s as [|c r IH];
    cbn [strip_newlines list_ascii_of_string forallb]; [done|].
  destruct (is_newline c) eqn:Hc; cbn [negb andb].
  - split; [|discriminate]. intros Heq.
    pose proof (strip_newlines_length r) as Hlen. rewrite Heq in Hlen.
    cbn [String.length] in Hlen. lia.
  - rewrite <- IH. split; [by intros [= ->]|by intros ->].
Qed.

Lemma no_newline_strip_newlines (s : string) : no_newline (strip_newlines s) = true.
Proof.
  unfold no_newline. induction s as [|c r IH]; cbn [strip_newlines]; [done|].
  destruct (is_newline c) eqn:Hc; [exact IH|].
  cbn [list_ascii_of_string forallb]. by rewrite Hc, IH.
Qed.

Lemma no_newline_cons (c : ascii) (r : string) :
  no_newline (String c r) = negb (is_newline c) && no_newline r.
Proof. reflexivity. Qed.

Lemma no_newline_strip_start (s : string) :
  no_newline s = true -> no_newline (strip_start s) = true.
Proof.
  induction s as [|c r IH]; cbn [strip_start]; [done|].
  rewrite no_newline_cons. intros [Hc Hr]%andb_true_iff.
  destruct (is_ascii_space c); [by apply IH|]. by rewrite no_newline_cons, Hc, Hr.
Qed.

Lemma no_newline_strip_end (s : string) :
  no_newline s = true -> no_newline (strip_end s) = true.
Proof.
  induction s as [|c r IH]; cbn [strip_end]; [done|].
  rewrite no_newline_cons. intros [Hc Hr]%andb_true_iff. specialize (IH Hr).
  destruct (strip_end r) as [|c' r'].
  - destruct (is_ascii_space c); [done|]. by rewrite no_newline_cons, Hc.
  - by rewrite no_newline_cons, Hc, IH.
Qed.

Lemma no_newline_trimStart (s : string) :
  no_newline s = true -> no_newline (trimStart s) = true.
Proof.
  induction s as [|c r IH]; cbn [trimStart]; [done|].
  rewrite no_newline_cons. intros [Hc Hr]%andb_true_iff.
  destruct (is_white_space c); [by apply IH|]. by rewrite no_newline_cons, Hc, Hr.
Qed.

Lemma no_newline_trimEnd (s : string) :
  no_newline s = true -> no_newline (trimEnd s) = true.
Proof.
  induction s as [|c r IH]; cbn [trimEnd]; [done|].
  rewrite no_newline_cons. intros [Hc Hr]%andb_true_iff. specialize (IH Hr).
  destruct (trimEnd r) as [|c' r'].
  - destruct (is_white_space c); [done|]. by rewrite no_newline_cons, Hc.
  - by rewrite no_newline_cons, Hc, IH.
Qed.

Lemma no_newline_trim (s : string) : no_newline s = true -> no_newline (trim s) = true.
Proof. intros Hs. by apply no_newline_trimEnd, no_newline_trimStart. Qed.

Lemma ascii_space_white (c : ascii) : is_ascii_space c = true -> is_white_space c = true.
Proof.
  unfold is_ascii_space, is_white_space.
  destruct (code c) as [|p]; [done|].
  do 6 (destruct p as [p|p|]; try done).
Qed.

Lemma strip_start_id (s : string) : starts_clean s -> strip_start s = s.
Proof.
  destruct s as [|c r]; cbn [starts_clean strip_start]; [done|]. intros Hc.
  destruct (is_ascii_space c) eqn:Ha; [|reflexivity].
  apply ascii_space_white in Ha. congruence.
Qed.

Lemma strip_end_id (s : string) : ends_clean s -> strip_end s = s.
Proof.
  induction s as [|c r IH]; [done|]. cbn [strip_end].
  destruct r as [|c' r'].
  - cbn. intros Hc. destruct (is_ascii_space c) eqn:Ha; [|reflexivity].
    apply ascii_space_white in Ha. congruence.
  - intros Hr. rewrite IH by exact Hr. reflexivity.
Qed.

(** A trimmed value of a control is one the control keeps as it is. *)
Lemma sanitize_trim (c : control) (s : string) :
  sanitize c s = s -> sanitize c (trim s) = trim s.
Proof.
  destruct c; cbn [sanitize].
  - intros Hs.
    assert (Hn : no_newline s = true).
    { rewrite <- Hs. apply no_newline_strip_end, no_newline_strip_start,
        no_newline_strip_newlines. }
    apply no_newline_trim, strip_newlines_id in Hn. rewrite Hn.
    destruct (trim_trimmed s) as [Hstart Hend].
    rewrite (strip_start_id _ Hstart). by apply strip_end_id.
  - intros Hs. apply strip_newlines_id, no_newline_trim, strip_newlines_id.
    exact Hs.
  - destruct (existsb (String.eqb s) countries) eqn:He.
    + intros _. cbn [countries existsb] in He.
      repeat (apply orb_true_iff in He as [->%String.eqb_eq|He]; [reflexivity|]).
      discriminate.
    + intros <-. reflexivity.
Qed.

Lemma held_lookup (form : gmap string string) (name s : string) :
  held form = true -> form !! name = Some s -> sanitize (control_of name) s = s.
Proof.
  unfold held. intros Hh%bool_decide_eq_true Hs. exact (Hh name s Hs).
Qed.

Lemma sanitize_form_field (form : gmap string string) (name : string) :
  held form = true ->
  sanitize (control_of name) (form_field form name) = form_field form name.
Proof.
  intros Hh. unfold form_field. destruct (form !! name) as [s|] eqn:Hs.
  - apply sanitize_trim. by apply (held_lookup form).
  - by destruct (control_of name).
Qed.

Lemma form_field_trimmed (form : gmap string string) (name : string) :
  trim (form_field form name) = form_field form name.
Proof. unfold form_field. destruct (form !! name); [apply trim_idempotent|reflexivity]. Qed.

(** Reading the layout's form once a form read from the controls was
    written into it gives that form again. *)
Lemma read_form_fill_inputs (form : gmap string string) :
  held form = true ->
  read_form (fill_inputs (addressToSave (read_form form)) empty_inputs).2 = read_form form.
Proof.
  intros Hh.
  destruct (fill_inputs_address_lookup (read_form form) empty_inputs) as [_ Hlook].
  unfold read_form at 1.
  unfold form_field at 1 2 3 4 5 6 7 8 9 10. rewrite !Hlook.
  repeat match goal with
         | |- context [empty_inputs !! ?k] =>
             replace (empty_inputs !! k) with (Some EmptyString)
               by (vm_compute; reflexivity)
         end.
  cbn [fmap option_fmap option_map field_of String.eqb Ascii.eqb Bool.eqb default
       read_form guestEmail firstname lastname company street city region postcode
       country_code telephone].
  rewrite !(sanitize_form_field form _ Hh). unfold Datatypes.id.
  by rewrite !form_field_trimmed.
Qed.

(** X12.  A guest who submitted a valid form finds it filled in again on
    the next visit.  When the form held what its controls can hold and the
    store took the address, a reload after the submit action, whatever its
    two calls gave, whose cart comes back with line items that render
    writes the saved address into the controls, and the form then reads as
    it was submitted. *)
Theorem submitted_address_comes_back (w : page) (c : cart_data) :
  str_truthy (stored_cart_id w) = true ->
  isValid (validateForm (read_form (inputs (view w)))) = true ->
  held (inputs (view w)) = true ->
  let w1 := reload (handlePlaceOrder w).2 in
  saved_address w1 = addressToSave (read_form (inputs (view w))) ->
  loaded_cart w1 = Return (Some c) ->
  items c <> [] ->
  renders c = true ->
  inputs (view (loadCart w1).2)
  = (fill_inputs (addressToSave (read_form (inputs (view w)))) empty_inputs).2
  /\ read_form (inputs (view (loadCart w1).2)) = read_form (inputs (view w)).
Proof.
  intros Hc Hv Hheld w1 Haddr Hload Hitems Hrenders. subst w1.
  rewrite (handlePlaceOrder_run w Hc Hv) in *. cbn [snd] in *.
  set (w1 := reload (submit_outcome w)) in *.
  destruct (submit_outcome_store w) as [Hden Hstore].
  assert (Hc1 : str_truthy (stored_cart_id w1) = true).
  { replace (stored_cart_id w1)
      with (stored_cart_id (saved (read_form (inputs (view w))) w)).
    - by rewrite stored_cart_id_saved.
    - unfold stored_cart_id. subst w1. cbn [reload storage_denied localStorage].
      rewrite Hden, Hstore. reflexivity. }
  assert (Hfill : writable (saved_address w1) (inputs (view w1)) = true).
  { rewrite Haddr. unfold writable.
    by destruct (fill_inputs_address_lookup (read_form (inputs (view w)))
                   (inputs (view w1))) as [-> _]. }
  destruct (loadCart_display_run w1 c Hc1 Hload Hitems Hrenders Hfill)
    as (rows & subtotal & total & _ & _ & _ & ->).
  cbn [snd]. rewrite Haddr.
  change (inputs (view (with_view _ _))) with
    (fill_inputs (addressToSave (read_form (inputs (view w)))) empty_inputs).2.
  split; [reflexivity|]. by apply read_form_fill_inputs.
Qed.

(** A visit with a valid form and a cart of one item. *)
Lemma submitted_address_comes_back_witness :
  read_form
    (inputs (view (loadCart (reload (handlePlaceOrder visit_page).2)).2))
  = FormData "ada@example.com" "Ada" "Lovelace" "Analytical Engines"
      "12 St James Square" "London" "LND" "SW1Y 4JH" "GB" "+44 20 7946 0000".
Proof.
  destruct (submitted_address_comes_back visit_page loaded_one_item)
    as [_ Hread];
    [reflexivity | vm_compute; reflexivity | vm_compute; reflexivity
    | vm_compute; reflexivity | vm_compute; reflexivity | discriminate | reflexivity |].
  rewrite Hread. vm_compute. reflexivity.
Defined.

(** ** The submit action, whatever the page holds *)

Lemma submit_outcome_cases (w : page) :
  (exists url reqs,
     submit_outcome w = redirected url reqs (saved (read_form (inputs (view w))) w)
     /\ length reqs = 2%nat)
  \/ (exists detail reqs,
        submit_outcome w = errored detail reqs (saved (read_form (inputs (view w))) w))
  \/ (exists reqs,
        submit_outcome w = stalled reqs (saved (read_form (inputs (view w))) w)).
Proof.
  unfold submit_outcome. cbv zeta.
  destruct (prepared _); cbn [negb]; [|right; left; by do 2 eexists].
  destruct (currentCartData w) as [c|]; [|right; left; by do 2 eexists].
  destruct (created _); cbn [negb]; [|right; left; by do 2 eexists].
  destruct (navigation _ _); [left; by do 2 eexists|right; right; by eexists].
Qed.

(** X13.  The submit action never throws, and it always raises a
    notification, which is what the notification container shows unless
    the page had rendered one before.  Either the page is on its way to
    the approval address (the address assigned, the notice "Redirecting to
    PayPal...", the button left disabled, exactly two calls made), or the
    address is the one it was: the notification is then an error, or the
    redirect notice of an assignment that the browser refused, with the
    button enabled again.  In every case the cart identifier and the
    loaded cart are what they were. *)
Theorem handlePlaceOrder_redirects_or_reports (w : page) :
  let w' := (handlePlaceOrder w).2 in
  (handlePlaceOrder w).1 = Return tt
  /\ (exists n,
        currentNotification w' = notified (currentNotification w) n
        /\ ((exists url,
               href w' = Some url
               /\ n = redirecting
               /\ button_disabled (view w') = true
               /\ length (new_calls w w') = 2%nat)
            \/ (href w' = href w
                /\ (severity n = "error"
                    \/ (n = redirecting /\ button_disabled (view w') = false)))))
  /\ stored_cart_id w' = stored_cart_id w
  /\ currentCartData w' = currentCartData w.
Proof.
  intros w'. subst w'.
  destruct (str_truthy (stored_cart_id w)) eqn:Hc.
  2:{ rewrite (handlePlaceOrder_no_cart_id w Hc). cbn [fst snd].
      split; [reflexivity|]. split; [|by split].
      eexists. split; [reflexivity|]. right. split; [reflexivity|]. by left. }
  destruct (isValid (validateForm (read_form (inputs (view w))))) eqn:Hv.
  2:{ rewrite (handlePlaceOrder_invalid w Hc Hv). cbn [fst snd].
      split; [reflexivity|]. split; [|by split].
      eexists. split; [reflexivity|]. right. split; [reflexivity|]. by left. }
  rewrite (handlePlaceOrder_run w Hc Hv). cbn [fst snd].
  split; [reflexivity|].
  destruct (submit_outcome_cases w)
    as [(url & reqs & -> & Hlen)|[(detail & reqs & ->)|(reqs & ->)]].
  - split.
    { exists redirecting. split; [reflexivity|]. left. exists url.
      split; [reflexivity|]. split; [reflexivity|].
      split; [reflexivity|]. by rewrite redirected_new_calls. }
    split; [apply stored_cart_id_saved|reflexivity].
  - split.
    { eexists. split; [reflexivity|]. right. split; [reflexivity|]. by left. }
    split; [apply stored_cart_id_saved|reflexivity].
  - split.
    { exists redirecting. split; [reflexivity|]. right. split; [reflexivity|].
      by right. }
    split; [apply stored_cart_id_saved|reflexivity].
Qed.

(** X14.  The submit action reaches the server only with a cart identifier
    in the store and a valid form.  Otherwise it makes no call, writes
    nothing to the store, leaves the address and the button alone, and,
    when the form was what stopped it, shows the messages of the validator
    under the inputs.  On a valid form the messages shown by an earlier
    attempt are not cleared. *)
Theorem handlePlaceOrder_gate (w : page) :
  let data := read_form (inputs (view w)) in
  let w' := (handlePlaceOrder w).2 in
  if str_truthy (stored_cart_id w) && isValid (validateForm data)
  then new_calls w w' <> []
       /\ shown_errors (view w') = shown_errors (view w)
       /\ inputs (view w') = inputs (view w)
  else new_calls w w' = []
       /\ localStorage w' = localStorage w
       /\ href w' = href w
       /\ button_disabled (view w') = button_disabled (view w)
       /\ shown_errors (view w')
          = if str_truthy (stored_cart_id w) then errors (validateForm data)
            else shown_errors (view w).
Proof.
  intros data w'. subst data w'.
  destruct (str_truthy (stored_cart_id w)) eqn:Hc; cbn [andb].
  2:{ rewrite (handlePlaceOrder_no_cart_id w Hc). cbn [snd].
      split; [|by repeat split]. apply new_calls_app. cbn. by rewrite app_nil_r. }
  destruct (isValid (validateForm (read_form (inputs (view w))))) eqn:Hv.
  2:{ rewrite (handlePlaceOrder_invalid w Hc Hv). cbn [snd].
      split; [|by repeat split]. apply new_calls_app. cbn. by rewrite app_nil_r. }
  rewrite (handlePlaceOrder_run w Hc Hv). cbn [snd]. split.
  - destruct (submit_outcome_calls w) as (rest & -> & _). discriminate.
  - destruct (submit_outcome_cases w)
      as [(url & reqs & -> & _)|[(detail & reqs & ->)|(reqs & ->)]]; by split.
Qed.

(** ** The return from PayPal, whatever the page holds *)

Lemma resume_outcome_cases (w : page) :
  str_truthy (token w) = true ->
  let tok := default "" (token w) in
  (exists number cartId,
     stored_cart_id w = Some cartId
     /\ resume_outcome w
        = (Return true, completed number [capture_request tok; place_request cartId] w))
  \/ (exists detail reqs,
        resume_outcome w = (Return false, failed detail reqs w)
        /\ (reqs = [capture_request tok]
            \/ exists cartId, reqs = [capture_request tok; place_request cartId]))
  \/ (exists detail cartId,
        stored_cart_id w = Some cartId
        /\ resume_outcome w
           = (Return false,
              unconfirmed detail [capture_request tok; place_request cartId] w)).
Proof.
  intros Htok tok. unfold resume_outcome. rewrite Htok. cbn [negb]. cbv zeta. fold tok.
  destruct (settled _); cbn [negb];
    [|right; left; do 2 eexists; split; [reflexivity|by left]].
  destruct (stored_cart_id w) as [cartId|] eqn:Hid; cbn [str_truthy default negb].
  2:{ right. left. do 2 eexists. split; [reflexivity|by left]. }
  destruct (negb (String.eqb cartId "")); cbn [negb].
  2:{ right. left. do 2 eexists. split; [reflexivity|by left]. }
  destruct (order_placed _); cbn [negb].
  - destruct (displayed_order_number _) as [number|e].
    + left. by do 2 eexists.
    + right. right. by do 2 eexists.
  - right. left. do 2 eexists. split; [reflexivity|]. right. by eexists.
Qed.

Lemma stored_cart_id_cleared (content : dom) (reqs : list request) (w : page) :
  stored_cart_id
    (with_view content
       (with_localStorage (delete CART_ID_STORAGE_KEY (localStorage w))
          (with_calls reqs w))) = None.
Proof.
  unfold stored_cart_id.
  cbn [storage_denied localStorage with_view with_localStorage with_calls].
  destruct (storage_denied w); [reflexivity|]. apply lookup_delete_eq.
Qed.

(** X15.  [handlePayPalReturn] never throws.  It answers true only after
    both calls, the capture and then the order, and then the cart
    identifier is gone from the store and the success view is up.  When it
    answers false with a token in the address, the error view is up, the
    capture was the first call and an order call is the only one that can
    follow it; the store is untouched, except when the order was placed
    and the success view could not be written (the order number had no
    text): the cart identifier is then gone from the store as well.
    Without a token nothing changes.  The saved address, the
    notification, the loaded cart and the address of the page are never
    touched. *)
Theorem handlePayPalReturn_outcome (w : page) :
  let w' := (handlePayPalReturn w).2 in
  exists success,
    (handlePayPalReturn w).1 = Return success
    /\ (if success
        then stored_cart_id w' = None
             /\ (exists number, empty_html (view w') = SuccessView number)
             /\ (exists tok cartId,
                   token w = Some tok
                   /\ stored_cart_id w = Some cartId
                   /\ new_calls w w' = [capture_request tok; place_request cartId])
        else if str_truthy (token w)
             then (exists detail, empty_html (view w') = ErrorView detail)
                  /\ (exists rest,
                        new_calls w w' = capture_request (default "" (token w)) :: rest
                        /\ Forall (fun req => target req = CheckoutPlaceOrder) rest)
                  /\ (localStorage w' = localStorage w
                      \/ (stored_cart_id w' = None
                          /\ exists cartId,
                               stored_cart_id w = Some cartId
                               /\ new_calls w w'
                                  = [capture_request (default "" (token w));
                                     place_request cartId]))
             else w' = w)
    /\ localStorage w' !! GUEST_ADDRESS_STORAGE_KEY
       = localStorage w !! GUEST_ADDRESS_STORAGE_KEY
    /\ currentNotification w' = currentNotification w
    /\ currentCartData w' = currentCartData w
    /\ href w' = href w.
Proof.
  intros w'. subst w'. rewrite handlePayPalReturn_run.
  destruct (str_truthy (token w)) eqn:Htok.
  2:{ exists false. unfold resume_outcome. rewrite Htok. cbn [negb fst snd].
      by repeat split. }
  destruct (resume_outcome_cases w Htok)
    as [(number & cartId & Hid & ->)
       |[(detail & reqs & -> & Hreqs)|(detail & cartId & Hid & ->)]]; cbn [fst snd].
  - exists true. split; [reflexivity|]. split; [|split].
    + split; [apply stored_cart_id_cleared|].
      split; [by eexists|].
      destruct (token w) as [tok|] eqn:Ht; [|discriminate].
      exists tok, cartId. split; [reflexivity|]. split; [exact Hid|].
      by apply new_calls_app.
    + unfold completed. cbn [localStorage with_view with_localStorage with_calls].
      by apply lookup_delete_ne.
    + by repeat split.
  - exists false. split; [reflexivity|]. split; [|by repeat split].
    split; [by eexists|]. split; [|by left].
    destruct Hreqs as [->|[cartId ->]].
    + exists []. split; [by apply new_calls_app|constructor].
    + eexists [_]. split; [by apply new_calls_app|]. repeat constructor.
  - exists false. split; [reflexivity|]. split; [|split].
    + split; [by eexists|]. split.
      { eexists [_]. split; [by apply new_calls_app|]. repeat constructor. }
      right. split; [apply stored_cart_id_cleared|].
      exists cartId. split; [exact Hid|]. by apply new_calls_app.
    + unfold unconfirmed. cbn [localStorage with_view with_localStorage with_calls].
      by apply lookup_delete_ne.
    + by repeat split.
Qed.

(** ** [decorate], whatever the page holds *)

Lemma new_calls_trans (w w1 w2 : page) (l1 l2 : list request) :
  calls w1 = calls w ++ l1 -> calls w2 = calls w1 ++ l2 -> new_calls w w2 = l1 ++ l2.
Proof. intros H1 H2. apply new_calls_app. by rewrite H2, H1, app_assoc. Qed.

(** X16.  [decorate] never throws and never assigns the address of the
    page.  It ends with exactly one of the wrapper and the empty-cart
    container displayed.  Its calls are those of [handlePayPalReturn]
    (none without a token in the address), followed, unless the handler
    answered true, by the cart load for the cart identifier the handler
    left in the store. *)
Theorem decorate_settles (w : page) :
  let w' := (decorate w).2 in
  (decorate w).1 = Return tt
  /\ one_container w'
  /\ href w' = href w
  /\ new_calls w w'
     = new_calls w (handlePayPalReturn w).2
         ++ (if completes w then [] else cart_calls (handlePayPalReturn w).2).
Proof.
  intros w'. subst w'. unfold completes, cart_calls. rewrite handlePayPalReturn_run.
  destruct (str_truthy (token w)) eqn:Htok.
  2:{ assert (Hd : decorate w = loadCart w).
      { unfold decorate, bind at 1, read. by rewrite Htok. }
      rewrite Hd. unfold resume_outcome. rewrite Htok. cbn [negb fst snd].
      split; [apply loadCart_returns|]. split; [apply loadCart_one_container|].
      split; [by apply (preserves_loadCart href)|].
      rewrite (new_calls_app w w []) by (by rewrite app_nil_r).
      apply new_calls_app, loadCart_calls. }
  rewrite (decorate_resume w Htok).
  destruct (resume_outcome_cases w Htok)
    as [(number & cartId & Hid & ->)
       |[(detail & reqs & -> & _)|(detail & cartId & Hid & ->)]]; cbn [fst snd].
  - split; [reflexivity|]. split; [reflexivity|]. split; [reflexivity|].
    by rewrite app_nil_r.
  - split; [apply loadCart_returns|]. split; [apply loadCart_one_container|].
    split; [by rewrite (preserves_loadCart href)|].
    rewrite (new_calls_app w (failed detail reqs w) reqs) by reflexivity.
    apply (new_calls_trans w (failed detail reqs w)); [reflexivity|].
    apply (loadCart_calls (failed detail reqs w)).
  - set (w1 := unconfirmed detail _ w).
    split; [apply loadCart_returns|]. split; [apply loadCart_one_container|].
    split; [by rewrite (preserves_loadCart href)|].
    rewrite (new_calls_app w w1 _ eq_refl).
    apply (new_calls_trans w w1); [reflexivity|]. apply (loadCart_calls w1).
Qed.

(** X17.  When the return from PayPal fails while the cart is still there
    with its line items, [decorate] goes on to load the cart, and, when
    the cart renders and the saved address can be written back, that
    display takes over: the wrapper is shown and the empty-cart container,
    which holds the error view, is hidden, with no notification raised. *)
Theorem failed_return_shows_cart (w : page) (c : cart_data) :
  str_truthy (token w) = true ->
  (handlePayPalReturn w).1 = Return false ->
  str_truthy (stored_cart_id (handlePayPalReturn w).2) = true ->
  loaded_cart (handlePayPalReturn w).2 = Return (Some c) ->
  items c <> [] ->
  renders c = true ->
  writable (saved_address (handlePayPalReturn w).2)
    (inputs (view (handlePayPalReturn w).2)) = true ->
  let w' := (decorate w).2 in
  (exists detail, empty_html (view w') = ErrorView detail)
  /\ empty_shown (view w') = false
  /\ wrapper_shown (view w') = true
  /\ currentCartData w' = Some c
  /\ currentNotification w' = currentNotification w.
Proof.
  intros Htok Hfalse Hc Hload Hitems Hrenders Hfill w'. subst w'.
  rewrite (decorate_resume w Htok). rewrite handlePayPalReturn_run in *.
  destruct (resume_outcome_cases w Htok)
    as [(number & cartId & Hid & Hrun)
       |[(detail & reqs & Hrun & _)|(detail & cartId & Hid & Hrun)]];
    rewrite Hrun in *; cbn [fst snd] in *; [discriminate| |].
  - destruct (loadCart_display_run (failed detail reqs w) c Hc Hload Hitems Hrenders Hfill)
      as (rows & subtotal & total & _ & _ & _ & ->).
    cbn [snd]. split; [by exists detail|]. by repeat split.
  - unfold unconfirmed in Hc. rewrite stored_cart_id_cleared in Hc. discriminate.
Qed.

(** A return whose capture answers FAILED, the cart of one item still
    there. *)
Lemma failed_return_shows_cart_witness :
  empty_html (view (decorate failed_return_page).2)
  = ErrorView "Payment capture was not completed successfully. Status: FAILED"
  /\ empty_shown (view (decorate failed_return_page).2) = false
  /\ wrapper_shown (view (decorate failed_return_page).2) = true
  /\ currentNotification (decorate failed_return_page).2 = None.
Proof.
  destruct (failed_return_shows_cart failed_return_page loaded_one_item)
    as (_ & Hempty & Hwrapper & _ & Hnote);
    [reflexivity | vm_compute; reflexivity | reflexivity | vm_compute; reflexivity
    | discriminate | reflexivity | reflexivity |].
  split; [vm_compute; reflexivity|]. split; [exact Hempty|]. split; [exact Hwrapper|].
  exact Hnote.
Defined.

(** ** What the submit action reads and what the cart shows *)

(** X18.  Every field the submit action reads from the form is trimmed: it
    neither starts nor ends with white space, and it is empty exactly when
    the input is missing or holds white space only.  Reading the fields is
    all it takes for the validator to see them as they will be sent. *)
Theorem form_field_clean (form : gmap string string) (name : string) :
  starts_clean (form_field form name)
  /\ ends_clean (form_field form name)
  /\ (form_field form name = ""
      <-> match form !! name with
          | Some s => all_space s = true
          | None => True
          end)
  /\ blank (form_field form name) = String.eqb (form_field form name) "".
Proof.
  unfold form_field. destruct (form !! name) as [s|].
  - destruct (trim_trimmed s) as [Hstart Hend].
    split; [exact Hstart|]. split; [exact Hend|]. split; [apply trim_empty_iff|].
    by rewrite blank_trim, trim_idempotent.
  - by repeat split.
Qed.

(** X19.  The prices [transformCartData] builds never take the [$0.00]
    fallback of [formatPrice]: a price without a currency is formatted in
    USD, one without a value as the amount 0.  The failures left are the
    [TypeError] of a currency or a value that has no text, and the
    [RangeError] of a currency code that is not well formed. *)
Theorem formatPrice_transformPrice (p : value) :
  let cur := or_else (get_opt p "currency") (VStr "USD") in
  let amount := or_else (get_opt p "value") (VNum 0 0) in
  formatPrice (transformPrice p)
  = (let? code := ToString cur in
     if well_formed_currency code then
       if converts amount then Return (Formatted code amount) else Throw cannot_convert
     else Throw (RangeError ("Invalid currency code : " +:+ code)))
  /\ formatPrice (transformPrice p) <> Return ZeroDollars
  /\ (truthy (get_opt p "currency") = false ->
      converts amount = true ->
      formatPrice (transformPrice p) = Return (Formatted "USD" amount)).
Proof.
  intros cur amount.
  assert (Hf : formatPrice (transformPrice p)
               = let? code := ToString cur in
                 if well_formed_currency code then
                   if converts amount then Return (Formatted code amount)
                   else Throw cannot_convert
                 else Throw (RangeError ("Invalid currency code : " +:+ code))).
  { rewrite (formatPrice_priced _ (transformPrice_priced p)). reflexivity. }
  split; [exact Hf|]. split.
  - rewrite Hf. unfold and_then. destruct (ToString cur) as [code|e]; [|done].
    destruct (well_formed_currency code); [|done]. by destruct (converts amount).
  - intros Ht Hv. rewrite Hf. subst cur. unfold or_else at 1. rewrite Ht.
    cbn. by rewrite Hv.
Qed.
